(** * Interview bot: scoring engine and per-candidate session state machine

    A shallow embedding of [scoring.py], [questions.py], [utils.py]
    ([generate_feedback]) and [handlers.py] of the Telegram interview bot,
    and the properties of its specification stated and settled on it.

    Conventions of the embedding.
    - Python [int] is [Z]; lengths and counts are [nat].
    - Python [str] is [string]; the operations [lower], [split], [strip] are
      the ASCII ones (case mapping of [A-Z], the ASCII white space set), so
      the model is exact for ASCII text.
    - Python [float] is IEEE binary64, [PrimFloat.float].
    - The SQLite database is a record of two tables: [candidates], a finite
      map keyed by the primary key [user_id], and [responses], a list of
      rows in insertion order.  Statements run on one connection, so a
      write is visible to the next read; [commit] has no model.
    - A handler is a function from the world before to the world after;
      the messages it sends and the errors it logs are appended to the
      world.  What a handler reads from outside comes with the delivery:
      the readings of [time.time()] and the positions [random.sample]
      draws.  [ADMIN_IDS] is a parameter of the handlers. *)

From Stdlib Require Import ZArith String Ascii List Bool Lia Floats Uint63.
From stdpp Require Import gmap strings list pretty.
Import ListNotations.

Local Open Scope string_scope.
Local Open Scope Z_scope.

(** ** Python string operations used by the bot *)

Module PyStr.

(** [str.isspace] on ASCII: TAB, LF, VT, FF, CR, FS, GS, RS, US, SPACE. *)
Definition isspace (c : ascii) : bool :=
  let n := nat_of_ascii c in
  ((9 <=? n) && (n <=? 13) || (28 <=? n) && (n <=? 32))%nat.

Definition lower_char (c : ascii) : ascii :=
  let n := nat_of_ascii c in
  if ((65 <=? n) && (n <=? 90))%nat then ascii_of_nat (n + 32) else c.

(** [s.lower()] *)
Fixpoint lower (s : string) : string :=
  match s with
  | EmptyString => EmptyString
  | String c t => String (lower_char c) (lower t)
  end.

(** [sub in s] *)
Fixpoint contains (sub s : string) : bool :=
  String.prefix sub s ||
  match s with
  | EmptyString => false
  | String _ t => contains sub t
  end.

(** [s.count(sub)] for a non-empty [sub]: occurrences that do not
    overlap, found from the left; [skip] characters of a match just
    counted remain to be passed over. *)
Fixpoint count_from (sub : string) (skip : nat) (s : string) : nat :=
  match s with
  | EmptyString => 0%nat
  | String _ t =>
      match skip with
      | S k => count_from sub k t
      | O =>
          if String.prefix sub s
          then S (count_from sub (String.length sub - 1) t)
          else count_from sub 0 t
      end
  end.

Definition count (sub s : string) : nat := count_from sub 0 s.

(** [s.split()]: maximal runs of characters that are not white space. *)
Fixpoint split_ws (word : option string) (s : string) : list string :=
  match s with
  | EmptyString => match word with Some w => [w] | None => [] end
  | String c t =>
      if isspace c
      then match word with
           | Some w => w :: split_ws None t
           | None => split_ws None t
           end
      else split_ws (Some (default EmptyString word ++ String c EmptyString)) t
  end.

Definition split (s : string) : list string := split_ws None s.

(** [s.split(sep)] for a one-character separator: empty fields are kept. *)
Fixpoint split_on (sep : ascii) (field : string) (s : string) : list string :=
  match s with
  | EmptyString => [field]
  | String c t =>
      if Ascii.eqb c sep
      then field :: split_on sep EmptyString t
      else split_on sep (field ++ String c EmptyString) t
  end.

(** [s.replace(a, b)] for one-character [a] and [b]. *)
Fixpoint replace (a b : ascii) (s : string) : string :=
  match s with
  | EmptyString => EmptyString
  | String c t => String (if Ascii.eqb c a then b else c) (replace a b t)
  end.

Fixpoint lstrip (s : string) : string :=
  match s with
  | EmptyString => EmptyString
  | String c t => if isspace c then lstrip t else s
  end.

Fixpoint rstrip (s : string) : string :=
  match s with
  | EmptyString => EmptyString
  | String c t =>
      match rstrip t with
      | EmptyString => if isspace c then EmptyString else String c EmptyString
      | t' => String c t'
      end
  end.

(** [s.strip()] *)
Definition strip (s : string) : string := rstrip (lstrip s).

(** [any(p in s for p in phrases)] *)
Definition any_in (phrases : list string) (s : string) : bool :=
  existsb (fun p => contains p s) phrases.

(** [sum(1 for p in phrases if p in s)] *)
Definition count_in (phrases : list string) (s : string) : nat :=
  length (filter (fun p => Is_true (contains p s)) phrases).

Definition nl : string := String (ascii_of_nat 10) EmptyString.
Definition dot : ascii := ascii_of_nat 46.
Definition bang : ascii := ascii_of_nat 33.
Definition qmark : ascii := ascii_of_nat 63.

End PyStr.

(** ** scoring.py *)

Module Scoring.
Import PyStr.

(** [_score_fan_control(text, lower)] *)
Definition _score_fan_control (text lower : string) : Z :=
  let confident_phrases :=
    ["i want"; "i'd love"; "i can"; "when you"; "if you"; "for me"; "i'd like"] in
  let needy_phrases :=
    ["please"; "i need"; "i hope"; "maybe"; "i guess"; "i think so"] in
  let submissive_phrases :=
    ["sorry"; "apologies"; "i apologize"; "my fault"; "i'm so sorry"] in
  let has_confidence := any_in confident_phrases lower in
  let has_needy := any_in needy_phrases lower in
  let has_submissive := any_in submissive_phrases lower in
  let control_score :=
    if has_confidence && negb has_needy && negb has_submissive then 2
    else if has_confidence || (negb has_needy && negb has_submissive) then 1
    else if negb has_needy then 1
    else 0 in
  if (3 <=? count "sorry" (PyStr.lower text))%nat
  then Z.max 0 (control_score - 1)
  else control_score.

(** [_score_emotional_investment(lower)] *)
Definition _score_emotional_investment (lower : string) : Z :=
  let chosen_phrases :=
    ["for you"; "special"; "only you"; "just for you"; "you're different";
     "you're unique"] in
  let curiosity_phrases :=
    ["imagine"; "what if"; "think about"; "picture"; "later"; "when"; "someday"] in
  let personal_phrases :=
    ["i love"; "i'm into"; "i'm drawn to"; "you make me"; "you're"; "i feel";
     "i appreciate"] in
  let connection_phrases :=
    ["miss you"; "think about you"; "remember"; "wish"; "understand"; "get you";
     "hear you"] in
  let completion_phrases :=
    ["i love you"; "i'm yours"; "forever"; "always"; "promise"] in
  let has_chosen := any_in chosen_phrases lower in
  let has_curiosity := any_in curiosity_phrases lower in
  let has_personal := any_in personal_phrases lower in
  let has_connection := any_in connection_phrases lower in
  let over_giving :=
    contains "free" lower &&
    (contains "pic" lower || contains "photo" lower || contains "video" lower) in
  let sales_pressure_words :=
    ["buy"; "pay"; "tip now"; "send money"; "purchase"; "order"] in
  let is_overpushing := (2 <=? count_in sales_pressure_words lower)%nat in
  let emotional_score :=
    if (has_chosen || has_curiosity) && (has_personal || has_connection)
       && negb (any_in completion_phrases lower) then 2
    else if (has_chosen || has_curiosity || has_personal || has_connection)
            && negb over_giving && negb is_overpushing then 1
    else if (has_personal || has_connection) && negb over_giving then 1
    else 0 in
  let emotional_score := if over_giving then 0 else emotional_score in
  if is_overpushing then Z.max 0 (emotional_score - 1) else emotional_score.

(** [_score_monetization(lower)] *)
Definition _score_monetization (lower : string) : Z :=
  let desire_keywords :=
    ["spoil"; "treat"; "unlock"; "exclusive"; "special"; "premium"; "vip"] in
  let future_ppv_keywords :=
    ["later"; "next time"; "when you"; "if you want"; "custom"; "personal";
     "whenever you're ready"] in
  let subtle_sales :=
    ["tip"; "appreciate"; "support"; "help me"; "for me";
     "when you're feeling generous"] in
  let pressure_phrases :=
    ["buy now"; "pay me"; "send money"; "give me"; "i need money"; "hurry";
     "limited time"] in
  let sales_words := ["buy"; "pay"; "tip"; "purchase"; "order"; "send"] in
  let sales_word_count := count_in sales_words lower in
  let is_overpushing := (4 <=? sales_word_count)%nat in
  let begging := any_in pressure_phrases lower in
  let has_desire := any_in desire_keywords lower in
  let has_future_setup := any_in future_ppv_keywords lower in
  let has_subtle := any_in subtle_sales lower in
  let monetization_score :=
    if (has_desire || has_subtle) && has_future_setup
       && negb begging && negb is_overpushing then 2
    else if (has_desire || has_subtle || has_future_setup)
            && negb begging && negb is_overpushing then 1
    else if (has_desire || has_subtle) && negb begging then 1
    else 0 in
  let monetization_score := if begging then 0 else monetization_score in
  if is_overpushing then 0 else monetization_score.

(** [_score_rebuttal(lower, word_count)] *)
Definition _score_rebuttal (lower : string) (word_count : nat) : Z :=
  let objection_words :=
    ["free"; "expensive"; "why"; "but"; "can't afford"; "no money"; "cheaper"] in
  let has_objection_context := any_in objection_words lower in
  if has_objection_context then
    let reframing_phrases :=
      ["i understand"; "see it as"; "think of it as"; "it's more like";
       "you're worth"] in
    let calm_phrases := ["no worries"; "totally get it"; "that's okay"; "i hear you"] in
    let argument_phrases :=
      ["you're wrong"; "that's not true"; "no you"; "you should"] in
    let has_reframe := any_in reframing_phrases lower in
    let has_calm := any_in calm_phrases lower in
    let has_argument := any_in argument_phrases lower in
    let rebuttal_score :=
      if (has_reframe || has_calm) && negb has_argument then 2
      else if has_reframe || has_calm then 1
      else 0 in
    if has_argument || contains "defend" lower then 0 else rebuttal_score
  else
    let momentum_words :=
      ["yes"; "yeah"; "sure"; "absolutely"; "definitely"; "of course"] in
    if any_in momentum_words lower || (5 <? word_count)%nat then 1 else 0.

Definition contractions : list string :=
  ["i'm"; "i've"; "don't"; "can't"; "won't"; "it's"; "that's"; "you're"; "we're"].

(** [_score_pacing(lower, word_count)] *)
Definition _score_pacing (lower : string) (word_count : nat) : Z :=
  let has_contractions := any_in contractions lower in
  let casual_words :=
    ["yeah"; "yep"; "hmm"; "mm"; "haha"; "lol"; "omg"; "tbh"; "fr"] in
  let has_casual := any_in casual_words lower in
  let corporate_phrases :=
    ["i understand"; "i appreciate"; "thank you for"; "i would be happy to"] in
  let salesy_phrases :=
    ["limited time"; "act now"; "don't miss out"; "buy today"; "hurry up"] in
  let sales_push_words :=
    ["buy"; "pay"; "tip"; "purchase"; "order"; "send"; "money"] in
  let sales_push_count := count_in sales_push_words lower in
  let is_overpushing := (4 <=? sales_push_count)%nat in
  let has_corporate := any_in corporate_phrases lower in
  let has_salesy := any_in salesy_phrases lower in
  let appropriate_length := ((5 <=? word_count) && (word_count <=? 60))%nat in
  let pacing_score :=
    if (has_contractions || has_casual) && appropriate_length
       && negb has_corporate && negb has_salesy && negb is_overpushing then 2
    else if (has_contractions || has_casual || appropriate_length)
            && negb has_salesy && negb is_overpushing then 1
    else 0 in
  let pacing_score := if has_salesy then 0 else pacing_score in
  if is_overpushing then 0 else pacing_score.

(** Conversion of a Python [int] count to [float], exact below [2^53]. *)
Definition float_of_nat (n : nat) : float :=
  PrimFloat.of_uint63 (Uint63.of_Z (Z.of_nat n)).

(** The test [variance < 3] on the word counts of the sentences:
    [avg_len = sum(lengths) / len(lengths)],
    [variance = sum((l - avg_len) ** 2 for l in lengths) / len(lengths)],
    in binary64 arithmetic, the squares as products and the sum taken
    from the left. *)
Definition low_variance (lengths : list nat) : bool :=
  let n := float_of_nat (length lengths) in
  let avg_len := PrimFloat.div (float_of_nat (fold_right Nat.add 0%nat lengths)) n in
  let sq l := let d := PrimFloat.sub (float_of_nat l) avg_len in PrimFloat.mul d d in
  let variance :=
    PrimFloat.div (fold_left (fun acc l => PrimFloat.add acc (sq l)) lengths 0%float) n in
  PrimFloat.ltb variance 3%float.

(** [[s.strip() for s in text.replace("!", ".").replace("?", ".").split(".") if s.strip()]] *)
Definition sentences (text : string) : list string :=
  filter (fun s => s <> EmptyString)
    (map strip (split_on dot EmptyString (replace qmark dot (replace bang dot text)))).

(** [_detect_ai_indicators(text, lower, word_count, response_time)] *)
Definition _detect_ai_indicators
    (text lower : string) (word_count : nat) (response_time : float) : Z :=
  let ai_score := 0 in
  let ai_score := if (6 <? count "," text)%nat then ai_score + 2 else ai_score in
  let ai_score := if (7 <? count "." text)%nat then ai_score + 1 else ai_score in
  let generic_phrases :=
    ["i understand"; "i appreciate"; "i would be happy"; "thank you for"] in
  let generic_count := count_in generic_phrases lower in
  let ai_score := if (2 <=? generic_count)%nat then ai_score + 2 else ai_score in
  let sents := sentences text in
  let ai_score :=
    if (3 <? length sents)%nat
    then if low_variance (map (fun s => length (split s)) sents)
         then ai_score + 2 else ai_score
    else ai_score in
  let has_contractions := any_in contractions lower in
  let ai_score :=
    if (15 <? word_count)%nat && negb has_contractions
    then ai_score + 1 else ai_score in
  let corporate_words :=
    ["certainly"; "absolutely"; "furthermore"; "moreover"; "additionally"] in
  let corporate_count := count_in corporate_words lower in
  let ai_score := if (2 <=? corporate_count)%nat then ai_score + 2 else ai_score in
  let ai_score := if PrimFloat.ltb response_time 1%float then ai_score + 1 else ai_score in
  let ai_score := if (100 <? word_count)%nat then ai_score + 1 else ai_score in
  ai_score.

(** The five rubric points of [analyze_response], in the order added. *)
Definition sub_scores (text : string) : list Z :=
  let lower := PyStr.lower text in
  let word_count := length (split text) in
  [ _score_fan_control text lower;
    _score_emotional_investment lower;
    _score_monetization lower;
    _score_rebuttal lower word_count;
    _score_pacing lower word_count ].

(** [analyze_response(text, response_time)] *)
Definition analyze_response (text : string) (response_time : float) : Z * Z :=
  let lower := PyStr.lower text in
  let words := split text in
  let word_count := length words in
  let score := 0 in
  let score := score + _score_fan_control text lower in
  let score := score + _score_emotional_investment lower in
  let score := score + _score_monetization lower in
  let score := score + _score_rebuttal lower word_count in
  let score := score + _score_pacing lower word_count in
  let ai_score := _detect_ai_indicators text lower word_count response_time in
  let score := Z.min score 10 in
  let ai_score := Z.min ai_score 10 in
  (score, ai_score).

Definition APPROVED : string := "APPROVED".
Definition BORDERLINE : string := "BORDERLINE".
(** The label of the third decision is spelled with a space in the code. *)
Definition NOT_ELIGIBLE : string := "NOT ELIGIBLE".

(** [determine_decision(score, ai_score)] *)
Definition determine_decision (score ai_score : Z) : string :=
  if (17 <=? score) && (ai_score <=? 8) then APPROVED
  else if (13 <=? score) && (ai_score <=? 10) then BORDERLINE
  else NOT_ELIGIBLE.

End Scoring.

(** ** questions.py *)

Module Questions.

Definition QUESTION_POOL : list string :=
  [
    "Fan: I don't usually subscribe to girls like you… but something about you feels different.";
    "A fan is very chatty, flirty, and affectionate, but hasn't spent yet. What signals do you look for before trying to monetize?";
    "Fan: I wish you were real… like actually mine.";
    "A fan goes quiet right after a good conversation. What's your follow-up message and why?";
    "Fan: You're different from other girls, I feel a real connection with you";
    "Fan: Am I special to you or just another customer?";
    "Fan: Do you talk to other guys like this too?";
    "When is the wrong time to push paid content, and how do you recover if you pushed too early?";
    "Fan: I'll buy later, I just want to talk right now.";
    "How do you make a fan feel like spending was their idea?";
    "What's the difference between teasing for engagement and teasing for conversion?";
    "Fan: Why should I pay when I can get girls for free?";
    "Fan: That's too expensive, can you lower the price?";
    "Fan: I don't have money right now, can you send something free?";
    "Fan: If we meet up I'll spoil you better, I promise princess 😏";
    "A fan hints at meeting up but doesn't say it directly. How do you keep the fantasy alive while staying safe?";
    "A fan asks a personal question that's too real or invasive. How do you redirect without sounding cold?";
    "What's more important: maintaining fantasy or being believable? Explain.";
    "If a fan starts getting emotionally dependent, what's your approach?";
    "Fan: What would you do to me right now if I was there?";
    "Fan: Can we meet in person? I'll take care of you 😈";
    "Fan: I wish you were my girlfriend for real";
    "A fan reacts badly to a message you sent. What's your next move?";
    "How do you adjust your tone between a new fan and a long-term spender?";
    "What do you do when a conversation feels stuck but not dead?";
    "Describe a situation where you would slow down escalation on purpose.";
    "Fan: You're so perfect, I can't stop thinking about you";
    "What makes a message feel human instead of scripted?";
    "Write one sentence you would send to a fan that feels intimate but safe.";
    "How do you keep conversations feeling natural when you're having many at once?";
    "What's a mistake you see bad chatters make over and over?";
    "A fan is rude but spends well. How do you handle that balance?";
    "What would make you stop engaging with a fan entirely?";
    "If you disagree with a model's tone or brand, how do you adapt?";
    "Why do you think some chatters make fans fall in love while others don't?";
    "Fan: Damn baby you got me so fucking hard right now 😈";
    "Fan: Be honest… do you actually like talking to me?";
    "Fan: Can you send me some free pics? I'm really tight on money right now.";
    "Fan: Come on, we've been talking for a while, you owe me";
    "Fan: Other girls send me free pics, why won't you?";
    "Fan: I've been a subscriber for months, you should appreciate me more";
    "Fan: You make me so horny, I need you right now";
    "Fan: I'm touching myself thinking about you";
    "Fan: I need to see more of you right now";
    "Fan: Why aren't you responding? Are you ignoring me?";
    "Fan: I'm your biggest fan, you should send me something special";
    "Fan: Can you do something just for me? I'll make it worth your while";
    "Fan: You're always busy, are you even real?";
    "Fan: I've been so good, don't I deserve a reward?";
    "Fan: Other girls give me free stuff, why are you different?";
    "Fan: I thought we had a connection, but you just want my money";
    "Fan: You're not like the others, that's why I like you";
    "Fan: Can we be friends? I don't want this to be just transactional"
  ].

Definition QUESTIONS_PER_INTERVIEW : nat := 5.

(** What [random.sample(QUESTION_POOL, k)] may return is fixed by the
    positions it draws: [k] distinct positions of the pool. *)
Definition valid_draw (draw : list nat) : bool :=
  bool_decide (length draw = QUESTIONS_PER_INTERVIEW) &&
  bool_decide (NoDup draw) &&
  forallb (fun i => i <? length QUESTION_POOL)%nat draw.

Definition random_sample (draw : list nat) : list string :=
  omap (fun i => QUESTION_POOL !! i) draw.

(** [get_random_questions()], the random choice being [draw]. *)
Definition get_random_questions (draw : list nat) : list string :=
  if (length QUESTION_POOL <? QUESTIONS_PER_INTERVIEW)%nat
  then QUESTION_POOL
  else random_sample draw.

End Questions.

(** ** utils.py: the candidate-facing feedback *)

Module Utils.
Import PyStr.

Definition feedback_approved : string :=
  "Thank you for completing the interview! 🎉" ++ nl ++ nl ++
  "We're pleased to let you know that we'd like to move forward with " ++
  "your application. You demonstrated strong emotional control, " ++
  "escalation skills, and understanding of monetization strategy." ++ nl ++
  nl ++ "Next steps:" ++ nl ++
  "• You'll receive onboarding information within the next 24-48 hours" ++
  nl ++
  "• Our team will reach out with training details and access credentials" ++
  nl ++ "• Please keep an eye on your messages for further instructions" ++
  nl ++ nl ++ "Welcome to the team! We're excited to work with you.".

Definition feedback_borderline : string :=
  "Thank you for completing the interview! 👋" ++ nl ++ nl ++
  "You showed good potential in your responses. While we're not moving " ++
  "forward immediately, we'd like to keep your application on file for " ++
  "future opportunities." ++ nl ++ nl ++
  "Your communication style shows promise, but may benefit from " ++
  "additional training in pacing or objection handling." ++ nl ++ nl ++
  "We appreciate your interest and wish you the best in your search.".

Definition feedback_other : string :=
  "Thank you for taking the time to complete our interview process." ++ nl ++
  nl ++
  "After careful consideration, we've decided to move forward with other " ++
  "candidates at this time. This doesn't reflect on you personally, but " ++
  "rather on finding the right fit for our specific needs." ++ nl ++ nl ++
  "We appreciate your interest and wish you the best in your search.".


(** [generate_feedback(score, ai_score, decision)]: the scores are not
    used, the text depends on the decision alone. *)
Definition generate_feedback (score ai_score : Z) (decision : string) : string :=
  if decide (decision = Scoring.APPROVED) then feedback_approved
  else if decide (decision = Scoring.BORDERLINE) then feedback_borderline
  else feedback_other.

End Utils.

(** ** The texts the handlers send *)

Module Msg.
Import PyStr.

Definition already_accepted : string :=
  "You have already completed the interview and were accepted." ++ nl ++ nl ++
  "Our team will be in touch with onboarding details. If you have any " ++
  "questions, please contact an administrator.".

Definition already_completed_other : string :=
  "You have already completed the interview. We appreciate your " ++
  "interest, but we've decided to move forward with other candidates at " ++
  "this time.".

Definition admin_restart_completed : string :=
  "🛠️ Admin Test Mode: Restarting interview for testing." ++ nl ++ nl ++
  "You can retake the interview as many times as needed for testing " ++
  "purposes.".

Definition admin_restart_in_progress : string :=
  "🛠️ Admin Test Mode: Restarting interview (previous interview was in " ++
  "progress)." ++ nl ++ nl ++
  "You can retake the interview as many times as needed for testing " ++
  "purposes.".

Definition already_completed_contact : string :=
  "You have already completed the interview. Please contact an " ++
  "administrator if you believe this is an error.".

Definition hello_admin : string :=
  "Hello! 👋 (Admin Test Mode)" ++ nl ++ nl ++
  "You can retake this interview as many times as needed for testing." ++
  nl ++ nl ++ "Please tell us your first name to get started.".

Definition hello : string :=
  "Hello! 👋" ++ nl ++ nl ++ "Please tell us your first name to get started.".

Definition please_start : string :=
  "Please start the bot first by sending /start".

Definition already_completed_use_start : string :=
  "You have already completed the interview. Please use /start to see " ++
  "your results.".

Definition error_use_start : string :=
  "Sorry, an error occurred. Please use /start to begin.".

Definition error_try_again : string :=
  "Sorry, an error occurred. Please try again.".

Definition name_too_short : string :=
  "Please provide a valid first name (at least 2 characters).".

Definition name_too_long : string :=
  "Please provide just your first name (not a long message).".

Definition name_not_a_name : string :=
  "Please provide just your first name (not a sentence or paragraph).".

Definition error_try_start_again : string :=
  "Sorry, an error occurred. Please try /start again.".

Definition error_start_over : string :=
  "Sorry, an error occurred. Please start over with /start".

Definition error_contact_support : string :=
  "Sorry, an error occurred. Please contact support.".

Definition admin_note : string :=
  nl ++ nl ++
  "🛠️ Admin Test Mode: You can retake this interview anytime using /start".

Definition welcome_tail : string :=
  " 👋" ++ nl ++ nl ++
  "We're happy to see you're interested in becoming part of our team." ++
  nl ++ nl ++
  "We'll now proceed with the interview phase. This consists of a few " ++
  "short questions designed to understand how you communicate, handle " ++
  "different fan situations, and whether your style aligns with what " ++
  "we're looking for." ++ nl ++ nl ++
  "There are no trick questions. Just be yourself and answer naturally.".


(** [f"Hello {applicant_name} ..."] of [_handle_name_input] *)
Definition welcome_message (applicant_name : string) : string :=
  "Hello " ++ applicant_name ++ welcome_tail.

(** The progress notice of [start_handler]. *)
Definition in_progress (current_index : Z) (total : nat) : string :=
  "You already have an interview in progress." ++ nl ++ nl ++
  "You're on question " ++
  pretty (if 0 <? current_index then current_index else 1) ++
  " of " ++ pretty total ++ "." ++ nl ++
  "Please continue by answering the current question.".

End Msg.

(** ** database.py: the tables [candidates] and [responses] *)

Module Store.

(** A row of [candidates] without its key [user_id].  The column
    [selected_questions] holds [json.dumps] of a list of strings and is
    read back with [json.loads]; the row carries the list itself. *)
Record candidate := mk_candidate {
  username : option string;
  name : option string;
  question_index : Z;
  score : Z;
  ai_score : Z;
  last_time : float;
  completed : Z;
  decision : option string;
  feedback : option string;
  has_completed_interview : Z;
  selected_questions : option (list string)
}.

(** A row of [responses] without its [AUTOINCREMENT] id.  The table
    declares no uniqueness constraint on [(user_id, question_number)]. *)
Record response := mk_response {
  user_id : Z;
  question_number : Z;
  question_text : string;
  response_text : string;
  response_time : float;
  timestamp : float
}.

(** The [logger.error] records of the handlers. *)
Inductive error_record :=
| FreshStartAfterCompletion (user_id : Z)
| NoQuestionsFound (user_id : Z)
| CurrentScoreExceedsMaximum (user_id : Z) (current_score : Z)
| FinalScoreExceedsMaximum (user_id : Z) (final_score : Z)
| LockVerificationFailed (user_id : Z)
| ErrorInHandleMessage (user_id : Z).

(** The database, the messages sent so far as (chat, text) in the order
    sent, and the error log. *)
Record world := mk_world {
  candidates : gmap Z candidate;
  responses : list response;
  outbox : list (Z * string);
  error_log : list error_record
}.

Definition empty_world : world := mk_world ∅ [] [] [].

(** [SET column = v] for each column. *)
Definition set_username v c :=
  mk_candidate v (name c) (question_index c) (score c) (ai_score c) (last_time c)
    (completed c) (decision c) (feedback c) (has_completed_interview c)
    (selected_questions c).
Definition set_name v c :=
  mk_candidate (username c) v (question_index c) (score c) (ai_score c) (last_time c)
    (completed c) (decision c) (feedback c) (has_completed_interview c)
    (selected_questions c).
Definition set_question_index v c :=
  mk_candidate (username c) (name c) v (score c) (ai_score c) (last_time c)
    (completed c) (decision c) (feedback c) (has_completed_interview c)
    (selected_questions c).
Definition set_score v c :=
  mk_candidate (username c) (name c) (question_index c) v (ai_score c) (last_time c)
    (completed c) (decision c) (feedback c) (has_completed_interview c)
    (selected_questions c).
Definition set_ai_score v c :=
  mk_candidate (username c) (name c) (question_index c) (score c) v (last_time c)
    (completed c) (decision c) (feedback c) (has_completed_interview c)
    (selected_questions c).
Definition set_last_time v c :=
  mk_candidate (username c) (name c) (question_index c) (score c) (ai_score c) v
    (completed c) (decision c) (feedback c) (has_completed_interview c)
    (selected_questions c).
Definition set_completed v c :=
  mk_candidate (username c) (name c) (question_index c) (score c) (ai_score c)
    (last_time c) v (decision c) (feedback c) (has_completed_interview c)
    (selected_questions c).
Definition set_decision v c :=
  mk_candidate (username c) (name c) (question_index c) (score c) (ai_score c)
    (last_time c) (completed c) v (feedback c) (has_completed_interview c)
    (selected_questions c).
Definition set_feedback v c :=
  mk_candidate (username c) (name c) (question_index c) (score c) (ai_score c)
    (last_time c) (completed c) (decision c) v (has_completed_interview c)
    (selected_questions c).
Definition set_has_completed_interview v c :=
  mk_candidate (username c) (name c) (question_index c) (score c) (ai_score c)
    (last_time c) (completed c) (decision c) (feedback c) v (selected_questions c).
Definition set_selected_questions v c :=
  mk_candidate (username c) (name c) (question_index c) (score c) (ai_score c)
    (last_time c) (completed c) (decision c) (feedback c)
    (has_completed_interview c) v.

Definition with_candidates (m : gmap Z candidate) (w : world) : world :=
  mk_world m (responses w) (outbox w) (error_log w).
Definition with_responses (rs : list response) (w : world) : world :=
  mk_world (candidates w) rs (outbox w) (error_log w).

(** [update.message.reply_text(text)] in the chat of [chat]. *)
Definition reply (chat : Z) (text : string) (w : world) : world :=
  mk_world (candidates w) (responses w) (outbox w ++ [(chat, text)])%list (error_log w).

(** [logger.error(...)] *)
Definition log_error (e : error_record) (w : world) : world :=
  mk_world (candidates w) (responses w) (outbox w) (error_log w ++ [e])%list.

(** The two [WHERE] clauses of the handlers' updates. *)
Definition any_row (c : candidate) : bool := true.
Definition not_completed (c : candidate) : bool := has_completed_interview c =? 0.

(** [UPDATE candidates SET ... WHERE user_id = ? [AND ...]]: the world
    after it and [cur.rowcount]. *)
Definition update_where (uid : Z) (pred : candidate -> bool)
    (set : candidate -> candidate) (w : world) : world * nat :=
  match candidates w !! uid with
  | Some c =>
      if pred c then (with_candidates (<[uid := set c]> (candidates w)) w, 1%nat)
      else (w, 0%nat)
  | None => (w, 0%nat)
  end.

(** [INSERT INTO candidates ...] *)
Definition insert_candidate (uid : Z) (c : candidate) (w : world) : world :=
  with_candidates (<[uid := c]> (candidates w)) w.

(** [DELETE FROM responses WHERE user_id = ?] *)
Definition delete_responses (uid : Z) (w : world) : world :=
  with_responses (filter (fun r => user_id r <> uid) (responses w)) w.

(** [INSERT INTO responses ...] *)
Definition insert_response (r : response) (w : world) : world :=
  with_responses (responses w ++ [r])%list w.

(** The rows of [SELECT id FROM responses WHERE user_id = ? AND question_number = ?]. *)
Definition responses_for (uid qn : Z) (w : world) : list response :=
  filter (fun r => user_id r = uid /\ question_number r = qn) (responses w).

(** The rows of [responses] of one user. *)
Definition responses_of (uid : Z) (w : world) : list response :=
  filter (fun r => user_id r = uid) (responses w).

End Store.

(** ** handlers.py *)

Module Handlers.
Import PyStr Store.

(** A handler body returns, or raises with the writes made so far kept
    (the only exception of the model is the [IndexError] of
    [questions[0]] on an empty selection). *)
Inductive outcome :=
| Returned (w : world)
| Raised (w : world).

(** The rows written by the [UPDATE] and [INSERT] statements. *)

(** [start_handler]: [SET username = ?, question_index = -1, last_time = ?,
    completed = 0, score = 0, ai_score = 0, decision = NULL, name = NULL,
    feedback = NULL, has_completed_interview = 0] *)
Definition reset_row (uname : option string) (now : float) (c : candidate) : candidate :=
  set_has_completed_interview 0 (set_feedback None (set_name None (set_decision None
    (set_ai_score 0 (set_score 0 (set_completed 0 (set_last_time now
      (set_question_index (-1) (set_username uname c))))))))).

(** [start_handler]: the row of the [INSERT]; [selected_questions] is
    left to its default [NULL]. *)
Definition fresh_row (uname : option string) (now : float) : candidate :=
  mk_candidate uname None (-1) 0 0 now 0 None None 0 None.

(** [SET has_completed_interview = 0, completed = 0] *)
Definition unlock (c : candidate) : candidate :=
  set_completed 0 (set_has_completed_interview 0 c).

(** [_handle_name_input]: [SET name = ?, question_index = 0, last_time = ?,
    score = 0, ai_score = 0, completed = 0, decision = NULL, feedback = NULL,
    has_completed_interview = 0, selected_questions = ?] *)
Definition store_name (applicant_name : string) (now : float)
    (questions : list string) (c : candidate) : candidate :=
  set_selected_questions (Some questions) (set_has_completed_interview 0
    (set_feedback None (set_decision None (set_completed 0 (set_ai_score 0
      (set_score 0 (set_last_time now (set_question_index 0
        (set_name (Some applicant_name) c))))))))).

(** [SET question_index = 1, last_time = ?] *)
Definition move_to_first (now : float) (c : candidate) : candidate :=
  set_last_time now (set_question_index 1 c).

(** [SET question_index = question_index + 1, last_time = ?] *)
Definition advance (now : float) (c : candidate) : candidate :=
  set_last_time now (set_question_index (question_index c + 1) c).

(** [SET score = 0, ai_score = 0] *)
Definition zero_scores (c : candidate) : candidate :=
  set_ai_score 0 (set_score 0 c).

(** [SET score = score + ?, ai_score = ai_score + ?,
    question_index = question_index + 1, last_time = ?] *)
Definition add_scores (s a : Z) (now : float) (c : candidate) : candidate :=
  set_last_time now (set_question_index (question_index c + 1)
    (set_ai_score (ai_score c + a) (set_score (score c + s) c))).

(** [SET completed = 1, has_completed_interview = 1, decision = ?,
    feedback = ?, last_time = ?] *)
Definition complete (d f : string) (now : float) (c : candidate) : candidate :=
  set_last_time now (set_feedback (Some f) (set_decision (Some d)
    (set_has_completed_interview 1 (set_completed 1 c)))).

(** [SET completed = 1, has_completed_interview = 1] *)
Definition force_lock (c : candidate) : candidate :=
  set_has_completed_interview 1 (set_completed 1 c).

(** Python truth of a list that may be [None]. *)
Definition truthy {A} (l : option (list A)) : bool :=
  match l with
  | Some (_ :: _) => true
  | _ => false
  end.

Definition is_locked (row : option candidate) : bool :=
  match row with
  | Some c => has_completed_interview c =? 1
  | None => false
  end.

Section WithAdmins.

(** [bot.ADMIN_IDS], read from the environment when the bot starts. *)
Variable ADMIN_IDS : list Z.

(** [is_admin(user_id)] *)
Definition is_admin (uid : Z) : bool := bool_decide (uid ∈ ADMIN_IDS).

(** The [WHERE] clause of a write: administrators write without the
    completion predicate. *)
Definition guard (is_admin_user : bool) : candidate -> bool :=
  if is_admin_user then any_row else not_completed.

(** [get_user_questions(cur, user_id)] *)
Definition get_user_questions (w : world) (uid : Z) : option (list string) :=
  match candidates w !! uid with
  | Some c => selected_questions c
  | None => None
  end.

(** [start_handler]: the command [/start].  [clock k] is what the
    [k]-th call of [time.time()] in this handling returns. *)
Definition start_handler (uid : Z) (uname : option string)
    (clock : nat -> float) (w : world) : world :=
  let is_admin_user := is_admin uid in
  let existing := candidates w !! uid in
  if is_locked existing && negb is_admin_user then
    match existing with
    | Some c =>
        if decide (decision c = Some Scoring.APPROVED)
        then reply uid Msg.already_accepted w
        else match feedback c with
             | Some stored_feedback =>
                 if decide (stored_feedback = EmptyString)
                 then reply uid Msg.already_completed_other w
                 else reply uid stored_feedback w
             | None => reply uid Msg.already_completed_other w
             end
    | None => w
    end
  else
    let w :=
      if is_locked existing && is_admin_user
      then reply uid Msg.admin_restart_completed w else w in
    let row := candidates w !! uid in
    let in_progress :=
      match row with
      | Some c => has_completed_interview c =? 0
      | None => false
      end in
    let progress_notice :=
      if in_progress && negb is_admin_user then
        match row, get_user_questions w uid with
        | Some c, Some (q :: qs) =>
            let total := length (q :: qs) in
            let current_index := question_index c in
            if (0 <=? current_index) && (current_index <=? Z.of_nat total)
            then Some (Msg.in_progress current_index total)
            else None
        | _, _ => None
        end
      else None in
    match progress_notice with
    | Some notice => reply uid notice w
    | None =>
        let w :=
          if in_progress && is_admin_user
          then reply uid Msg.admin_restart_in_progress w else w in
        if is_locked (candidates w !! uid) && negb is_admin_user then
          reply uid Msg.already_completed_contact
            (log_error (FreshStartAfterCompletion uid) w)
        else
          let w := delete_responses uid w in
          let r := update_where uid any_row (reset_row uname (clock 0%nat)) w in
          let w :=
            if (r.2 =? 0)%nat
            then insert_candidate uid (fresh_row uname (clock 1%nat)) r.1
            else r.1 in
          reply uid (if is_admin_user then Msg.hello_admin else Msg.hello) w
    end.

(** [_handle_name_input]; [draw] is the random choice of
    [get_random_questions]. *)
Definition _handle_name_input (text : string) (uid : Z)
    (clock : nat -> float) (draw : list nat) (w : world) : outcome :=
  let applicant_name := strip text in
  if (String.length applicant_name <? 2)%nat then
    Returned (reply uid Msg.name_too_short w)
  else if (20 <? String.length applicant_name)%nat then
    Returned (reply uid Msg.name_too_long w)
  else if contains "." applicant_name || contains nl applicant_name then
    Returned (reply uid Msg.name_not_a_name w)
  else
    let is_admin_user := is_admin uid in
    let check_completed := candidates w !! uid in
    if is_locked check_completed && negb is_admin_user then
      Returned (reply uid Msg.already_completed_use_start w)
    else
      let w :=
        if is_locked check_completed && is_admin_user
        then (update_where uid any_row unlock w).1 else w in
      let selected := Questions.get_random_questions draw in
      let r := update_where uid (guard is_admin_user)
                 (store_name applicant_name (clock 0%nat) selected) w in
      if (r.2 =? 0)%nat then
        Returned (reply uid Msg.error_try_start_again r.1)
      else
        let w := reply uid (Msg.welcome_message applicant_name) r.1 in
        match selected with
        | [] => Raised w
        | first_question :: _ =>
            let w := reply uid first_question w in
            Returned (update_where uid (guard (is_admin uid))
                        (move_to_first (clock 1%nat)) w).1
        end.

(** [_handle_welcome] *)
Definition _handle_welcome (uid : Z) (clock : nat -> float)
    (draw : list nat) (w : world) : outcome :=
  let is_admin_user := is_admin uid in
  let stored := get_user_questions w uid in
  let user_questions :=
    if truthy stored then default [] stored
    else Questions.get_random_questions draw in
  let w :=
    if truthy stored then w
    else (update_where uid (guard is_admin_user)
            (set_selected_questions (Some user_questions)) w).1 in
  match user_questions with
  | [] => Raised w
  | first_question :: _ =>
      let w := reply uid first_question w in
      Returned (update_where uid (guard is_admin_user)
                  (move_to_first (clock 0%nat)) w).1
  end.

(** [_complete_interview]; [now] is the reading of [time.time()] for
    the completing write.  The closing [notify_admin] call only reads
    the database and writes to the administrators' chats; it has no
    model. *)
Definition _complete_interview (uid : Z) (now : float) (w : world) : world :=
  let is_admin_user := is_admin uid in
  match candidates w !! uid with
  | None => reply uid Msg.error_contact_support w
  | Some final_check =>
      let has_completed := has_completed_interview final_check in
      let final_score := score final_check in
      let final_ai_score := ai_score final_check in
      if (has_completed =? 1) && negb is_admin_user then
        reply uid Msg.already_completed_use_start w
      else
        let max_possible_score := Z.of_nat Questions.QUESTIONS_PER_INTERVIEW * 10 in
        let over := max_possible_score <? final_score in
        let w :=
          if over
          then (update_where uid any_row (set_score max_possible_score)
                  (log_error (FinalScoreExceedsMaximum uid final_score) w)).1
          else w in
        let final_score := if over then max_possible_score else final_score in
        let decision := Scoring.determine_decision final_score final_ai_score in
        let feedback := Utils.generate_feedback final_score final_ai_score decision in
        let w := (update_where uid (guard is_admin_user)
                    (complete decision feedback now) w).1 in
        let w :=
          if is_admin_user then w
          else match candidates w !! uid with
               | Some verify_lock =>
                   if negb (has_completed_interview verify_lock =? 1)
                      || negb (completed verify_lock =? 1)
                   then (update_where uid any_row force_lock
                           (log_error (LockVerificationFailed uid) w)).1
                   else w
               | None => w
               end in
        reply uid (if is_admin_user then feedback ++ Msg.admin_note else feedback) w
  end.

(** [_handle_answer] *)
Definition _handle_answer (text : string) (index : Z) (uid : Z)
    (last_time : float) (clock : nat -> float) (w : world) : world :=
  let stored := get_user_questions w uid in
  if negb (truthy stored) then
    log_error (NoQuestionsFound uid) (reply uid Msg.error_start_over w)
  else
    let user_questions := default [] stored in
    let previous_question_num := index - 1 in
    match responses_for uid previous_question_num w with
    | _ :: _ =>
        if index <? Z.of_nat (length user_questions) then
          let w := (update_where uid any_row (advance (clock 0%nat)) w).1 in
          reply uid (nth (Z.to_nat index) user_questions EmptyString) w
        else w
    | [] =>
        match candidates w !! uid with
        | None => reply uid Msg.error_start_over w
        | Some current_state =>
            let current_score := score current_state in
            let has_completed_check := has_completed_interview current_state in
            let is_admin_user := is_admin uid in
            if (has_completed_check =? 1) && negb is_admin_user then
              reply uid Msg.already_completed_use_start w
            else
              let w :=
                if (has_completed_check =? 1) && is_admin_user
                then (update_where uid any_row unlock w).1 else w in
              let response_time := PrimFloat.sub (clock 0%nat) last_time in
              let previous_question_text :=
                if (0 <=? previous_question_num)
                   && (previous_question_num <? Z.of_nat (length user_questions))
                then nth (Z.to_nat previous_question_num) user_questions EmptyString
                else "Initial message" in
              let '(score, ai_score) := Scoring.analyze_response text response_time in
              let w := insert_response
                         (mk_response uid previous_question_num previous_question_text
                            text response_time (clock 1%nat)) w in
              let max_possible_score :=
                Z.of_nat Questions.QUESTIONS_PER_INTERVIEW * 10 in
              let w :=
                if max_possible_score <? current_score
                then (update_where uid any_row zero_scores
                        (log_error (CurrentScoreExceedsMaximum uid current_score) w)).1
                else w in
              let r := update_where uid (guard is_admin_user)
                         (add_scores score ai_score (clock 2%nat)) w in
              if (r.2 =? 0)%nat then
                reply uid Msg.error_contact_support r.1
              else if index <? Z.of_nat (length user_questions) then
                reply uid (nth (Z.to_nat index) user_questions EmptyString) r.1
              else _complete_interview uid (clock 3%nat) r.1
        end
    end.

(** [handle_message]: a text message that is not a command. *)
Definition handle_message (uid : Z) (text : string) (clock : nat -> float)
    (draw : list nat) (w : world) : world :=
  match candidates w !! uid with
  | None => reply uid Msg.please_start w
  | Some row =>
      let index := question_index row in
      let has_completed := has_completed_interview row in
      let is_admin_user := is_admin uid in
      if (has_completed =? 1) && negb is_admin_user then
        reply uid Msg.already_completed_use_start w
      else
        let w :=
          if (has_completed =? 1) && is_admin_user
          then (update_where uid any_row unlock w).1 else w in
        let routed :=
          if index =? -1 then _handle_name_input text uid clock draw w
          else if index =? 0 then _handle_welcome uid clock draw w
          else if 1 <=? index then
            Returned (_handle_answer text index uid (last_time row) clock w)
          else Returned (reply uid Msg.error_use_start w) in
        match routed with
        | Returned w => w
        | Raised w =>
            reply uid Msg.error_try_again (log_error (ErrorInHandleMessage uid) w)
        end
  end.

(** What the message channel delivers. *)
Inductive update :=
| StartCommand (uid : Z) (uname : option string) (clock : nat -> float)
| TextMessage (uid : Z) (text : string) (clock : nat -> float) (draw : list nat).

Definition sender (u : update) : Z :=
  match u with
  | StartCommand uid _ _ => uid
  | TextMessage uid _ _ _ => uid
  end.

(** A delivery is well formed when its random choice is one that
    [random.sample] can make. *)
Definition valid_update (u : update) : bool :=
  match u with
  | StartCommand _ _ _ => true
  | TextMessage _ _ _ draw => Questions.valid_draw draw
  end.

(** One delivery, handled to its end. *)
Definition dispatch (w : world) (u : update) : world :=
  match u with
  | StartCommand uid uname clock => start_handler uid uname clock w
  | TextMessage uid text clock draw => handle_message uid text clock draw w
  end.

(** The deliveries of [us], handled one after the other. *)
Definition run (us : list update) (w : world) : world := fold_left dispatch us w.

End WithAdmins.

End Handlers.

(** ** Definitions that follow the specification's words *)

Module Spec.
Import PyStr Store Handlers.

(** The tri-state decision of the decision policy. *)
Inductive Decision := Approved | Borderline | NotEligible.

(** The text the code uses for each decision. *)
Definition label (d : Decision) : string :=
  match d with
  | Approved => Scoring.APPROVED
  | Borderline => Scoring.BORDERLINE
  | NotEligible => Scoring.NOT_ELIGIBLE
  end.

(** "APPROVED if score ≥ 17 ∧ ai_score ≤ 8; else BORDERLINE if
    score ≥ 13 ∧ ai_score ≤ 10; else NOT_ELIGIBLE." *)
Definition decide_policy (score ai_score : Z) : Decision :=
  if decide (score >= 17 /\ ai_score <= 8) then Approved
  else if decide (score >= 13 /\ ai_score <= 10) then Borderline
  else NotEligible.

(** "2–20 chars, no [.] or newline", on the stripped text. *)
Definition valid_name (text : string) : bool :=
  let n := strip text in
  bool_decide (2 <= String.length n <= 20)%nat
  && negb (contains "." n) && negb (contains nl n).

End Spec.

(** ** Parts of the handlers, named for the statements *)

Module Parts.
Import PyStr Store Handlers.

(** What [start_handler] answers to a candidate whose interview is
    completed: a fixed notice after an approval, otherwise the stored
    feedback, or a fixed notice when none is stored. *)
Definition completion_notice (row : candidate) : string :=
  if decide (decision row = Some Scoring.APPROVED) then Msg.already_accepted
  else match feedback row with
       | Some stored_feedback =>
           if decide (stored_feedback = EmptyString)
           then Msg.already_completed_other else stored_feedback
       | None => Msg.already_completed_other
       end.

(** The world after [UPDATE candidates SET has_completed_interview = 0,
    completed = 0 WHERE user_id = ?]. *)
Definition unlocked (uid : Z) (w : world) : world :=
  (update_where uid any_row unlock w).1.

(** The world a handler body leaves, returned or raised. *)
Definition outcome_world (o : outcome) : world :=
  match o with
  | Returned w => w
  | Raised w => w
  end.

End Parts.

(** ** The invariant of the deliveries *)

Module Invariant.
Import PyStr Store Handlers.

(** The row and the responses of [uid] are the same in [w'] as in [w]. *)
Definition same_for (uid : Z) (w w' : world) : Prop :=
  candidates w' !! uid = candidates w !! uid
  /\ responses_of uid w' = responses_of uid w.

(** The key that the specification wants unique among the responses. *)
Definition response_key (r : response) : Z * Z := (user_id r, question_number r).

Section WithAdmins.
Variable ADMIN_IDS : list Z.

(** What holds of the row of [uid] between two deliveries; [Q] is 5 and
    the greatest score [10 * Q] is 50. *)
Definition row_ok (uid : Z) (c : candidate) : Prop :=
  0 <= score c <= 50
  /\ score c <= 10 * Z.max 0 (question_index c - 1)
  /\ (forall questions, selected_questions c = Some questions ->
        length questions = Questions.QUESTIONS_PER_INTERVIEW)
  /\ (has_completed_interview c = 0 \/ has_completed_interview c = 1)
  /\ (is_admin ADMIN_IDS uid = false -> has_completed_interview c = 0 ->
        question_index c <= 5).

Definition rows_ok (m : gmap Z candidate) : Prop :=
  forall uid c, m !! uid = Some c -> row_ok uid c.

Definition keys_unique (rs : list response) : Prop :=
  NoDup (response_key <$> rs).

Definition range_ok (rs : list response) : Prop :=
  forall r, r ∈ rs -> is_admin ADMIN_IDS (user_id r) = false ->
    0 <= question_number r <= 4.

(** The score anomalies: the check of [_handle_answer] never fires, the
    cap of [_complete_interview] only for an administrator. *)
Definition log_ok (e : error_record) : Prop :=
  match e with
  | CurrentScoreExceedsMaximum _ _ => False
  | FinalScoreExceedsMaximum uid _ => is_admin ADMIN_IDS uid = true
  | _ => True
  end.

Definition inv (w : world) : Prop :=
  rows_ok (candidates w) /\ keys_unique (responses w)
  /\ range_ok (responses w) /\ Forall log_ok (error_log w).

(** The world in the middle of a handling: in order but for the row of
    the sender. *)
Definition inv_frame (uid : Z) (w : world) : Prop :=
  (forall k c, k <> uid -> candidates w !! k = Some c -> row_ok k c)
  /\ keys_unique (responses w) /\ range_ok (responses w)
  /\ Forall log_ok (error_log w).

End WithAdmins.

End Invariant.

(** ** Concrete deliveries used as test inputs *)

Module Scenario.
Import PyStr Store Handlers.

(** The administrators of the scenarios: user 1. *)
Definition admins : list Z := [1].

(** A clock that reads [t] at every call of one handling. *)
Definition clock_at (t : float) : nat -> float := fun _ => t.

Definition draw5 : list nat := [0; 1; 2; 3; 4]%nat.

Definition neutral_answer : string := "ok".

Definition strong_answer : string :=
  "no worries but i'd love to show you something special later, you're sweet".

(** [/start] at time 0, the name at time 1, then [n] times the same
    answer, [gap] seconds apart. *)
Definition paced_interview (gap : nat) (uid : Z) (answer : string) (n : nat)
    : list update :=
  [StartCommand uid (Some "al") (clock_at 0); TextMessage uid "Al" (clock_at 1) draw5]
  ++ map (fun i => TextMessage uid answer
                     (clock_at (Scoring.float_of_nat (1 + gap * S i))) draw5)
       (seq 0 n).

Definition interview : Z -> string -> nat -> list update := paced_interview 10.

(** User 7, not an administrator, after a whole interview of neutral answers. *)
Definition rejected_world : world := run admins (interview 7 neutral_answer 5) empty_world.

(** User 7, not an administrator, after a whole interview of strong answers. *)
Definition approved_world : world := run admins (interview 7 strong_answer 5) empty_world.

(** Administrator 1 after an interview and one more message, every
    answer sent at once. *)
Definition admin_world : world :=
  run admins (paced_interview 0 1 strong_answer 6) empty_world.

(** User 7 on the last question, the response to it stored but the cursor
    not yet moved (the state a retry meets when the handling stopped
    between the two writes). *)
Definition retry_world : world :=
  insert_response (mk_response 7 4 "q" neutral_answer 1 1)
    (run admins (interview 7 neutral_answer 4) empty_world).



(** The row of [uid], or a fresh row when there is none. *)
Definition row_of (uid : Z) (w : world) : candidate :=
  default (fresh_row None 0) (candidates w !! uid).

End Scenario.

(** ** The signals of the rubric, named for the statements *)

Module Rubric.
Import PyStr.

(** The tests of [_score_emotional_investment] on the lowered text. *)
Definition has_chosen (lower : string) : bool :=
  any_in ["for you"; "special"; "only you"; "just for you"; "you're different";
          "you're unique"] lower.
Definition has_curiosity (lower : string) : bool :=
  any_in ["imagine"; "what if"; "think about"; "picture"; "later"; "when"; "someday"]
    lower.
Definition has_personal (lower : string) : bool :=
  any_in ["i love"; "i'm into"; "i'm drawn to"; "you make me"; "you're"; "i feel";
          "i appreciate"] lower.
Definition has_connection (lower : string) : bool :=
  any_in ["miss you"; "think about you"; "remember"; "wish"; "understand"; "get you";
          "hear you"] lower.
Definition has_completion (lower : string) : bool :=
  any_in ["i love you"; "i'm yours"; "forever"; "always"; "promise"] lower.
Definition over_giving (lower : string) : bool :=
  contains "free" lower
  && (contains "pic" lower || contains "photo" lower || contains "video" lower).
Definition sales_pressure_count (lower : string) : nat :=
  count_in ["buy"; "pay"; "tip now"; "send money"; "purchase"; "order"] lower.

(** The tests of [_score_monetization]. *)
Definition has_desire (lower : string) : bool :=
  any_in ["spoil"; "treat"; "unlock"; "exclusive"; "special"; "premium"; "vip"] lower.
Definition has_future_setup (lower : string) : bool :=
  any_in ["later"; "next time"; "when you"; "if you want"; "custom"; "personal";
          "whenever you're ready"] lower.
Definition has_subtle (lower : string) : bool :=
  any_in ["tip"; "appreciate"; "support"; "help me"; "for me";
          "when you're feeling generous"] lower.
Definition begging (lower : string) : bool :=
  any_in ["buy now"; "pay me"; "send money"; "give me"; "i need money"; "hurry";
          "limited time"] lower.
Definition sales_word_count (lower : string) : nat :=
  count_in ["buy"; "pay"; "tip"; "purchase"; "order"; "send"] lower.

(** The tests of [_score_rebuttal]. *)
Definition has_objection_context (lower : string) : bool :=
  any_in ["free"; "expensive"; "why"; "but"; "can't afford"; "no money"; "cheaper"]
    lower.
Definition has_reframe (lower : string) : bool :=
  any_in ["i understand"; "see it as"; "think of it as"; "it's more like";
          "you're worth"] lower.
Definition has_calm (lower : string) : bool :=
  any_in ["no worries"; "totally get it"; "that's okay"; "i hear you"] lower.
Definition has_argument (lower : string) : bool :=
  any_in ["you're wrong"; "that's not true"; "no you"; "you should"] lower.
Definition has_momentum (lower : string) : bool :=
  any_in ["yes"; "yeah"; "sure"; "absolutely"; "definitely"; "of course"] lower.

(** The order of the decisions, from rejection to approval; a text that is
    none of the three labels ranks with the rejection, as in
    [generate_feedback]. *)
Definition decision_rank (decision : string) : Z :=
  if decide (decision = Scoring.APPROVED) then 2
  else if decide (decision = Scoring.BORDERLINE) then 1
  else 0.

End Rubric.

(** ** The writes of an answer and of a completion, named for the statements *)

Module Steps.
Import PyStr Store Handlers.

(** The question text [_handle_answer] stores with the answer to question
    [k]: [user_questions[k]] when [k] is an index of the list, otherwise a
    fixed text. *)
Definition previous_question_text (user_questions : list string) (k : Z) : string :=
  if (0 <=? k) && (k <? Z.of_nat (length user_questions))
  then nth (Z.to_nat k) user_questions EmptyString
  else "Initial message".

(** The row of [responses] that [_handle_answer] inserts for the row [c]
    of [candidates]. *)
Definition answer_row (uid : Z) (c : candidate) (user_questions : list string)
    (text : string) (last_time : float) (clock : nat -> float) : response :=
  mk_response uid (question_index c - 1)
    (previous_question_text user_questions (question_index c - 1))
    text (PrimFloat.sub (clock 0%nat) last_time) (clock 1%nat).

(** The row [c] after the scores of the answer are added. *)
Definition scored_row (c : candidate) (text : string) (last_time : float)
    (clock : nat -> float) : candidate :=
  let scored := Scoring.analyze_response text (PrimFloat.sub (clock 0%nat) last_time) in
  add_scores scored.1 scored.2 (clock 2%nat) c.

(** The score [_complete_interview] decides on: the stored score, capped. *)
Definition final_score (c : candidate) : Z :=
  let max_possible_score := Z.of_nat Questions.QUESTIONS_PER_INTERVIEW * 10 in
  if max_possible_score <? score c then max_possible_score else score c.

Definition final_decision (c : candidate) : string :=
  Scoring.determine_decision (final_score c) (ai_score c).

Definition final_feedback (c : candidate) : string :=
  Utils.generate_feedback (final_score c) (ai_score c) (final_decision c).

(** The row [c] after [_complete_interview]. *)
Definition completed_row (c : candidate) (now : float) : candidate :=
  complete (final_decision c) (final_feedback c) now (set_score (final_score c) c).

(** The error log after [_complete_interview] on the row [c]. *)
Definition completion_log (uid : Z) (c : candidate) (log : list error_record)
    : list error_record :=
  if Z.of_nat Questions.QUESTIONS_PER_INTERVIEW * 10 <? score c
  then (log ++ [FinalScoreExceedsMaximum uid (score c)])%list
  else log.

(** The world after the two writes of a fresh answer: the response
    inserted and the scores added. *)
Definition answered (uid : Z) (c : candidate) (user_questions : list string)
    (text : string) (last_time : float) (clock : nat -> float) (w : world) : world :=
  with_candidates
    (<[uid := scored_row c text last_time clock]> (candidates w))
    (insert_response (answer_row uid c user_questions text last_time clock) w).

(** What [_complete_interview] sends: the feedback, with a note for an
    administrator. *)
Definition completion_reply (is_admin_user : bool) (c : candidate) : string :=
  if is_admin_user then final_feedback c ++ Msg.admin_note else final_feedback c.

End Steps.

(** ** What holds of every session between two deliveries *)

Module Sessions.
Import PyStr Store Handlers.

(** The two completion flags agree, and the cursor, the decision and the
    feedback go with them. *)
Definition flags_ok (c : candidate) : Prop :=
  completed c = has_completed_interview c
  /\ (has_completed_interview c = 0 \/ has_completed_interview c = 1)
  /\ (has_completed_interview c = 0 ->
        question_index c <= 5 /\ decision c = None /\ feedback c = None)
  /\ (has_completed_interview c = 1 ->
        6 <= question_index c
        /\ decision c = Some (Scoring.determine_decision (score c) (ai_score c))
        /\ feedback c
           = Some (Utils.generate_feedback (score c) (ai_score c)
                     (Scoring.determine_decision (score c) (ai_score c)))).

(** The row [c] of a user and the user's responses [rs], in insertion
    order: the cursor is -1 before the name is given and 1 or more after
    it, never 0; the name and the questions are there once the cursor has
    left -1, and the responses are the answers to the questions 0 to
    cursor - 2, each with the text of its question. *)
Definition progress_ok (c : candidate) (rs : list response) : Prop :=
  -1 <= question_index c
  /\ question_index c <> 0
  /\ (question_index c = -1 -> name c = None)
  /\ (0 <= question_index c ->
        exists applicant_name questions,
          name c = Some applicant_name
          /\ (2 <= String.length applicant_name <= 20)%nat
          /\ contains "." applicant_name = false
          /\ contains nl applicant_name = false
          /\ selected_questions c = Some questions
          /\ length questions = Questions.QUESTIONS_PER_INTERVIEW)
  /\ 0 <= ai_score c <= 10 * Z.max 0 (question_index c - 1)
  /\ question_number <$> rs = seqZ 0 (Z.max 0 (question_index c - 1))
  /\ (forall r questions,
        r ∈ rs -> selected_questions c = Some questions ->
        question_text r = Steps.previous_question_text questions (question_number r)).

Definition session_ok (c : candidate) (rs : list response) : Prop :=
  flags_ok c /\ progress_ok c rs.

(** A user without a row has no responses. *)
Definition user_ok (uid : Z) (w : world) : Prop :=
  match candidates w !! uid with
  | Some c => session_ok c (responses_of uid w)
  | None => responses_of uid w = []
  end.

(** The messages [l] answer the user [uid]: one or two, all to the
    user's chat. *)
Definition replies_to (uid : Z) (l : list (Z * string)) : Prop :=
  (1 <= length l <= 2)%nat /\ Forall (fun m => m.1 = uid) l.

Section WithAdmins.
Variable ADMIN_IDS : list Z.

(** The one error that well-formed deliveries log: the cap of the score
    of an administrator. *)
Definition admin_cap (e : error_record) : Prop :=
  match e with
  | FinalScoreExceedsMaximum uid _ => is_admin ADMIN_IDS uid = true
  | _ => False
  end.

(** What one delivery of [uid] makes of the world [w]. *)
Definition step_ok (uid : Z) (w w' : world) : Prop :=
  user_ok uid w'
  /\ (exists l, error_log w' = (error_log w ++ l)%list /\ Forall admin_cap l)
  /\ exists l, outbox w' = (outbox w ++ l)%list /\ replies_to uid l.

End WithAdmins.

End Sessions.

(** ** database.py: what the start of the bot does to the database *)

Module Database.
Import PyStr Store Handlers.

(** [UPDATE candidates SET has_completed_interview = 1 WHERE completed = 1]
    on one row. *)
Definition migrate_row (c : candidate) : candidate :=
  if completed c =? 1 then set_has_completed_interview 1 c else c.

(** [init_database()] on a database that has the two tables with all
    their columns: [CREATE TABLE IF NOT EXISTS] and the [ALTER TABLE]
    attempts change no row, the migration does. *)
Definition init_database (w : world) : world :=
  with_candidates (migrate_row <$> candidates w) w.

(** The database and the file [last_clear_date.txt], [None] when the file
    does not exist. *)
Record storage := mk_storage {
  database : world;
  flag_file : option string
}.

(** The three [DELETE] statements of [clear_database]; the third resets
    the counter of the response ids, which the rows of the model do not
    carry. *)
Definition delete_everything (w : world) : world :=
  with_candidates ∅ (with_responses [] w).

(** [clear_database()] on the day [today] ([datetime.now()] formatted as
    year-month-day), reading and writing files without failure. *)
Definition clear_database (today : string) (s : storage) : storage :=
  let cleared := mk_storage (delete_everything (database s)) (Some today) in
  match flag_file s with
  | Some content => if decide (strip content = today) then s else cleared
  | None => cleared
  end.

(** The two database calls at the start of [bot.main()]:
    [init_database()], then [clear_database()]. *)
Definition main_database_setup (today : string) (s : storage) : storage :=
  clear_database today (mk_storage (init_database (database s)) (flag_file s)).

End Database.

(* ================================================================== *)
(** * Properties *)

Import PyStr Store Handlers Parts Invariant.

(** ** The string operations on a few inputs *)

Example split_words : split "  a b  c " = ["a"; "b"; "c"].
Proof. reflexivity. Qed.

Example strip_both_ends : strip ("  a b " ++ nl) = "a b".
Proof. reflexivity. Qed.

Example count_without_overlap : count "aa" "aaaa" = 2%nat.
Proof. reflexivity. Qed.

Example split_keeps_empty_fields : split_on dot "" "a..b." = ["a"; ""; "b"; ""].
Proof. reflexivity. Qed.

Example lower_ascii : lower "AbC, Yes" = "abc, yes".
Proof. reflexivity. Qed.

Example sentences_of_text :
  Scoring.sentences "Hi there! How are you? I am fine. Thanks."
  = ["Hi there"; "How are you"; "I am fine"; "Thanks"].
Proof. vm_compute. reflexivity. Qed.

Example variance_tests :
  Scoring.low_variance [2; 2; 2; 2]%nat = true
  /\ Scoring.low_variance [1; 1; 1; 5]%nat = false
  /\ Scoring.low_variance [1; 2; 3; 6]%nat = false.
Proof. vm_compute. repeat split. Qed.

Example analyze_neutral :
  Scoring.analyze_response Scenario.neutral_answer 5 = (1, 0).
Proof. vm_compute. reflexivity. Qed.

Example analyze_full_marks :
  Scoring.analyze_response Scenario.strong_answer 5 = (10, 0).
Proof. vm_compute. reflexivity. Qed.

(** ** The decision policy *)

Lemma label_inj d1 d2 : Spec.label d1 = Spec.label d2 -> d1 = d2.
Proof. destruct d1, d2; simpl; intros H; try reflexivity; discriminate H. Qed.

(** C1, as amended. For all integers [score] and [ai_score],
    [determine_decision] answers APPROVED when [score ≥ 17] and
    [ai_score ≤ 8], otherwise BORDERLINE when [score ≥ 13] and
    [ai_score ≤ 10], otherwise NOT_ELIGIBLE; in particular decide(17,8) is
    APPROVED, decide(16,8) is not, decide(13,10) is BORDERLINE,
    decide(12,10) is NOT_ELIGIBLE, and decide(20,9) is BORDERLINE (an AI
    score of 9 or 10 lowers a high score to BORDERLINE; above 10 it gives
    NOT_ELIGIBLE). *)
Theorem determine_decision_policy :
  (forall score ai_score : Z,
     Scoring.determine_decision score ai_score
     = Spec.label (Spec.decide_policy score ai_score))
  /\ Scoring.determine_decision 17 8 = Spec.label Spec.Approved
  /\ Scoring.determine_decision 16 8 <> Spec.label Spec.Approved
  /\ Scoring.determine_decision 13 10 = Spec.label Spec.Borderline
  /\ Scoring.determine_decision 12 10 = Spec.label Spec.NotEligible
  /\ Scoring.determine_decision 20 9 = Spec.label Spec.Borderline
  /\ Scoring.determine_decision 20 11 = Spec.label Spec.NotEligible.
Proof.
  split.
  2:{ repeat (split; [reflexivity || (intros H; vm_compute in H; discriminate H) |]).
      reflexivity. }
  intros score ai_score.
  unfold Scoring.determine_decision, Spec.decide_policy.
  destruct (decide (score >= 17 /\ ai_score <= 8)) as [[H1 H2] | H].
  - replace (17 <=? score) with true by (symmetry; apply Z.leb_le; lia).
    replace (ai_score <=? 8) with true by (symmetry; apply Z.leb_le; lia).
    reflexivity.
  - replace ((17 <=? score) && (ai_score <=? 8)) with false.
    2:{ symmetry. apply andb_false_iff.
        destruct (Z.leb_spec 17 score); [| now left].
        destruct (Z.leb_spec ai_score 8); [| now right].
        exfalso; apply H; lia. }
    destruct (decide (score >= 13 /\ ai_score <= 10)) as [[H1 H2] | H'].
    + replace (13 <=? score) with true by (symmetry; apply Z.leb_le; lia).
      replace (ai_score <=? 10) with true by (symmetry; apply Z.leb_le; lia).
      reflexivity.
    + replace ((13 <=? score) && (ai_score <=? 10)) with false; [reflexivity |].
      symmetry. apply andb_false_iff.
      destruct (Z.leb_spec 13 score); [| now left].
      destruct (Z.leb_spec ai_score 10); [| now right].
      exfalso; apply H'; lia.
Qed.

(** C1 as stated fails: a score of 20 with an AI score of 9 falls in the
    second case of the rule and is BORDERLINE, not NOT_ELIGIBLE. *)
Lemma determine_decision_20_9_borderline :
  Scoring.determine_decision 20 9 = Spec.label Spec.Borderline
  /\ Scoring.determine_decision 20 9 <> Spec.label Spec.NotEligible.
Proof. split; [reflexivity | intros H; vm_compute in H; discriminate H]. Qed.

(** ** The response scorer *)

(** Case analysis on every test of a scoring function. *)
Ltac split_tests :=
  repeat match goal with
         | |- context [if ?b then _ else _] => destruct b
         end.

Lemma _score_fan_control_range text lower :
  0 <= Scoring._score_fan_control text lower <= 2.
Proof. unfold Scoring._score_fan_control. split_tests; lia. Qed.

Lemma _score_emotional_investment_range lower :
  0 <= Scoring._score_emotional_investment lower <= 2.
Proof. unfold Scoring._score_emotional_investment. split_tests; lia. Qed.

Lemma _score_monetization_range lower :
  0 <= Scoring._score_monetization lower <= 2.
Proof. unfold Scoring._score_monetization. split_tests; lia. Qed.

Lemma _score_rebuttal_range lower word_count :
  0 <= Scoring._score_rebuttal lower word_count <= 2.
Proof. unfold Scoring._score_rebuttal. split_tests; lia. Qed.

Lemma _score_pacing_range lower word_count :
  0 <= Scoring._score_pacing lower word_count <= 2.
Proof. unfold Scoring._score_pacing. split_tests; lia. Qed.

Lemma _detect_ai_indicators_range text lower word_count response_time :
  0 <= Scoring._detect_ai_indicators text lower word_count response_time <= 12.
Proof. unfold Scoring._detect_ai_indicators. split_tests; lia. Qed.

Lemma sub_scores_range text :
  Forall (fun s => 0 <= s <= 2) (Scoring.sub_scores text).
Proof.
  unfold Scoring.sub_scores.
  repeat (apply List.Forall_cons;
          [solve [auto using _score_fan_control_range,
                    _score_emotional_investment_range, _score_monetization_range,
                    _score_rebuttal_range, _score_pacing_range] |]).
  apply List.Forall_nil.
Qed.

Lemma analyze_response_score_range text response_time :
  0 <= (Scoring.analyze_response text response_time).1 <= 10.
Proof.
  unfold Scoring.analyze_response. cbn [fst].
  pose proof (_score_fan_control_range text (lower text)).
  pose proof (_score_emotional_investment_range (lower text)).
  pose proof (_score_monetization_range (lower text)).
  pose proof (_score_rebuttal_range (lower text) (length (split text))).
  pose proof (_score_pacing_range (lower text) (length (split text))).
  lia.
Qed.

(** C5. For every text and elapsed time, [analyze_response] gives a
    behavior score and an AI score both between 0 and 10; the behavior
    score is the sum of five sub-scores, each between 0 and 2, and depends
    on the text alone. *)
Theorem analyze_response_bounds (text : string) (response_time : float) :
  let '(behavior_score, ai_score) := Scoring.analyze_response text response_time in
  0 <= behavior_score <= 10 /\ 0 <= ai_score <= 10
  /\ length (Scoring.sub_scores text) = 5%nat
  /\ Forall (fun s => 0 <= s <= 2) (Scoring.sub_scores text)
  /\ behavior_score = fold_right Z.add 0 (Scoring.sub_scores text)
  /\ forall response_time' : float,
       fst (Scoring.analyze_response text response_time') = behavior_score.
Proof.
  unfold Scoring.analyze_response, Scoring.sub_scores; simpl.
  pose proof (_score_fan_control_range text (lower text)).
  pose proof (_score_emotional_investment_range (lower text)).
  pose proof (_score_monetization_range (lower text)).
  pose proof (_score_rebuttal_range (lower text) (length (split text))).
  pose proof (_score_pacing_range (lower text) (length (split text))).
  pose proof (_detect_ai_indicators_range text (lower text)
                (length (split text)) response_time).
  repeat split; try lia.
  exact (sub_scores_range text).
Qed.

Arguments Questions.QUESTION_POOL : simpl never.

(** Projections of a world after the operations of [Store]. *)
Ltac wsimpl :=
  cbn [candidates responses outbox error_log reply log_error with_candidates
       with_responses insert_response insert_candidate delete_responses fst snd].

(** Columns of a row after the writes of [Handlers]. *)
Ltac rsimpl :=
  cbn [username name question_index score ai_score last_time completed decision
       feedback has_completed_interview selected_questions
       set_username set_name set_question_index set_score set_ai_score set_last_time
       set_completed set_decision set_feedback set_has_completed_interview
       set_selected_questions reset_row fresh_row unlock store_name move_to_first
       advance zero_scores add_scores complete force_lock] in *.

Ltac split_inv := split; [| split; [| split]].

(** ** The invariant is kept by every delivery *)

Section Proofs.
Variable ADMIN_IDS : list Z.
Local Abbreviation is_admin := (Handlers.is_admin ADMIN_IDS).
Local Abbreviation row_ok := (Invariant.row_ok ADMIN_IDS).
Local Abbreviation rows_ok := (Invariant.rows_ok ADMIN_IDS).
Local Abbreviation range_ok := (Invariant.range_ok ADMIN_IDS).
Local Abbreviation log_ok := (Invariant.log_ok ADMIN_IDS).
Local Abbreviation inv := (Invariant.inv ADMIN_IDS).
Local Abbreviation inv_frame := (Invariant.inv_frame ADMIN_IDS).

Lemma rows_ok_insert m uid c :
  rows_ok m -> row_ok uid c -> rows_ok (<[uid := c]> m).
Proof.
  intros Hm Hc k c' Hk.
  apply lookup_insert_Some in Hk as [[<- <-] | [_ Hk]]; [exact Hc | exact (Hm _ _ Hk)].
Qed.


Lemma update_where_none uid p f w :
  candidates w !! uid = None -> update_where uid p f w = (w, 0%nat).
Proof. intros H. unfold update_where. rewrite H. reflexivity. Qed.

Lemma inv_reply uid text w : inv w -> inv (reply uid text w).
Proof. intros H. exact H. Qed.

Lemma inv_log_error e w : log_ok e -> inv w -> inv (log_error e w).
Proof.
  intros He (Hr & Hk & Hq & Hl). split_inv; try assumption.
  wsimpl. apply Forall_app. split; [exact Hl | repeat constructor; exact He].
Qed.

(** An update keeps the invariant when the row it writes is in order. *)
Lemma inv_update_where uid p f w :
  inv w ->
  (forall c, candidates w !! uid = Some c -> p c = true -> row_ok uid (f c)) ->
  inv (update_where uid p f w).1.
Proof.
  intros (Hr & Hk & Hq & Hl) Hf. unfold update_where.
  destruct (candidates w !! uid) as [c |] eqn:Hc; [| split_inv; assumption].
  destruct (p c) eqn:Hp; [| split_inv; assumption].
  split_inv; try assumption. wsimpl. apply rows_ok_insert; auto.
Qed.

Lemma keys_unique_filter (P : response -> Prop) `{forall r, Decision (P r)} rs :
  keys_unique rs -> keys_unique (filter P rs).
Proof.
  unfold keys_unique. induction rs as [| r rs IH]; [intros; constructor |].
  rewrite fmap_cons. intros Hnd. apply NoDup_cons in Hnd as [Hnotin Hnd].
  rewrite filter_cons. destruct (decide (P r)); [| auto].
  rewrite fmap_cons. apply NoDup_cons. split; [| auto].
  intros Hin. apply Hnotin.
  apply list_elem_of_fmap in Hin as (r' & Hkey & Hr').
  apply list_elem_of_fmap. exists r'. split; [exact Hkey |].
  apply list_elem_of_filter in Hr'. tauto.
Qed.

Lemma inv_delete_responses uid w : inv w -> inv (delete_responses uid w).
Proof.
  intros (Hr & Hk & Hq & Hl). split_inv; try assumption; wsimpl.
  - apply keys_unique_filter, Hk.
  - intros r Hin. apply list_elem_of_filter in Hin as [_ Hin]. apply Hq, Hin.
Qed.

Lemma responses_for_nil_key uid qn w :
  responses_for uid qn w = [] -> (uid, qn) ∉ response_key <$> responses w.
Proof.
  unfold responses_for. intros Hnil Hin.
  apply list_elem_of_fmap in Hin as (r & Hkey & Hr).
  assert (Hf : r ∈ filter (fun r => user_id r = uid /\ question_number r = qn) (responses w)).
  { apply list_elem_of_filter. split; [| exact Hr].
    unfold response_key in Hkey. inversion Hkey; subst. split; reflexivity. }
  rewrite Hnil in Hf. inversion Hf.
Qed.

Lemma inv_insert_response r w :
  inv w ->
  responses_for (user_id r) (question_number r) w = [] ->
  (is_admin (user_id r) = false -> 0 <= question_number r <= 4) ->
  inv (insert_response r w).
Proof.
  intros (Hr & Hk & Hq & Hl) Hnil Hrange. split_inv; try assumption; wsimpl.
  - unfold keys_unique. rewrite fmap_app. cbn [fmap list_fmap].
    apply NoDup_app. split; [exact Hk |]. split; [| apply NoDup_singleton].
    intros k Hin Hk'. apply list_elem_of_singleton in Hk'. subst k.
    apply responses_for_nil_key in Hnil. apply Hnil, Hin.
  - intros r' Hin. apply elem_of_app in Hin as [Hin | Hin]; [apply Hq, Hin |].
    apply list_elem_of_singleton in Hin. subst r'. exact Hrange.
Qed.

Lemma inv_insert_candidate uid c w :
  inv w -> row_ok uid c -> inv (insert_candidate uid c w).
Proof.
  intros (Hr & Hk & Hq & Hl) Hc. split_inv; try assumption.
  wsimpl. apply rows_ok_insert; assumption.
Qed.

Lemma row_ok_reset uid uname now c : row_ok uid c -> row_ok uid (reset_row uname now c).
Proof.
  intros (Hs & Hb & Hqs & Hc & Hi). unfold Invariant.row_ok. rsimpl.
  repeat split; try lia. exact Hqs. 
Qed.

Lemma row_ok_fresh uid uname now : row_ok uid (fresh_row uname now).
Proof. unfold Invariant.row_ok. rsimpl. repeat split; try lia. intros qs H; discriminate H. Qed.

Lemma start_handler_inv uid uname clock w :
  inv w -> inv (start_handler ADMIN_IDS uid uname clock w).
Proof.
  intros Hinv. unfold start_handler.
  destruct (is_locked (candidates w !! uid) && negb (is_admin uid)).
  { destruct (candidates w !! uid) as [c |]; [| exact Hinv].
    destruct (decide (decision c = Some Scoring.APPROVED)); [exact Hinv |].
    destruct (feedback c) as [f |]; [| exact Hinv].
    destruct (decide (f = EmptyString)); exact Hinv. }
  set (w1 := if is_locked (candidates w !! uid) && is_admin uid
             then reply uid Msg.admin_restart_completed w else w).
  assert (Hinv1 : inv w1) by (subst w1; destruct (_ && _); exact Hinv).
  clearbody w1. clear Hinv.
  match goal with |- context [match ?n with Some notice => _ | None => _ end] =>
    destruct n as [notice |] end; [exact Hinv1 |].
  match goal with |- context [reply uid Msg.admin_restart_in_progress w1] =>
    match goal with |- context [if ?b then reply uid Msg.admin_restart_in_progress w1 else w1] =>
      set (w2 := if b then reply uid Msg.admin_restart_in_progress w1 else w1);
      assert (Hinv2 : inv w2) by (subst w2; destruct b; exact Hinv1)
    end end.
  clearbody w2. clear Hinv1.
  destruct (is_locked (candidates w2 !! uid) && negb (is_admin uid)).
  { apply inv_reply, inv_log_error; [exact I | exact Hinv2]. }
  apply inv_reply.
  pose proof (inv_delete_responses uid w2 Hinv2) as Hinv3.
  set (w3 := delete_responses uid w2) in *. clearbody w3.
  pose proof (inv_update_where uid any_row (reset_row uname (clock 0%nat)) w3 Hinv3) as Hinv4.
  destruct ((update_where uid any_row (reset_row uname (clock 0%nat)) w3).2 =? 0)%nat.
  - apply inv_insert_candidate; [| apply row_ok_fresh].
    apply Hinv4. intros c Hc _. apply row_ok_reset. destruct Hinv3 as (Hr & _). exact (Hr _ _ Hc).
  - apply Hinv4. intros c Hc _. apply row_ok_reset. destruct Hinv3 as (Hr & _). exact (Hr _ _ Hc).
Qed.


Lemma update_where_lookup uid p f w c :
  candidates w !! uid = Some c ->
  candidates (update_where uid p f w).1 !! uid = Some (if p c then f c else c).
Proof.
  intros H. unfold update_where. rewrite H.
  destruct (p c); wsimpl; [apply lookup_insert_eq | exact H].
Qed.

Lemma update_where_count uid p f w c :
  candidates w !! uid = Some c ->
  (update_where uid p f w).2 = if p c then 1%nat else 0%nat.
Proof. intros H. unfold update_where. rewrite H. destruct (p c); reflexivity. Qed.

Lemma update_where_responses uid p f w :
  responses (update_where uid p f w).1 = responses w.
Proof.
  unfold update_where. destruct (candidates w !! uid) as [c |]; [| reflexivity].
  destruct (p c); reflexivity.
Qed.

Lemma update_where_error_log uid p f w :
  error_log (update_where uid p f w).1 = error_log w.
Proof.
  unfold update_where. destruct (candidates w !! uid) as [c |]; [| reflexivity].
  destruct (p c); reflexivity.
Qed.

Lemma update_where_other uid p f w k :
  k <> uid -> candidates (update_where uid p f w).1 !! k = candidates w !! k.
Proof.
  intros Hne. unfold update_where. destruct (candidates w !! uid) as [c |]; [| reflexivity].
  destruct (p c); wsimpl; [| reflexivity]. apply lookup_insert_ne. congruence.
Qed.

Lemma guard_unlocked uid row :
  has_completed_interview row = 0 -> guard (is_admin uid) row = true.
Proof.
  intros H. unfold guard, any_row, not_completed.
  destruct (is_admin uid); [reflexivity | rewrite H; reflexivity].
Qed.

Lemma pool_length : length Questions.QUESTION_POOL = 53%nat.
Proof. reflexivity. Qed.

Lemma omap_lookup_length (pool : list string) (draw : list nat) :
  forallb (fun i => i <? length pool)%nat draw = true ->
  length (omap (fun i => pool !! i) draw) = length draw.
Proof.
  induction draw as [| i draw IH]; simpl; [reflexivity |].
  intros H. apply andb_true_iff in H as [Hi Hrest].
  apply Nat.ltb_lt in Hi.
  destruct (lookup_lt_is_Some_2 pool i Hi) as [q Hq].
  rewrite Hq. simpl. f_equal. apply IH, Hrest.
Qed.

Lemma get_random_questions_length draw :
  Questions.valid_draw draw = true ->
  length (Questions.get_random_questions draw) = Questions.QUESTIONS_PER_INTERVIEW.
Proof.
  unfold Questions.valid_draw, Questions.get_random_questions.
  intros H. apply andb_true_iff in H as [H Hlt].
  apply andb_true_iff in H as [Hlen _].
  apply bool_decide_eq_true in Hlen.
  rewrite pool_length. simpl.
  unfold Questions.random_sample. rewrite omap_lookup_length by exact Hlt.
  exact Hlen.
Qed.

Lemma row_ok_unlock uid c :
  is_admin uid = true -> row_ok uid c -> row_ok uid (unlock c).
Proof.
  intros Hadm (Hs & Hb & Hqs & Hc & Hi). unfold Invariant.row_ok. rsimpl.
  split; [lia |]. split; [lia |]. split; [exact Hqs |]. split; [left; reflexivity |].
  intros Hna. congruence.
Qed.

Lemma row_ok_store_name uid applicant_name now draw c :
  Questions.valid_draw draw = true ->
  row_ok uid (store_name applicant_name now (Questions.get_random_questions draw) c).
Proof.
  intros Hdraw. unfold Invariant.row_ok. rsimpl.
  split; [lia |]. split; [lia |]. split.
  { intros qs Hqs. injection Hqs as <-. apply get_random_questions_length, Hdraw. }
  split; [left; reflexivity | lia].
Qed.

Lemma row_ok_select uid questions c :
  length questions = Questions.QUESTIONS_PER_INTERVIEW ->
  row_ok uid c -> row_ok uid (set_selected_questions (Some questions) c).
Proof.
  intros Hlen (Hs & Hb & Hqs & Hc & Hi). unfold Invariant.row_ok. rsimpl.
  split; [lia |]. split; [lia |]. split.
  { intros qs Heq. injection Heq as <-. exact Hlen. }
  split; assumption.
Qed.

Lemma row_ok_move_to_first uid now c :
  question_index c <= 1 -> row_ok uid c -> row_ok uid (move_to_first now c).
Proof.
  intros Hidx (Hs & Hb & Hqs & Hc & Hi). unfold Invariant.row_ok. rsimpl.
  split; [lia |]. split; [lia |]. split; [exact Hqs |]. split; [exact Hc | lia].
Qed.

Lemma row_ok_advance uid now c :
  question_index c < 5 -> row_ok uid c -> row_ok uid (advance now c).
Proof.
  intros Hidx (Hs & Hb & Hqs & Hc & Hi). unfold Invariant.row_ok. rsimpl.
  split; [lia |]. split; [lia |]. split; [exact Hqs |]. split; [exact Hc | lia].
Qed.

Lemma inv_frame_of_inv uid w : inv w -> inv_frame uid w.
Proof. intros (Hr & Hrest). split; [| exact Hrest]. intros k c _ Hk. exact (Hr _ _ Hk). Qed.

Lemma inv_of_frame uid w c :
  inv_frame uid w -> candidates w !! uid = Some c -> row_ok uid c -> inv w.
Proof.
  intros (Hr & Hrest) Hc Hok. split; [| exact Hrest].
  intros k c' Hk. destruct (decide (k = uid)) as [-> | Hne].
  - rewrite Hc in Hk. injection Hk as <-. exact Hok.
  - exact (Hr _ _ Hne Hk).
Qed.

Lemma inv_frame_update_where uid p f w :
  inv_frame uid w -> inv_frame uid (update_where uid p f w).1.
Proof.
  intros (Hr & Hk & Hq & Hl). split_inv.
  - intros k c Hne. rewrite update_where_other by exact Hne. apply Hr, Hne.
  - rewrite update_where_responses. exact Hk.
  - rewrite update_where_responses. exact Hq.
  - rewrite update_where_error_log. exact Hl.
Qed.

Lemma inv_frame_log_error uid e w :
  log_ok e -> inv_frame uid w -> inv_frame uid (log_error e w).
Proof.
  intros He (Hr & Hk & Hq & Hl). split_inv; try assumption.
  wsimpl. apply Forall_app. split; [exact Hl | repeat constructor; exact He].
Qed.


Lemma _handle_name_input_inv text uid clock draw w :
  Questions.valid_draw draw = true -> inv w ->
  inv (outcome_world (_handle_name_input ADMIN_IDS text uid clock draw w)).
Proof.
  intros Hdraw Hinv. unfold _handle_name_input.
  destruct (String.length (strip text) <? 2)%nat; [exact Hinv |].
  destruct (20 <? String.length (strip text))%nat; [exact Hinv |].
  destruct (contains "." (strip text) || contains nl (strip text)); [exact Hinv |].
  destruct (is_locked (candidates w !! uid) && negb (is_admin uid)); [exact Hinv |].
  set (w1 := if is_locked (candidates w !! uid) && is_admin uid
             then (update_where uid any_row unlock w).1 else w).
  assert (Hinv1 : inv w1).
  { subst w1. destruct (is_admin uid) eqn:Hadm; [| rewrite andb_false_r; exact Hinv].
    destruct (is_locked (candidates w !! uid)); [| exact Hinv]. cbn [andb].
    apply inv_update_where; [exact Hinv |].
    intros c Hc _. apply row_ok_unlock; [exact Hadm |].
    destruct Hinv as (Hr & _). exact (Hr _ _ Hc). }
  clearbody w1. clear Hinv.
  set (selected := Questions.get_random_questions draw).
  set (stored := store_name (strip text) (clock 0%nat) selected).
  assert (Hinv2 : inv (update_where uid (guard (is_admin uid)) stored w1).1).
  { apply inv_update_where; [exact Hinv1 |]. intros c _ _. apply row_ok_store_name, Hdraw. }
  destruct (candidates w1 !! uid) as [c |] eqn:Hc.
  2:{ rewrite (update_where_none _ _ _ _ Hc) in *. exact Hinv2. }
  rewrite (update_where_count _ _ _ _ _ Hc).
  pose proof (update_where_lookup uid (guard (is_admin uid)) stored w1 c Hc) as Hrow2.
  destruct (guard (is_admin uid) c); [| exact Hinv2]. cbn [Nat.eqb].
  destruct selected as [| first_question rest] eqn:Hsel; [exact Hinv2 |].
  cbn [outcome_world]. apply inv_update_where; [exact Hinv2 |].
  wsimpl. rewrite Hrow2. intros c' Hc' _. injection Hc' as <-.
  apply row_ok_move_to_first; [subst stored; rsimpl; lia |].
  subst stored. rewrite <- Hsel. apply row_ok_store_name, Hdraw.
Qed.

Lemma _handle_welcome_inv uid clock draw w c :
  Questions.valid_draw draw = true -> inv w ->
  candidates w !! uid = Some c -> question_index c = 0 ->
  inv (outcome_world (_handle_welcome ADMIN_IDS uid clock draw w)).
Proof.
  intros Hdraw Hinv Hc Hidx. unfold _handle_welcome, get_user_questions. rewrite Hc.
  assert (Hok : row_ok uid c) by (destruct Hinv as (Hr & _); exact (Hr _ _ Hc)).
  destruct (truthy (selected_questions c)) eqn:Htr.
  - destruct (selected_questions c) as [[| q qs] |]; try discriminate Htr.
    change (default [] (Some (q :: qs))) with (q :: qs).
    cbn [outcome_world]. apply inv_update_where; [exact Hinv |].
    wsimpl. rewrite Hc. intros c' Hc' _. injection Hc' as <-.
    apply row_ok_move_to_first; [lia | exact Hok].
  - set (selected := Questions.get_random_questions draw).
    set (w1 := (update_where uid (guard (is_admin uid))
                  (set_selected_questions (Some selected)) w).1).
    assert (Hlen : length selected = Questions.QUESTIONS_PER_INTERVIEW)
      by (apply get_random_questions_length, Hdraw).
    assert (Hinv1 : inv w1).
    { apply inv_update_where; [exact Hinv |]. intros c' Hc' _.
      rewrite Hc in Hc'. injection Hc' as <-. apply row_ok_select; assumption. }
    pose proof (update_where_lookup uid (guard (is_admin uid))
                  (set_selected_questions (Some selected)) w c Hc) as Hrow1.
    fold w1 in Hrow1. clearbody w1.
    destruct selected as [| first_question rest]; [exact Hinv1 |].
    cbn [outcome_world]. apply inv_update_where; [wsimpl; exact Hinv1 |].
    wsimpl. rewrite Hrow1. intros c' Hc' _. injection Hc' as <-.
    destruct Hinv1 as (Hr1 & _). specialize (Hr1 _ _ Hrow1).
    apply row_ok_move_to_first; [| exact Hr1].
    destruct (guard (is_admin uid) c); rsimpl; lia.
Qed.

(** The completion of an interview whose last answer has just been added:
    the score may stand above the maximum until it is capped. *)
Lemma _complete_interview_inv uid now w c :
  inv_frame uid w ->
  candidates w !! uid = Some c ->
  has_completed_interview c = 0 ->
  0 <= score c <= 60 ->
  (is_admin uid = false -> score c <= 50) ->
  6 <= question_index c ->
  (forall questions, selected_questions c = Some questions ->
     length questions = Questions.QUESTIONS_PER_INTERVIEW) ->
  inv (_complete_interview ADMIN_IDS uid now w).
Proof.
  intros Hfr Hc Hunl Hs Hna Hidx Hqs. unfold _complete_interview.
  rewrite Hc, Hunl. cbn [Z.eqb andb].
  set (max_possible_score := Z.of_nat Questions.QUESTIONS_PER_INTERVIEW * 10).
  assert (Hmax : max_possible_score = 50) by reflexivity.
  set (over := max_possible_score <? score c).
  set (w1 := if over
             then (update_where uid any_row (set_score max_possible_score)
                     (log_error (FinalScoreExceedsMaximum uid (score c)) w)).1
             else w).
  set (c1 := if over then set_score max_possible_score c else c).
  assert (Hw1 : inv_frame uid w1 /\ candidates w1 !! uid = Some c1).
  { subst w1 c1. destruct over eqn:Hover.
    - split.
      + apply inv_frame_update_where, inv_frame_log_error; [| exact Hfr].
        cbn. destruct (is_admin uid); [reflexivity |].
        subst over. apply Z.ltb_lt in Hover. specialize (Hna eq_refl). lia.
      + erewrite update_where_lookup by (wsimpl; exact Hc). reflexivity.
    - split; assumption. }
  destruct Hw1 as [Hfr1 Hc1].
  assert (Hs1 : 0 <= score c1 <= 50
                /\ has_completed_interview c1 = 0
                /\ question_index c1 = question_index c
                /\ selected_questions c1 = selected_questions c).
  { subst c1. destruct over eqn:Hover; rsimpl.
    - repeat split; try lia. 
    - subst over. apply Z.ltb_ge in Hover. repeat split; try lia. }
  destruct Hs1 as (Hs1 & Hunl1 & Hidx1 & Hqs1).
  clearbody w1 c1.
  set (final_score := if over then max_possible_score else score c).
  set (d := Scoring.determine_decision final_score (ai_score c)).
  set (f := Utils.generate_feedback final_score (ai_score c) d).
  clearbody d f.
  set (w2 := (update_where uid (guard (is_admin uid)) (complete d f now) w1).1).
  assert (Hc2 : candidates w2 !! uid = Some (complete d f now c1)).
  { subst w2. erewrite update_where_lookup by exact Hc1.
    rewrite guard_unlocked by exact Hunl1. reflexivity. }
  assert (Hfr2 : inv_frame uid w2) by (apply inv_frame_update_where, Hfr1).
  clearbody w2.
  assert (Hinv2 : inv w2).
  { apply (inv_of_frame uid w2 _ Hfr2 Hc2). unfold Invariant.row_ok. rsimpl.
    split; [lia |]. split; [lia |]. split; [rewrite Hqs1; exact Hqs |].
    split; [right; reflexivity |]. intros _ H. discriminate H. }
  apply inv_reply. destruct (is_admin uid); [exact Hinv2 |].
  rewrite Hc2. rsimpl. cbn [Z.eqb negb orb]. exact Hinv2.
Qed.


Lemma _handle_answer_inv text uid last_time clock w c :
  inv w ->
  candidates w !! uid = Some c ->
  1 <= question_index c ->
  inv (_handle_answer ADMIN_IDS text (question_index c) uid last_time clock w).
Proof.
  intros Hinv Hc Hidx. unfold _handle_answer, get_user_questions. rewrite Hc.
  assert (Hok : row_ok uid c) by (destruct Hinv as (Hr & _); exact (Hr _ _ Hc)).
  destruct Hok as (Hs & Hb & Hqs & Hcompl & Hi).
  destruct (truthy (selected_questions c)) eqn:Htr; cbn [negb].
  2:{ apply inv_log_error; [exact I | exact Hinv]. }
  destruct (selected_questions c) as [questions |] eqn:Hsel; [| discriminate Htr].
  specialize (Hqs questions eq_refl).
  change (default [] (Some questions)) with questions. rewrite Hqs.
  change (Z.of_nat Questions.QUESTIONS_PER_INTERVIEW) with 5.
  destruct (responses_for uid (question_index c - 1) w) as [| r rs] eqn:Hdup.
  2:{ destruct (question_index c <? 5) eqn:Hlt; [| exact Hinv].
      apply Z.ltb_lt in Hlt. apply inv_reply, inv_update_where; [exact Hinv |].
      intros c' Hc' _. rewrite Hc in Hc'. injection Hc' as <-.
      apply row_ok_advance; [exact Hlt |].
      destruct Hinv as (Hr & _). exact (Hr _ _ Hc). }
  destruct ((has_completed_interview c =? 1) && negb (is_admin uid)) eqn:Hblock;
    [exact Hinv |].
  set (w1 := if (has_completed_interview c =? 1) && is_admin uid
             then (update_where uid any_row unlock w).1 else w).
  set (c1 := if (has_completed_interview c =? 1) && is_admin uid then unlock c else c).
  assert (Hw1 : inv w1 /\ candidates w1 !! uid = Some c1 /\ responses w1 = responses w).
  { subst w1 c1. destruct ((has_completed_interview c =? 1) && is_admin uid) eqn:Hun.
    - apply andb_true_iff in Hun as [_ Hadm]. split; [| split].
      + apply inv_update_where; [exact Hinv |]. intros c' Hc' _.
        apply row_ok_unlock; [exact Hadm |]. destruct Hinv as (Hr & _). exact (Hr _ _ Hc').
      + erewrite update_where_lookup by exact Hc. reflexivity.
      + apply update_where_responses.
    - split; [exact Hinv | split; [exact Hc | reflexivity]]. }
  destruct Hw1 as (Hinv1 & Hc1 & Hresp1).
  assert (Hrow1 : has_completed_interview c1 = 0 /\ score c1 = score c
                  /\ question_index c1 = question_index c
                  /\ selected_questions c1 = selected_questions c).
  { subst c1. destruct (has_completed_interview c =? 1) eqn:H1; cbn [andb].
    - destruct (is_admin uid); [rsimpl; repeat split | discriminate Hblock].
    - apply Z.eqb_neq in H1. repeat split. lia. }
  destruct Hrow1 as (Hunl1 & Hscore1 & Hidx1 & Hsel1).
  clearbody w1 c1.
  set (response_time := PrimFloat.sub (clock 0%nat) last_time).
  pose proof (analyze_response_score_range text response_time) as Hrange.
  destruct (Scoring.analyze_response text response_time) as [s a]. cbn [fst] in Hrange.
  set (r := mk_response uid (question_index c - 1) _ text response_time (clock 1%nat)).
  assert (Hinv2 : inv (insert_response r w1)).
  { apply inv_insert_response; [exact Hinv1 | |].
    - subst r. cbn [user_id question_number]. unfold responses_for in *.
      rewrite Hresp1. exact Hdup.
    - subst r. cbn [user_id question_number]. intros Hna.
      rewrite Hna in Hblock. cbn [negb] in Hblock. rewrite andb_true_r in Hblock.
      apply Z.eqb_neq in Hblock. specialize (Hi Hna). lia. }
  set (w2 := insert_response r w1) in *.
  assert (Hc2 : candidates w2 !! uid = Some c1) by exact Hc1.
  clearbody w2 r.
  replace (5 * 10 <? score c) with false by (symmetry; apply Z.ltb_ge; lia).
  set (upd := update_where uid (guard (is_admin uid)) (add_scores s a (clock 2%nat)) w2).
  assert (Hcount : upd.2 = 1%nat).
  { subst upd. erewrite update_where_count by exact Hc2.
    rewrite guard_unlocked by exact Hunl1. reflexivity. }
  assert (Hc3 : candidates upd.1 !! uid = Some (add_scores s a (clock 2%nat) c1)).
  { subst upd. erewrite update_where_lookup by exact Hc2.
    rewrite guard_unlocked by exact Hunl1. reflexivity. }
  assert (Hfr3 : inv_frame uid upd.1)
    by (apply inv_frame_update_where, inv_frame_of_inv, Hinv2).
  rewrite Hcount. cbn [Nat.eqb]. clearbody upd.
  destruct (question_index c <? 5) eqn:Hlt.
  - apply Z.ltb_lt in Hlt. apply inv_reply.
    apply (inv_of_frame uid _ _ Hfr3 Hc3). unfold Invariant.row_ok. rsimpl.
    rewrite Hscore1, Hidx1, Hsel1, Hsel.
    split; [lia |]. split; [lia |]. split.
    { intros qs Heq. injection Heq as <-. exact Hqs. }
    split; [left; exact Hunl1 | lia].
  - apply Z.ltb_ge in Hlt.
    apply (_complete_interview_inv uid _ _ _ Hfr3 Hc3); rsimpl;
      rewrite ?Hscore1, ?Hidx1, ?Hsel1, ?Hsel; try lia; try exact Hunl1.
    + intros Hna. rewrite Hna in Hblock. cbn [negb] in Hblock.
      rewrite andb_true_r in Hblock. apply Z.eqb_neq in Hblock.
      specialize (Hi Hna). lia.
    + intros qs Heq. injection Heq as <-. exact Hqs.
Qed.

Lemma handle_message_inv uid text clock draw w :
  Questions.valid_draw draw = true -> inv w ->
  inv (handle_message ADMIN_IDS uid text clock draw w).
Proof.
  intros Hdraw Hinv. unfold handle_message.
  destruct (candidates w !! uid) as [row |] eqn:Hrow; [| exact Hinv].
  destruct ((has_completed_interview row =? 1) && negb (is_admin uid)); [exact Hinv |].
  set (w1 := if (has_completed_interview row =? 1) && is_admin uid
             then (update_where uid any_row unlock w).1 else w).
  assert (Hw1 : inv w1 /\ exists row1, candidates w1 !! uid = Some row1
                  /\ question_index row1 = question_index row).
  { subst w1. destruct ((has_completed_interview row =? 1) && is_admin uid) eqn:Hun.
    - apply andb_true_iff in Hun as [_ Hadm]. split.
      + apply inv_update_where; [exact Hinv |]. intros c' Hc' _.
        apply row_ok_unlock; [exact Hadm |]. destruct Hinv as (Hr & _). exact (Hr _ _ Hc').
      + exists (unlock row). erewrite update_where_lookup by exact Hrow. split; reflexivity.
    - split; [exact Hinv |]. exists row. split; [exact Hrow | reflexivity]. }
  destruct Hw1 as (Hinv1 & row1 & Hrow1 & Hidx1). clearbody w1.
  assert (Hraise : forall o, inv (outcome_world o) ->
            inv match o with
                | Returned w' => w'
                | Raised w' =>
                    reply uid Msg.error_try_again (log_error (ErrorInHandleMessage uid) w')
                end).
  { intros [w' | w'] H; [exact H |]. apply inv_reply, inv_log_error; [exact I | exact H]. }
  apply Hraise.
  destruct (question_index row =? -1); [apply _handle_name_input_inv; assumption |].
  destruct (question_index row =? 0) eqn:H0.
  { apply Z.eqb_eq in H0.
    apply (_handle_welcome_inv uid clock draw w1 row1); try assumption. lia. }
  destruct (1 <=? question_index row) eqn:H1; [| exact Hinv1].
  apply Z.leb_le in H1. cbn [outcome_world]. rewrite <- Hidx1.
  apply _handle_answer_inv; [exact Hinv1 | exact Hrow1 | lia].
Qed.

Lemma dispatch_inv w u :
  valid_update u = true -> inv w -> inv (dispatch ADMIN_IDS w u).
Proof.
  destruct u as [uid uname clock | uid text clock draw]; cbn [valid_update dispatch].
  - intros _. apply start_handler_inv.
  - apply handle_message_inv.
Qed.

Lemma inv_empty : inv empty_world.
Proof.
  split_inv.
  - intros uid c H. change (candidates empty_world) with (∅ : gmap Z candidate) in H.
    rewrite lookup_empty in H. discriminate H.
  - constructor.
  - intros r H. inversion H.
  - constructor.
Qed.

Lemma run_inv us w :
  forallb valid_update us = true -> inv w -> inv (run ADMIN_IDS us w).
Proof.
  revert w. induction us as [| u us IH]; intros w Hvalid Hinv; [exact Hinv |].
  cbn [forallb] in Hvalid. apply andb_true_iff in Hvalid as [Hu Hus].
  unfold run. cbn [fold_left]. apply IH; [exact Hus |]. apply dispatch_inv; assumption.
Qed.

End Proofs.

(** ** A delivery leaves the other users alone *)

Section Frame.
Variable ADMIN_IDS : list Z.
Variable uid : Z.

Lemma same_for_refl w : same_for uid w w.
Proof. split; reflexivity. Qed.

Lemma same_for_reply w w1 k text :
  same_for uid w w1 -> same_for uid w (reply k text w1).
Proof. intros H. exact H. Qed.

Lemma same_for_log_error w w1 e :
  same_for uid w w1 -> same_for uid w (log_error e w1).
Proof. intros H. exact H. Qed.

Lemma same_for_update_where w w1 k p f :
  k <> uid -> same_for uid w w1 -> same_for uid w (update_where k p f w1).1.
Proof.
  intros Hne [Hc Hr]. split.
  - rewrite update_where_other by congruence. exact Hc.
  - unfold responses_of. rewrite update_where_responses. exact Hr.
Qed.

Lemma same_for_insert_candidate w w1 k c :
  k <> uid -> same_for uid w w1 -> same_for uid w (insert_candidate k c w1).
Proof.
  intros Hne [Hc Hr]. split; [| exact Hr].
  wsimpl. rewrite lookup_insert_ne by exact Hne. exact Hc.
Qed.

Lemma same_for_delete_responses w w1 k :
  k <> uid -> same_for uid w w1 -> same_for uid w (delete_responses k w1).
Proof.
  intros Hne [Hc Hr]. split; [exact Hc |].
  unfold responses_of in *. wsimpl. rewrite <- Hr. clear Hr.
  induction (responses w1) as [| r rs IH]; [reflexivity |].
  rewrite !filter_cons.
  destruct (decide (user_id r <> k)) as [Hk | Hk].
  - rewrite !filter_cons. destruct (decide (user_id r = uid)); [f_equal |]; exact IH.
  - destruct (decide (user_id r = uid)) as [Hu | Hu]; [| exact IH].
    exfalso. apply Hk. congruence.
Qed.

Lemma same_for_insert_response w w1 r :
  user_id r <> uid -> same_for uid w w1 -> same_for uid w (insert_response r w1).
Proof.
  intros Hne [Hc Hr]. split; [exact Hc |].
  unfold responses_of in *. wsimpl. rewrite filter_app, Hr, filter_cons.
  destruct (decide (user_id r = uid)); [contradiction |].
  rewrite filter_nil. apply app_nil_r.
Qed.

(** Walks through the body of a handler run for another user. *)
Ltac frame_step :=
  match goal with
  | |- same_for _ ?w ?w => apply same_for_refl
  | H : same_for _ ?w ?w1 |- same_for _ ?w ?w1 => exact H
  | |- same_for _ _ (reply _ _ _) => apply same_for_reply
  | |- same_for _ _ (log_error _ _) => apply same_for_log_error
  | |- same_for _ _ (update_where _ _ _ _).1 => apply same_for_update_where; [assumption |]
  | |- same_for _ _ (insert_candidate _ _ _) => apply same_for_insert_candidate; [assumption |]
  | |- same_for _ _ (delete_responses _ _) => apply same_for_delete_responses; [assumption |]
  | |- same_for _ _ (insert_response _ _) =>
      apply same_for_insert_response; [cbn [user_id]; assumption |]
  | |- same_for _ _ (if ?b then _ else _) => destruct b
  | |- same_for _ _ (match ?x with Some _ => _ | None => _ end) => destruct x
  | |- same_for _ _ (match ?x with [] => _ | _ :: _ => _ end) => destruct x
  | |- same_for _ _ (outcome_world (if ?b then _ else _)) => destruct b
  | |- same_for _ _ (outcome_world (match ?x with [] => _ | _ :: _ => _ end)) => destruct x
  | |- same_for _ _ (outcome_world _) => progress cbn [outcome_world]
  | |- same_for _ _ (let '(_, _) := ?x in _) => destruct x
  end.

Lemma start_handler_frame k uname clock w :
  k <> uid -> same_for uid w (start_handler ADMIN_IDS k uname clock w).
Proof. intros Hne. unfold start_handler. cbv zeta. repeat frame_step. Qed.

Lemma _complete_interview_frame k now w w1 :
  k <> uid -> same_for uid w w1 ->
  same_for uid w (_complete_interview ADMIN_IDS k now w1).
Proof. intros Hne H. unfold _complete_interview. cbv zeta. repeat frame_step. Qed.

Lemma _handle_answer_frame k text index last_time clock w w1 :
  k <> uid -> same_for uid w w1 ->
  same_for uid w (_handle_answer ADMIN_IDS text index k last_time clock w1).
Proof.
  intros Hne H. unfold _handle_answer. cbv zeta.
  repeat first [frame_step | apply _complete_interview_frame; [assumption |]].
Qed.

Lemma _handle_name_input_frame k text clock draw w w1 :
  k <> uid -> same_for uid w w1 ->
  same_for uid w (outcome_world (_handle_name_input ADMIN_IDS text k clock draw w1)).
Proof. intros Hne H. unfold _handle_name_input. cbv zeta. repeat frame_step. Qed.

Lemma _handle_welcome_frame k clock draw w w1 :
  k <> uid -> same_for uid w w1 ->
  same_for uid w (outcome_world (_handle_welcome ADMIN_IDS k clock draw w1)).
Proof. intros Hne H. unfold _handle_welcome. cbv zeta. repeat frame_step. Qed.

Lemma handle_message_frame k text clock draw w :
  k <> uid -> same_for uid w (handle_message ADMIN_IDS k text clock draw w).
Proof.
  intros Hne. unfold handle_message.
  destruct (candidates w !! k) as [row |]; [| repeat frame_step].
  destruct ((has_completed_interview row =? 1) && negb (is_admin ADMIN_IDS k));
    [repeat frame_step |].
  set (w1 := if (has_completed_interview row =? 1) && is_admin ADMIN_IDS k
             then (update_where k any_row unlock w).1 else w).
  assert (H1 : same_for uid w w1) by (subst w1; repeat frame_step).
  clearbody w1.
  assert (Hraise : forall o, same_for uid w (outcome_world o) ->
            same_for uid w match o with
                | Returned w' => w'
                | Raised w' =>
                    reply k Msg.error_try_again (log_error (ErrorInHandleMessage k) w')
                end).
  { intros [w' | w'] H; exact H. }
  apply Hraise.
  destruct (question_index row =? -1); [apply _handle_name_input_frame; assumption |].
  destruct (question_index row =? 0); [apply _handle_welcome_frame; assumption |].
  destruct (1 <=? question_index row); cbn [outcome_world];
    [apply _handle_answer_frame; assumption | repeat frame_step].
Qed.

Lemma dispatch_frame w u :
  sender u <> uid -> same_for uid w (dispatch ADMIN_IDS w u).
Proof.
  destruct u as [k uname clock | k text clock draw]; cbn [sender dispatch]; intros Hne.
  - apply start_handler_frame, Hne.
  - apply handle_message_frame, Hne.
Qed.

End Frame.

(** ** The claims about the state machine *)

Section Claims.
Variable ADMIN_IDS : list Z.
Local Abbreviation is_admin := (Handlers.is_admin ADMIN_IDS).









(** C7, as amended. A locked candidate who is no administrator gets, for
    a text message, the fixed notice that points to [/start], and for
    [/start] the completion notice: a fixed text after an approval,
    otherwise the stored feedback; nothing else changes in either case. *)
Theorem locked_candidate_replies uid row w :
  is_admin uid = false ->
  candidates w !! uid = Some row ->
  has_completed_interview row = 1 ->
  (forall text clock draw,
     handle_message ADMIN_IDS uid text clock draw w
     = reply uid Msg.already_completed_use_start w)
  /\ (forall uname clock,
        start_handler ADMIN_IDS uid uname clock w
        = reply uid (Parts.completion_notice row) w).
Proof.
  intros Hadm Hrow Hlock. split.
  - intros text clock draw. unfold handle_message.
    rewrite Hrow, Hlock, Hadm. reflexivity.
  - intros uname clock. unfold start_handler, Parts.completion_notice, is_locked.
    rewrite Hrow, Hlock, Hadm. simpl.
    destruct (decide (decision row = Some Scoring.APPROVED)); [reflexivity |].
    destruct (feedback row) as [f |]; [| reflexivity].
    destruct (decide (f = EmptyString)); reflexivity.
Qed.


(** C10. For an administrator whose row has
    [has_completed_interview = 1], a text message is handled as on the
    database where [has_completed_interview] and [completed] of the row are
    first set to 0; the handlers of a name and of an answer make the same
    write once the name is valid, or the answer is not a duplicate. *)
Theorem admin_message_unlocks uid row w :
  is_admin uid = true ->
  candidates w !! uid = Some row ->
  has_completed_interview row = 1 ->
  candidates (Parts.unlocked uid w) !! uid = Some (unlock row)
  /\ has_completed_interview (unlock row) = 0
  /\ completed (unlock row) = 0
  /\ (forall text clock draw,
        handle_message ADMIN_IDS uid text clock draw w
        = handle_message ADMIN_IDS uid text clock draw (Parts.unlocked uid w))
  /\ (forall text clock draw,
        Spec.valid_name text = true ->
        _handle_name_input ADMIN_IDS text uid clock draw w
        = _handle_name_input ADMIN_IDS text uid clock draw (Parts.unlocked uid w))
  /\ (forall text index last_time clock,
        truthy (selected_questions row) = true ->
        responses_for uid (index - 1) w = [] ->
        _handle_answer ADMIN_IDS text index uid last_time clock w
        = _handle_answer ADMIN_IDS text index uid last_time clock (Parts.unlocked uid w)).
Proof.
  intros Hadm Hrow Hlock.
  assert (Hun : candidates (Parts.unlocked uid w) !! uid = Some (unlock row)).
  { unfold Parts.unlocked, update_where. rewrite Hrow. simpl. apply lookup_insert_eq. }
  split; [exact Hun |]. split; [reflexivity |]. split; [reflexivity |].
  split; [| split].
  - intros text clock draw. unfold handle_message.
    rewrite Hun, Hrow, Hlock, Hadm. simpl. reflexivity.
  - intros text clock draw Hvalid.
    unfold Spec.valid_name in Hvalid.
    apply andb_true_iff in Hvalid as [Hvalid Hnl].
    apply andb_true_iff in Hvalid as [Hlen Hdot].
    apply bool_decide_eq_true in Hlen.
    apply negb_true_iff in Hnl, Hdot.
    unfold _handle_name_input.
    replace (String.length (strip text) <? 2)%nat with false
      by (symmetry; apply Nat.ltb_ge; lia).
    replace (20 <? String.length (strip text))%nat with false
      by (symmetry; apply Nat.ltb_ge; lia).
    rewrite Hdot, Hnl, Hun, Hrow. unfold is_locked. rewrite Hlock, Hadm. simpl.
    reflexivity.
  - intros text index last_time clock Hqs Hnodup.
    unfold _handle_answer, get_user_questions.
    assert (Hresp : responses_for uid (index - 1) (Parts.unlocked uid w) = []).
    { unfold Parts.unlocked, update_where. rewrite Hrow. exact Hnodup. }
    rewrite Hresp, Hnodup, Hun, Hrow. simpl. rewrite Hqs, Hlock, Hadm. simpl.
    fold (Parts.unlocked uid w). reflexivity.
Qed.


(** C3, as amended. At a cursor [n ≥ 1] with a response already stored
    for question [n - 1], a text message inserts no response and leaves
    [score] and [ai_score] as they are; in a session in progress with
    questions selected, it moves the cursor to [n + 1] and sends question
    [n] once when [n < Q], and changes and sends nothing when [n ≥ Q]. *)
Theorem duplicate_answer_not_scored uid row text clock draw w :
  candidates w !! uid = Some row ->
  1 <= question_index row ->
  responses_for uid (question_index row - 1) w <> [] ->
  let n := question_index row in
  let w' := handle_message ADMIN_IDS uid text clock draw w in
  responses w' = responses w
  /\ exists row',
       candidates w' !! uid = Some row'
       /\ score row' = score row
       /\ ai_score row' = ai_score row
       /\ (question_index row' = n \/ question_index row' = n + 1)
       /\ forall questions,
            has_completed_interview row = 0 ->
            selected_questions row = Some questions ->
            questions <> [] ->
            if n <? Z.of_nat (length questions)
            then question_index row' = n + 1
                 /\ outbox w' = (outbox w ++ [(uid, nth (Z.to_nat n) questions EmptyString)])%list
            else w' = w.
Proof.
  intros Hrow Hn Hdup. simpl.
  unfold handle_message. rewrite Hrow.
  destruct ((has_completed_interview row =? 1) && negb (is_admin uid)) eqn:Hblock.
  { split; [reflexivity |]. exists row. simpl. rewrite Hrow.
    repeat split; auto. intros qs Hunl. rewrite Hunl in Hblock. discriminate Hblock. }
  set (w1 := if (has_completed_interview row =? 1) && is_admin uid
             then (update_where uid any_row unlock w).1 else w).
  assert (Hw1 : exists row1, candidates w1 !! uid = Some row1
             /\ score row1 = score row /\ ai_score row1 = ai_score row
             /\ question_index row1 = question_index row
             /\ selected_questions row1 = selected_questions row
             /\ responses w1 = responses w /\ outbox w1 = outbox w
             /\ (has_completed_interview row = 0 -> w1 = w)).
  { subst w1. destruct ((has_completed_interview row =? 1) && is_admin uid) eqn:Hun.
    - exists (unlock row). unfold update_where. rewrite Hrow. simpl.
      rewrite lookup_insert_eq. repeat split.
      intros H0. rewrite H0 in Hun. discriminate Hun.
    - exists row. repeat split; auto. }
  destruct Hw1 as (row1 & Hrow1 & Hs1 & Ha1 & Hi1 & Hq1 & Hr1 & Ho1 & Hsame).
  replace (question_index row =? -1) with false by (symmetry; apply Z.eqb_neq; lia).
  replace (question_index row =? 0) with false by (symmetry; apply Z.eqb_neq; lia).
  replace (1 <=? question_index row) with true by (symmetry; apply Z.leb_le; lia).
  clearbody w1.
  unfold _handle_answer, get_user_questions. rewrite Hrow1, Hq1.
  destruct (truthy (selected_questions row)) eqn:Htr; simpl.
  2:{ split; [exact Hr1 |]. exists row1. rewrite Hrow1. repeat split; auto; try lia.
      intros qs _ Hqs Hne. rewrite Hqs in Htr. destruct qs; [congruence | discriminate]. }
  assert (Hdup1 : responses_for uid (question_index row - 1) w1 <> []).
  { unfold responses_for in *. rewrite Hr1. exact Hdup. }
  destruct (responses_for uid (question_index row - 1) w1) as [| r rs] eqn:Hresp;
    [congruence |].
  destruct (question_index row <? Z.of_nat (length (default [] (selected_questions row))))
    eqn:Hlt.
  - simpl. rewrite update_where_responses. split; [exact Hr1 |].
    unfold update_where. rewrite Hrow1. simpl. rewrite lookup_insert_eq.
    exists (advance (clock 0%nat) row1). simpl.
    repeat split; auto; try lia.
    intros qs Hunl Hqs Hne. rewrite Hqs in Hlt. simpl in Hlt. rewrite Hlt.
    split; [lia |]. rewrite Ho1, Hqs. reflexivity.
  - split; [exact Hr1 |]. exists row1. rewrite Hrow1. repeat split; auto; try lia.
    intros qs Hunl Hqs Hne. rewrite Hqs in Hlt. simpl in Hlt. rewrite Hlt.
    apply Hsame, Hunl.
Qed.


End Claims.

(** ** The properties on concrete deliveries *)

Import Scenario.

(** Scenario C: five neutral answers end NOT_ELIGIBLE and locked. *)
Example neutral_interview_rejected :
  decision (row_of 7 rejected_world) = Some Scoring.NOT_ELIGIBLE
  /\ has_completed_interview (row_of 7 rejected_world) = 1
  /\ score (row_of 7 rejected_world) = 5.
Proof. vm_compute. repeat split. Qed.

(** Scenario D: an administrator's [/start] after completion starts over. *)
Example admin_restart_after_completion :
  let w := start_handler admins 1 (Some "al") (clock_at 0) admin_world in
  question_index (row_of 1 w) = -1
  /\ has_completed_interview (row_of 1 w) = 0
  /\ responses_of 1 w = [].
Proof. vm_compute. repeat split. Qed.



(** A duplicate of the last answer, on the world of the retry. *)
Lemma duplicate_answer_not_scored_witness :
  let w := retry_world in
  let row := row_of 7 w in
  let w' := handle_message admins 7 neutral_answer (clock_at 99) draw5 w in
  responses w' = responses w
  /\ exists row',
       candidates w' !! 7 = Some row'
       /\ score row' = score row
       /\ ai_score row' = ai_score row
       /\ (question_index row' = question_index row
           \/ question_index row' = question_index row + 1)
       /\ forall questions,
            has_completed_interview row = 0 ->
            selected_questions row = Some questions ->
            questions <> [] ->
            if question_index row <? Z.of_nat (length questions)
            then question_index row' = question_index row + 1
                 /\ outbox w' =
                    (outbox w
                     ++ [(7, nth (Z.to_nat (question_index row)) questions EmptyString)])%list
            else w' = w.
Proof.
  apply (duplicate_answer_not_scored admins 7 (row_of 7 retry_world) neutral_answer
           (clock_at 99) draw5 retry_world).
  - vm_compute. reflexivity.
  - vm_compute. discriminate.
  - vm_compute. discriminate.
Defined.

(** C3 as stated fails on the last question: with the response to
    question 4 stored and the cursor on 5, a further answer neither moves
    the cursor nor sends anything. *)
Lemma duplicate_of_last_answer_is_dropped :
  question_index (row_of 7 retry_world) = 5
  /\ length (responses_for 7 4 retry_world) = 1%nat
  /\ handle_message admins 7 neutral_answer (clock_at 99) draw5 retry_world = retry_world.
Proof. vm_compute. repeat split. Qed.



(** Scenarios A and B: the name "Al" is accepted and moves the cursor to
    1; the name "A" is rejected and the cursor stays on -1. *)
Example name_scenarios :
  let w := run admins [StartCommand 7 (Some "al") (clock_at 0)] empty_world in
  Spec.valid_name "Al" = true
  /\ question_index (row_of 7 (handle_message admins 7 "Al" (clock_at 1) draw5 w)) = 1
  /\ Spec.valid_name "A" = false
  /\ handle_message admins 7 "A" (clock_at 1) draw5 w = reply 7 Msg.name_too_short w.
Proof. vm_compute. repeat split. Qed.

(** The answers to the rejected candidate of the scenarios. *)
Lemma locked_candidate_replies_witness :
  (forall text clock draw,
     handle_message admins 7 text clock draw rejected_world
     = reply 7 Msg.already_completed_use_start rejected_world)
  /\ (forall uname clock,
        start_handler admins 7 uname clock rejected_world
        = reply 7 (Parts.completion_notice (row_of 7 rejected_world)) rejected_world).
Proof.
  apply (locked_candidate_replies admins 7 (row_of 7 rejected_world) rejected_world);
    vm_compute; reflexivity.
Defined.

(** C7 as stated fails: a text message of a locked candidate is answered
    with the notice that points to [/start], not with the stored feedback;
    and [/start] of an approved candidate is answered with a fixed text
    that is not the stored feedback either. *)
Lemma locked_reply_is_not_the_feedback :
  is_admin admins 7 = false
  /\ has_completed_interview (row_of 7 rejected_world) = 1
  /\ feedback (row_of 7 rejected_world) = Some Utils.feedback_other
  /\ outbox (handle_message admins 7 "hello" (clock_at 99) draw5 rejected_world)
     = (outbox rejected_world ++ [(7, Msg.already_completed_use_start)])%list
  /\ bool_decide (Msg.already_completed_use_start = Utils.feedback_other) = false
  /\ has_completed_interview (row_of 7 approved_world) = 1
  /\ feedback (row_of 7 approved_world) = Some Utils.feedback_approved
  /\ outbox (start_handler admins 7 (Some "al") (clock_at 99) approved_world)
     = (outbox approved_world ++ [(7, Msg.already_accepted)])%list
  /\ bool_decide (Msg.already_accepted = Utils.feedback_approved) = false.
Proof. vm_compute. repeat split. Qed.





(** A message of the administrator of the scenarios after completion. *)
Lemma admin_message_unlocks_witness :
  let uid := 1 in
  let w := admin_world in
  let row := row_of 1 admin_world in
  candidates (Parts.unlocked uid w) !! uid = Some (unlock row)
  /\ has_completed_interview (unlock row) = 0
  /\ completed (unlock row) = 0
  /\ (forall text clock draw,
        handle_message admins uid text clock draw w
        = handle_message admins uid text clock draw (Parts.unlocked uid w))
  /\ (forall text clock draw,
        Spec.valid_name text = true ->
        _handle_name_input admins text uid clock draw w
        = _handle_name_input admins text uid clock draw (Parts.unlocked uid w))
  /\ (forall text index last_time clock,
        truthy (selected_questions row) = true ->
        responses_for uid (index - 1) w = [] ->
        _handle_answer admins text index uid last_time clock w
        = _handle_answer admins text index uid last_time clock (Parts.unlocked uid w)).
Proof.
  apply (admin_message_unlocks admins 1 (row_of 1 admin_world) admin_world);
    vm_compute; reflexivity.
Defined.

(** ** More on the decision policy and the rubric *)

(** X1. [determine_decision] is monotone: a score at least as high with an
    AI score at most as high never gives a worse decision. *)
Theorem determine_decision_monotone (score score' ai_score ai_score' : Z) :
  score <= score' -> ai_score' <= ai_score ->
  Rubric.decision_rank (Scoring.determine_decision score ai_score)
  <= Rubric.decision_rank (Scoring.determine_decision score' ai_score').
Proof.
  intros Hs Ha. unfold Scoring.determine_decision.
  destruct (Z.leb_spec 17 score), (Z.leb_spec ai_score 8),
    (Z.leb_spec 13 score), (Z.leb_spec ai_score 10),
    (Z.leb_spec 17 score'), (Z.leb_spec ai_score' 8),
    (Z.leb_spec 13 score'), (Z.leb_spec ai_score' 10);
    cbn [andb]; try lia; vm_compute; discriminate.
Qed.

Lemma count_in_cons p phrases s :
  count_in (p :: phrases) s = ((if contains p s then 1 else 0) + count_in phrases s)%nat.
Proof.
  unfold count_in. rewrite filter_cons.
  destruct (contains p s); cbn; reflexivity.
Qed.

Lemma count_in_nil s : count_in [] s = 0%nat.
Proof. reflexivity. Qed.

(** Replaces every test of the lowered text by a variable. *)
Ltac abstract_tests lower :=
  repeat match goal with
         | |- context [any_in ?l lower] =>
             let b := fresh "b" in generalize (any_in l lower); intros b
         | |- context [count_in ?l lower] =>
             let n := fresh "n" in generalize (count_in l lower); intros n
         | |- context [contains ?p lower] =>
             let b := fresh "b" in generalize (contains p lower); intros b
         end.

(** X2. [_score_monetization] is 0 when the text begs or holds four or
    more of the six sales words; otherwise 2 for a desire or subtle signal
    with a future setup, 1 for any one signal, 0 for none.  The third
    branch of the code (credit for a signal that is pushed too hard) never
    shows in the result. *)
Theorem _score_monetization_closed (lower : string) :
  Scoring._score_monetization lower
  = if Rubric.begging lower || (4 <=? Rubric.sales_word_count lower)%nat then 0
    else if (Rubric.has_desire lower || Rubric.has_subtle lower)
            && Rubric.has_future_setup lower then 2
    else if Rubric.has_desire lower || Rubric.has_subtle lower
            || Rubric.has_future_setup lower then 1
    else 0.
Proof.
  unfold Scoring._score_monetization, Rubric.begging, Rubric.sales_word_count,
    Rubric.has_desire, Rubric.has_subtle, Rubric.has_future_setup. cbv zeta.
  abstract_tests lower.
  destruct (4 <=? n)%nat, b, b0, b1, b2; reflexivity.
Qed.

(** X3. [_score_emotional_investment] is 0 for an offer of free content;
    otherwise, with a chosen or curiosity signal, a personal or connection
    signal and no completion phrase, it is 2, or 1 under sales pressure
    (two or more pressure terms); without that it is 1 for any one signal
    and no sales pressure, and 0 else. *)
Theorem _score_emotional_investment_closed (lower : string) :
  Scoring._score_emotional_investment lower
  = let strong :=
      (Rubric.has_chosen lower || Rubric.has_curiosity lower)
      && (Rubric.has_personal lower || Rubric.has_connection lower)
      && negb (Rubric.has_completion lower) in
    let pressure := (2 <=? Rubric.sales_pressure_count lower)%nat in
    if Rubric.over_giving lower then 0
    else if strong then (if pressure then 1 else 2)
    else if pressure then 0
    else if Rubric.has_chosen lower || Rubric.has_curiosity lower
            || Rubric.has_personal lower || Rubric.has_connection lower then 1
    else 0.
Proof.
  unfold Scoring._score_emotional_investment, Rubric.has_chosen, Rubric.has_curiosity,
    Rubric.has_personal, Rubric.has_connection, Rubric.has_completion,
    Rubric.over_giving, Rubric.sales_pressure_count. cbv zeta.
  abstract_tests lower.
  destruct (2 <=? n)%nat, b, b0, b1, b2, b3, b4, b5, b6, b7; reflexivity.
Qed.

(** X4. With an objection marker in the text [_score_rebuttal] is 2 or 0,
    never 1: 2 for a reframing or calm phrase with neither an argument
    phrase nor the word "defend".  Without a marker it is 1 for a momentum
    word or more than five words, and 0 else. *)
Theorem _score_rebuttal_closed (lower : string) (word_count : nat) :
  Scoring._score_rebuttal lower word_count
  = if Rubric.has_objection_context lower
    then if (Rubric.has_reframe lower || Rubric.has_calm lower)
            && negb (Rubric.has_argument lower) && negb (contains "defend" lower)
         then 2 else 0
    else if Rubric.has_momentum lower || (5 <? word_count)%nat then 1 else 0.
Proof.
  unfold Scoring._score_rebuttal, Rubric.has_objection_context, Rubric.has_reframe,
    Rubric.has_calm, Rubric.has_argument, Rubric.has_momentum. cbv zeta.
  abstract_tests lower.
  destruct b, b0, b1, b2, b3, b4, (5 <? word_count)%nat; reflexivity.
Qed.

(** X5. A text with four or more of the six sales words "buy", "pay",
    "tip", "purchase", "order", "send" gets 0 for monetization and for
    pacing and at most 1 for emotional investment, so its behavior score is
    at most 5. *)
Theorem overpushing_caps_score (text : string) (response_time : float) :
  (4 <= Rubric.sales_word_count (lower text))%nat ->
  Scoring._score_monetization (lower text) = 0
  /\ Scoring._score_pacing (lower text) (length (split text)) = 0
  /\ Scoring._score_emotional_investment (lower text) <= 1
  /\ (Scoring.analyze_response text response_time).1 <= 5.
Proof.
  intros Hover.
  assert (Hm : Scoring._score_monetization (lower text) = 0).
  { unfold Scoring._score_monetization. cbv zeta.
    replace (4 <=? count_in _ (lower text))%nat with true
      by (symmetry; apply Nat.leb_le, Hover).
    reflexivity. }
  assert (Hp : Scoring._score_pacing (lower text) (length (split text)) = 0).
  { unfold Scoring._score_pacing. cbv zeta.
    unfold Rubric.sales_word_count in Hover.
    rewrite !count_in_cons, count_in_nil in *.
    replace (4 <=? _)%nat with true.
    - split_tests; reflexivity.
    - symmetry. apply Nat.leb_le.
      repeat match goal with
             | |- context [contains ?p (lower text)] => destruct (contains p (lower text))
             end; cbn in *; lia. }
  assert (He : Scoring._score_emotional_investment (lower text) <= 1).
  { unfold Scoring._score_emotional_investment. cbv zeta.
    replace (2 <=? count_in _ (lower text))%nat with true.
    - split_tests; lia.
    - symmetry. apply Nat.leb_le.
      unfold Rubric.sales_word_count in Hover.
      rewrite !count_in_cons, count_in_nil in *.
      repeat match goal with
             | |- context [contains ?p (lower text)] => destruct (contains p (lower text))
             | H : context [contains ?p (lower text)] |- _ =>
                 destruct (contains p (lower text))
             end; cbn in *; lia. }
  split; [exact Hm |]. split; [exact Hp |]. split; [exact He |].
  unfold Scoring.analyze_response. cbn [fst].
  pose proof (_score_fan_control_range text (lower text)).
  pose proof (_score_rebuttal_range (lower text) (length (split text))).
  lia.
Qed.

(** X6. The elapsed time enters the AI score through the test
    [response_time < 1] alone: two elapsed times on the same side of the
    test give the same pair of scores, and any two give AI scores that
    differ by at most 1. *)
Theorem latency_counts_once (text : string) (response_time response_time' : float) :
  (PrimFloat.ltb response_time 1 = PrimFloat.ltb response_time' 1 ->
   Scoring.analyze_response text response_time
   = Scoring.analyze_response text response_time')
  /\ Z.abs ((Scoring.analyze_response text response_time).2
            - (Scoring.analyze_response text response_time').2) <= 1.
Proof.
  unfold Scoring.analyze_response, Scoring._detect_ai_indicators. cbv zeta. cbn [snd].
  split.
  - intros ->. reflexivity.
  - destruct (PrimFloat.ltb response_time 1), (PrimFloat.ltb response_time' 1);
      split_tests; lia.
Qed.

(** ** Scoring does not see the case of letters *)

Ltac each_ascii c := destruct c as [[] [] [] [] [] [] [] []].

Lemma lower_char_idem c : lower_char (lower_char c) = lower_char c.
Proof. each_ascii c; reflexivity. Qed.

Lemma isspace_lower_char c : isspace (lower_char c) = isspace c.
Proof. each_ascii c; reflexivity. Qed.

Lemma lower_char_punctuation c x :
  x = "," %char \/ x = dot \/ x = bang \/ x = qmark ->
  Ascii.eqb (lower_char c) x = Ascii.eqb c x.
Proof. intros [-> | [-> | [-> | ->]]]; each_ascii c; reflexivity. Qed.

Lemma lower_idem s : lower (lower s) = lower s.
Proof.
  induction s as [| c s IH]; [reflexivity |].
  cbn [lower]. rewrite lower_char_idem, IH. reflexivity.
Qed.

Lemma append_cons c s t : String c s ++ t = String c (s ++ t).
Proof. reflexivity. Qed.

Lemma lower_app s t : lower (s ++ t) = lower s ++ lower t.
Proof.
  induction s as [| c s IH]; [reflexivity |].
  rewrite append_cons. cbn [lower]. rewrite append_cons, IH. reflexivity.
Qed.

Lemma lower_eq_empty s : lower s = EmptyString <-> s = EmptyString.
Proof. destruct s; cbn; split; intros H; (reflexivity || discriminate H). Qed.

Lemma split_ws_lower word s :
  split_ws (lower <$> word) (lower s) = lower <$> split_ws word s.
Proof.
  revert word. induction s as [| c s IH]; intros word; cbn [lower split_ws].
  - destruct word; reflexivity.
  - rewrite isspace_lower_char. destruct (isspace c).
    + destruct word as [w |]; cbn [fmap option_fmap option_map list_fmap];
        rewrite <- (IH None); reflexivity.
    + rewrite <- IH. f_equal. destruct word as [w |]; cbn; [| reflexivity].
      rewrite lower_app. reflexivity.
Qed.

Lemma split_lower s : split (lower s) = lower <$> split s.
Proof. exact (split_ws_lower None s). Qed.

Lemma word_count_lower s : length (split (lower s)) = length (split s).
Proof. rewrite split_lower. apply length_fmap. Qed.

Lemma prefix_empty s : String.prefix EmptyString s = true.
Proof. destruct s; reflexivity. Qed.

Lemma count_char_lower x s :
  x = "," %char \/ x = dot \/ x = bang \/ x = qmark ->
  count (String x EmptyString) (lower s) = count (String x EmptyString) s.
Proof.
  intros Hx. unfold count. induction s as [| c s IH]; [reflexivity |].
  cbn [lower count_from String.prefix String.length Nat.sub].
  destruct (ascii_dec x (lower_char c)) as [E | E], (ascii_dec x c) as [E' | E'].
  - rewrite !prefix_empty, IH. reflexivity.
  - exfalso. apply E'. symmetry. apply Ascii.eqb_eq.
    rewrite <- (lower_char_punctuation c x Hx). apply Ascii.eqb_eq. congruence.
  - exfalso. apply E. symmetry. apply Ascii.eqb_eq.
    rewrite (lower_char_punctuation c x Hx). apply Ascii.eqb_eq. congruence.
  - exact IH.
Qed.

Lemma replace_lower a b s :
  a = bang \/ a = qmark -> b = dot ->
  replace a b (lower s) = lower (replace a b s).
Proof.
  intros Ha ->. induction s as [| c s IH]; [reflexivity |].
  cbn [lower replace]. rewrite IH. f_equal.
  rewrite lower_char_punctuation by tauto.
  destruct (Ascii.eqb c a); reflexivity.
Qed.

Lemma split_on_lower field s :
  split_on dot (lower field) (lower s) = lower <$> split_on dot field s.
Proof.
  revert field. induction s as [| c s IH]; intros field; [reflexivity |].
  cbn [lower split_on]. rewrite lower_char_punctuation by tauto.
  destruct (Ascii.eqb c dot).
  - cbn [fmap list_fmap]. f_equal. apply (IH EmptyString).
  - rewrite <- IH, lower_app. reflexivity.
Qed.

Lemma lstrip_lower s : lstrip (lower s) = lower (lstrip s).
Proof.
  induction s as [| c s IH]; [reflexivity |].
  cbn [lower lstrip]. rewrite isspace_lower_char. destruct (isspace c); [exact IH | reflexivity].
Qed.

Lemma rstrip_lower s : rstrip (lower s) = lower (rstrip s).
Proof.
  induction s as [| c s IH]; [reflexivity |].
  cbn [lower rstrip]. rewrite IH, isspace_lower_char.
  destruct (rstrip s); cbn [lower]; [destruct (isspace c) |]; reflexivity.
Qed.

Lemma strip_lower s : strip (lower s) = lower (strip s).
Proof. unfold strip. rewrite lstrip_lower, rstrip_lower. reflexivity. Qed.

Lemma sentences_lower s : Scoring.sentences (lower s) = lower <$> Scoring.sentences s.
Proof.
  unfold Scoring.sentences.
  rewrite !replace_lower by tauto.
  pose proof (split_on_lower EmptyString (replace qmark dot (replace bang dot s))) as H.
  change (lower EmptyString) with EmptyString in H. rewrite H. clear H.
  induction (split_on dot EmptyString (replace qmark dot (replace bang dot s)))
    as [| f fs IH]; [reflexivity |].
  cbn [map fmap list_fmap]. rewrite !filter_cons, strip_lower.
  destruct (decide (lower (strip f) <> EmptyString)) as [H | H],
    (decide (strip f <> EmptyString)) as [H' | H'].
  - cbn [fmap list_fmap]. f_equal. exact IH.
  - exfalso. apply H. apply lower_eq_empty. destruct (strip f); [reflexivity | exfalso; apply H'; discriminate].
  - exfalso. apply H. intros E. apply H'. apply lower_eq_empty, E.
  - exact IH.
Qed.

(** X7. [analyze_response] does not depend on the case of the letters:
    the lowered text gets the same pair of scores as the text. *)
Theorem analyze_response_ignores_case (text : string) (response_time : float) :
  Scoring.analyze_response (lower text) response_time
  = Scoring.analyze_response text response_time.
Proof.
  unfold Scoring.analyze_response, Scoring._score_fan_control,
    Scoring._detect_ai_indicators. cbv zeta.
  rewrite !lower_idem, !word_count_lower, sentences_lower.
  rewrite (count_char_lower "," text) by tauto.
  rewrite (count_char_lower "."%char text) by (right; left; reflexivity).
  rewrite length_fmap.
  replace (map (fun s => length (split s)) (lower <$> Scoring.sentences text))
    with (map (fun s => length (split s)) (Scoring.sentences text)).
  - reflexivity.
  - induction (Scoring.sentences text) as [| s ss IH]; [reflexivity |].
    cbn [map fmap list_fmap]. rewrite word_count_lower. f_equal. exact IH.
Qed.

(** ** The selection of the questions *)

Lemma pool_NoDup : NoDup Questions.QUESTION_POOL.
Proof. apply (bool_decide_unpack _). vm_compute. exact I. Qed.

Lemma omap_lookup_NoDup (pool : list string) (draw : list nat) :
  NoDup pool -> NoDup draw -> NoDup (omap (fun i => pool !! i) draw).
Proof.
  intros Hpool. induction draw as [| i draw IH]; intros Hdraw; [constructor |].
  apply NoDup_cons in Hdraw as [Hi Hdraw]. cbn [omap list_omap].
  destruct (pool !! i) as [q |] eqn:Hq; [| auto].
  apply NoDup_cons. split; [| auto].
  intros Hin. apply list_elem_of_omap in Hin as (j & Hj & Hqj).
  assert (i = j) by exact (NoDup_lookup pool i j q Hpool Hq Hqj). subst j. contradiction.
Qed.

(** X8. For a draw that [random.sample] can make, [get_random_questions]
    gives [QUESTIONS_PER_INTERVIEW] questions, all different and all from
    the pool: question [k] of the selection is the pool's question at the
    [k]-th position drawn. *)
Theorem get_random_questions_sample (draw : list nat) :
  Questions.valid_draw draw = true ->
  let selected := Questions.get_random_questions draw in
  length selected = Questions.QUESTIONS_PER_INTERVIEW
  /\ NoDup selected
  /\ (forall q, q ∈ selected -> q ∈ Questions.QUESTION_POOL)
  /\ forall k i, draw !! k = Some i -> selected !! k = Questions.QUESTION_POOL !! i.
Proof.
  intros Hvalid. cbv zeta.
  split; [apply get_random_questions_length, Hvalid |].
  unfold Questions.valid_draw in Hvalid.
  apply andb_true_iff in Hvalid as [Hvalid Hlt].
  apply andb_true_iff in Hvalid as [_ Hnd]. apply bool_decide_eq_true in Hnd.
  unfold Questions.get_random_questions. rewrite pool_length. cbn [Nat.ltb Nat.leb].
  unfold Questions.random_sample.
  split; [apply omap_lookup_NoDup; [apply pool_NoDup | exact Hnd] |].
  split.
  - intros q Hin. apply list_elem_of_omap in Hin as (i & _ & Hq).
    eapply list_elem_of_lookup_2, Hq.
  - clear Hnd. revert Hlt. generalize Questions.QUESTION_POOL as pool.
    intros pool. induction draw as [| j draw IH]; intros Hlt k i Hk; [discriminate Hk |].
    cbn [forallb] in Hlt. apply andb_true_iff in Hlt as [Hj Hlt].
    apply Nat.ltb_lt in Hj. destruct (lookup_lt_is_Some_2 pool j Hj) as [q Hq].
    cbn [omap list_omap]. rewrite Hq. destruct k as [| k].
    + cbn in Hk. injection Hk as <-. cbn. symmetry. exact Hq.
    + cbn in Hk |- *. apply IH; assumption.
Qed.

(** ** The steps of an interview in closed form *)

Lemma set_score_same c : set_score (score c) c = c.
Proof. destruct c; reflexivity. Qed.

Lemma update_where_set uid p set w c :
  candidates w !! uid = Some c -> p c = true ->
  (update_where uid p set w).1 = with_candidates (<[uid := set c]> (candidates w)) w.
Proof. intros Hc Hp. unfold update_where. rewrite Hc, Hp. reflexivity. Qed.

Section StepProofs.
Variable ADMIN_IDS : list Z.
Local Abbreviation is_admin := (Handlers.is_admin ADMIN_IDS).

Lemma final_score_min c : Steps.final_score c = Z.min (score c) 50.
Proof.
  unfold Steps.final_score. cbv zeta.
  change (Z.of_nat Questions.QUESTIONS_PER_INTERVIEW * 10) with 50.
  destruct (Z.ltb_spec 50 (score c)); lia.
Qed.

Lemma _complete_interview_unlocked uid now w c :
  candidates w !! uid = Some c ->
  has_completed_interview c = 0 ->
  _complete_interview ADMIN_IDS uid now w
  = reply uid (Steps.completion_reply (is_admin uid) c)
      (mk_world (<[uid := Steps.completed_row c now]> (candidates w)) (responses w)
         (outbox w) (Steps.completion_log uid c (error_log w))).
Proof.
  intros Hc Hunl.
  unfold _complete_interview. rewrite Hc, Hunl. cbn [Z.eqb andb].
  unfold Steps.completed_row, Steps.completion_log, Steps.completion_reply,
    Steps.final_feedback, Steps.final_decision.
  destruct (Z.of_nat Questions.QUESTIONS_PER_INTERVIEW * 10 <? score c) eqn:Hover.
  - assert (Hf : Steps.final_score c = Z.of_nat Questions.QUESTIONS_PER_INTERVIEW * 10)
      by (unfold Steps.final_score; cbv zeta; rewrite Hover; reflexivity).
    rewrite !Hf. set (w0 := log_error _ w).
    rewrite (update_where_set uid any_row _ w0 c Hc eq_refl).
    set (c1 := set_score _ c).
    set (w1 := with_candidates _ w0).
    assert (Hc1 : candidates w1 !! uid = Some c1) by apply lookup_insert_eq.
    rewrite (update_where_set uid (guard (is_admin uid)) _ w1 c1 Hc1
               (guard_unlocked ADMIN_IDS uid c1 Hunl)).
    subst w1. wsimpl. rewrite insert_insert_eq.
    destruct (is_admin uid); wsimpl; rewrite ?lookup_insert_eq; rsimpl;
      cbn [Z.eqb negb orb Pos.eqb]; reflexivity.
  - assert (Hf : Steps.final_score c = score c)
      by (unfold Steps.final_score; cbv zeta; rewrite Hover; reflexivity).
    rewrite !Hf.
    rewrite (update_where_set uid (guard (is_admin uid)) _ w c Hc
               (guard_unlocked ADMIN_IDS uid c Hunl)).
    rewrite set_score_same.
    destruct (is_admin uid); wsimpl; rewrite ?lookup_insert_eq; rsimpl;
      cbn [Z.eqb negb orb Pos.eqb]; reflexivity.
Qed.

(** X9. On a row that is not locked, [_complete_interview] caps the score
    to [10 * Q], decides on the capped score and the AI score, stores
    decision and feedback, sets both completion flags and sends the
    feedback once; it logs an error exactly when it caps, and the check of
    the lock that follows never fails. *)
Theorem _complete_interview_effect uid now w c :
  candidates w !! uid = Some c ->
  has_completed_interview c = 0 ->
  let w' := _complete_interview ADMIN_IDS uid now w in
  let c' := Steps.completed_row c now in
  candidates w' = <[uid := c']> (candidates w)
  /\ responses w' = responses w
  /\ error_log w' = Steps.completion_log uid c (error_log w)
  /\ outbox w' = (outbox w ++ [(uid, Steps.completion_reply (is_admin uid) c)])%list
  /\ has_completed_interview c' = 1
  /\ completed c' = 1
  /\ score c' = Z.min (score c) 50
  /\ ai_score c' = ai_score c
  /\ decision c' = Some (Scoring.determine_decision (Z.min (score c) 50) (ai_score c))
  /\ feedback c'
     = Some (Utils.generate_feedback (score c') (ai_score c')
               (Scoring.determine_decision (score c') (ai_score c'))).
Proof.
  intros Hc Hunl. cbv zeta.
  rewrite (_complete_interview_unlocked uid now w c Hc Hunl).
  unfold Steps.completed_row, Steps.final_feedback, Steps.final_decision.
  rewrite final_score_min. rsimpl. wsimpl. repeat split.
Qed.


Lemma _handle_answer_fresh uid text last_time clock w c questions :
  candidates w !! uid = Some c ->
  has_completed_interview c = 0 ->
  selected_questions c = Some questions ->
  questions <> [] ->
  responses_for uid (question_index c - 1) w = [] ->
  score c <= 50 ->
  _handle_answer ADMIN_IDS text (question_index c) uid last_time clock w
  = let w1 := Steps.answered uid c questions text last_time clock w in
    if question_index c <? Z.of_nat (length questions)
    then reply uid (nth (Z.to_nat (question_index c)) questions EmptyString) w1
    else _complete_interview ADMIN_IDS uid (clock 3%nat) w1.
Proof.
  intros Hc Hunl Hqs Hne Hfresh Hscore. cbv zeta.
  unfold _handle_answer, get_user_questions. rewrite Hc, Hqs.
  destruct questions as [| q qs]; [congruence |].
  cbn [truthy negb]. change (default [] (Some (q :: qs))) with (q :: qs).
  rewrite Hfresh, Hunl. cbn [Z.eqb andb].
  unfold Steps.answered, Steps.scored_row, Steps.answer_row, Steps.previous_question_text.
  cbv zeta.
  destruct (Scoring.analyze_response text (PrimFloat.sub (clock 0%nat) last_time))
    as [s a]. cbn [fst snd].
  change (Z.of_nat Questions.QUESTIONS_PER_INTERVIEW * 10) with 50.
  replace (50 <? score c) with false by (symmetry; apply Z.ltb_ge; lia).
  set (r := mk_response _ _ _ _ _ _).
  assert (Hc1 : candidates (insert_response r w) !! uid = Some c) by exact Hc.
  rewrite (update_where_count _ _ _ _ _ Hc1).
  rewrite (update_where_set uid _ _ _ c Hc1 (guard_unlocked ADMIN_IDS uid c Hunl)).
  rewrite (guard_unlocked ADMIN_IDS uid c Hunl). cbn [Nat.eqb]. reflexivity.
Qed.



End StepProofs.

(** ** The sessions between two deliveries *)

(** A world written out as its four components. *)
Ltac wunfold :=
  unfold reply, log_error, with_candidates, with_responses, insert_response,
    insert_candidate, delete_responses;
  wsimpl.

Lemma analyze_response_ai_range text response_time :
  0 <= (Scoring.analyze_response text response_time).2 <= 10.
Proof.
  unfold Scoring.analyze_response. cbn [snd].
  pose proof (_detect_ai_indicators_range text (lower text)
                (length (split text)) response_time).
  lia.
Qed.

Lemma seqZ_snoc n : 0 <= n -> seqZ 0 (n + 1) = (seqZ 0 n ++ [n])%list.
Proof. intros Hn. rewrite seqZ_app by lia. reflexivity. Qed.

Lemma responses_of_delete uid w : responses_of uid (delete_responses uid w) = [].
Proof.
  unfold responses_of. wsimpl. apply elem_of_nil_inv. intros r Hin.
  apply list_elem_of_filter in Hin as [Hu Hin].
  apply list_elem_of_filter in Hin as [Hne _]. contradiction.
Qed.

Lemma responses_of_insert uid r w :
  user_id r = uid ->
  responses_of uid (insert_response r w) = (responses_of uid w ++ [r])%list.
Proof.
  intros Hu. unfold responses_of. wsimpl. rewrite filter_app, filter_cons.
  destruct (decide (user_id r = uid)); [reflexivity | contradiction].
Qed.

(** No response is stored for a number outside the transcript. *)
Lemma responses_for_fresh uid k n w :
  question_number <$> responses_of uid w = seqZ 0 n ->
  ~ (0 <= k < n) ->
  responses_for uid k w = [].
Proof.
  intros Hnum Hk. unfold responses_for. apply elem_of_nil_inv. intros r Hin.
  apply list_elem_of_filter in Hin as [[Hu Hq] Hin]. apply Hk.
  assert (Hmem : question_number r ∈ question_number <$> responses_of uid w).
  { apply list_elem_of_fmap. exists r. split; [reflexivity |].
    unfold responses_of. apply list_elem_of_filter. split; assumption. }
  rewrite Hnum in Hmem. apply elem_of_seqZ in Hmem. lia.
Qed.

Lemma user_ok_same uid w w' :
  same_for uid w w' -> Sessions.user_ok uid w -> Sessions.user_ok uid w'.
Proof. intros [Hc Hr]. unfold Sessions.user_ok. rewrite Hc, Hr. trivial. Qed.

Lemma progress_ok_completed c now rs :
  Sessions.progress_ok c rs -> Sessions.progress_ok (Steps.completed_row c now) rs.
Proof. intros H. exact H. Qed.

Lemma progress_ok_unlock c rs :
  Sessions.progress_ok c rs -> Sessions.progress_ok (unlock c) rs.
Proof. intros H. exact H. Qed.

Lemma flags_ok_completed c now :
  5 <= question_index c -> 6 <= question_index c ->
  Sessions.flags_ok (Steps.completed_row c now).
Proof.
  intros _ Hidx. unfold Sessions.flags_ok, Steps.completed_row, Steps.final_feedback,
    Steps.final_decision. rsimpl.
  split; [reflexivity |]. split; [right; reflexivity |].
  split; [intros H; discriminate H |]. intros _. split; [exact Hidx |].
  split; reflexivity.
Qed.

(** The row and the transcript after the two writes of an answer. *)
Lemma progress_ok_scored uid c questions text last_time clock rs :
  Sessions.progress_ok c rs ->
  1 <= question_index c ->
  selected_questions c = Some questions ->
  Sessions.progress_ok (Steps.scored_row c text last_time clock)
    (rs ++ [Steps.answer_row uid c questions text last_time clock]).
Proof.
  intros (Hlow & Hzero & Hnew & Hname & Hai & Hnum & Htext) Hidx Hqs.
  pose proof (analyze_response_ai_range text (PrimFloat.sub (clock 0%nat) last_time))
    as Hrange.
  unfold Sessions.progress_ok, Steps.scored_row, Steps.answer_row. cbv zeta.
  destruct (Scoring.analyze_response text (PrimFloat.sub (clock 0%nat) last_time))
    as [s a]. cbn [fst snd] in *. rsimpl.
  split; [lia |]. split; [intros H; lia |]. split; [lia |].
  split; [intros _; apply Hname; lia |]. split; [lia |]. split.
  - rewrite fmap_app, Hnum. cbn [fmap list_fmap question_number].
    replace (Z.max 0 (question_index c - 1)) with (question_index c - 1) by lia.
    replace (Z.max 0 (question_index c + 1 - 1)) with (question_index c - 1 + 1) by lia.
    rewrite seqZ_snoc by lia. reflexivity.
  - intros r qs Hin Hqs'. apply elem_of_app in Hin as [Hin | Hin];
      [exact (Htext r qs Hin Hqs') |].
    apply list_elem_of_singleton in Hin. subst r. cbn [question_text question_number].
    congruence.
Qed.

Section SessionProofs.
Variable ADMIN_IDS : list Z.
Local Abbreviation is_admin := (Handlers.is_admin ADMIN_IDS).
Local Abbreviation inv := (Invariant.inv ADMIN_IDS).
Local Abbreviation step_ok := (Sessions.step_ok ADMIN_IDS).

(** A handling that only replies. *)
Lemma step_ok_reply uid text w :
  Sessions.user_ok uid w -> step_ok uid w (reply uid text w).
Proof.
  intros Hok. split; [exact Hok |]. split.
  - exists []. split; [symmetry; apply app_nil_r | constructor].
  - exists [(uid, text)]. split; [reflexivity |].
    split; [cbn; lia | repeat constructor].
Qed.

(** ** [start_handler] in closed form *)

Lemma start_handler_cases uid uname clock w :
  (exists text, start_handler ADMIN_IDS uid uname clock w = reply uid text w
                /\ exists c, candidates w !! uid = Some c
                   /\ is_admin uid = false
                   /\ (has_completed_interview c = 1
                       \/ has_completed_interview c = 0 /\ 0 <= question_index c))
  \/ (exists notes row greeting,
        start_handler ADMIN_IDS uid uname clock w
        = mk_world (<[uid := row]> (candidates w))
            (filter (fun r => user_id r <> uid) (responses w))
            (outbox w ++ notes ++ [(uid, greeting)]) (error_log w)
        /\ (length notes <= 1)%nat
        /\ Forall (fun m => m.1 = uid) notes
        /\ match candidates w !! uid with
           | Some c => row = reset_row uname (clock 0%nat) c
           | None => row = fresh_row uname (clock 1%nat)
           end).
Proof.
  unfold start_handler. cbv zeta.
  destruct (candidates w !! uid) as [c |] eqn:Hc.
  2:{ right. repeat (progress (cbn [andb negb is_locked]; wsimpl; rewrite ?Hc)).
      rewrite (update_where_none uid _ _ (delete_responses uid w)) by exact Hc.
      cbn [fst snd Nat.eqb].
      exists [], (fresh_row uname (clock 1%nat)),
        (if is_admin uid then Msg.hello_admin else Msg.hello).
      split; [| split; [cbn; lia | split; [constructor | reflexivity]]].
      reflexivity. }
  assert (Hreset : forall w1 greeting,
    candidates w1 = candidates w -> responses w1 = responses w ->
    error_log w1 = error_log w ->
    (let w2 := delete_responses uid w1 in
     let r := update_where uid any_row (reset_row uname (clock 0%nat)) w2 in
     reply uid greeting
       (if (r.2 =? 0)%nat
        then insert_candidate uid (fresh_row uname (clock 1%nat)) r.1 else r.1))
    = mk_world (<[uid := reset_row uname (clock 0%nat) c]> (candidates w))
        (filter (fun r => user_id r <> uid) (responses w))
        (outbox w1 ++ [(uid, greeting)]) (error_log w)).
  { intros w1 greeting Hcs Hrs Hlog. cbv zeta. set (w2 := delete_responses uid w1).
    assert (Hc2 : candidates w2 !! uid = Some c) by (subst w2; wsimpl; rewrite Hcs; exact Hc).
    rewrite (update_where_count _ _ _ _ _ Hc2).
    rewrite (update_where_set uid any_row _ w2 c Hc2 eq_refl).
    cbn [any_row Nat.eqb]. subst w2. wunfold. rewrite Hcs, Hrs, Hlog. reflexivity. }
  cbv zeta in Hreset.
  destruct (has_completed_interview c =? 1) eqn:Hlock;
    destruct (is_admin uid) eqn:Hadm;
    repeat (progress (cbn [andb negb is_locked]; wsimpl; rewrite ?Hc, ?Hlock)).
  - right. apply Z.eqb_eq in Hlock.
    replace (has_completed_interview c =? 0) with false by (rewrite Hlock; reflexivity).
    repeat (progress (cbn [andb negb is_locked]; wsimpl; rewrite ?Hc, ?Hlock)).
    exists [(uid, Msg.admin_restart_completed)], (reset_row uname (clock 0%nat) c),
      Msg.hello_admin.
    split; [| split; [cbn; lia | split; [repeat constructor | reflexivity]]].
    rewrite (Hreset (reply uid Msg.admin_restart_completed w)) by reflexivity.
    wsimpl. rewrite <- app_assoc. reflexivity.
  - left. apply Z.eqb_eq in Hlock.
    destruct (decide (decision c = Some Scoring.APPROVED)).
    + eexists. split; [reflexivity |]. exists c. auto.
    + destruct (feedback c) as [f |].
      * destruct (decide (f = EmptyString)); eexists; (split; [reflexivity |]);
          exists c; auto.
      * eexists. split; [reflexivity |]. exists c. auto.
  - right. destruct (has_completed_interview c =? 0) eqn:Hunl;
      repeat (progress (cbn [andb negb is_locked]; wsimpl; rewrite ?Hc, ?Hlock)).
    + exists [(uid, Msg.admin_restart_in_progress)], (reset_row uname (clock 0%nat) c),
        Msg.hello_admin.
      split; [| split; [cbn; lia | split; [repeat constructor | reflexivity]]].
      rewrite (Hreset (reply uid Msg.admin_restart_in_progress w)) by reflexivity.
      wsimpl. rewrite <- app_assoc. reflexivity.
    + exists [], (reset_row uname (clock 0%nat) c), Msg.hello_admin.
      split; [| split; [cbn; lia | split; [constructor | reflexivity]]].
      rewrite (Hreset w) by reflexivity. reflexivity.
  - destruct (has_completed_interview c =? 0) eqn:Hunl;
      repeat (progress (cbn [andb negb is_locked]; wsimpl; rewrite ?Hc, ?Hlock)).
    + apply Z.eqb_eq in Hunl. unfold get_user_questions; rewrite ?Hc.
      rewrite (Hreset w Msg.hello) by reflexivity.
      assert (Hfall :
        exists notes row greeting,
          mk_world (<[uid := reset_row uname (clock 0%nat) c]> (candidates w))
            (filter (fun r => user_id r <> uid) (responses w))
            (outbox w ++ [(uid, Msg.hello)]) (error_log w)
          = mk_world (<[uid := row]> (candidates w))
              (filter (fun r => user_id r <> uid) (responses w))
              (outbox w ++ notes ++ [(uid, greeting)]) (error_log w)
          /\ (length notes <= 1)%nat
          /\ Forall (fun m => m.1 = uid) notes
          /\ row = reset_row uname (clock 0%nat) c).
      { exists [], (reset_row uname (clock 0%nat) c), Msg.hello.
        split; [reflexivity | split; [cbn; lia | split; [constructor | reflexivity]]]. }
      destruct (selected_questions c) as [[| q qs] |];
        [right; exact Hfall | | right; exact Hfall].
      destruct ((0 <=? question_index c)
                && (question_index c <=? Z.of_nat (length (q :: qs)))) eqn:Hrange;
        [| right; exact Hfall].
      left. eexists. split; [reflexivity |]. exists c.
      apply andb_true_iff in Hrange as [Hlow _]. apply Z.leb_le in Hlow. auto.
    + right. exists [], (reset_row uname (clock 0%nat) c), Msg.hello.
      split; [| split; [cbn; lia | split; [constructor | reflexivity]]].
      rewrite (Hreset w) by reflexivity. reflexivity.
Qed.

(** ** [handle_message] in closed form on the states of a session *)

Lemma handle_message_name_rejected uid text clock draw w c :
  candidates w !! uid = Some c ->
  has_completed_interview c = 0 ->
  question_index c = -1 ->
  (String.length (strip text) <? 2)%nat
  || (20 <? String.length (strip text))%nat
  || (contains "." (strip text) || contains nl (strip text)) = true ->
  exists notice, handle_message ADMIN_IDS uid text clock draw w = reply uid notice w.
Proof.
  intros Hc Hunl Hidx Hbad. unfold handle_message. rewrite Hc, Hunl, Hidx.
  cbn [Z.eqb andb]. unfold _handle_name_input. cbv zeta.
  destruct (String.length (strip text) <? 2)%nat; [eexists; reflexivity |].
  destruct (20 <? String.length (strip text))%nat; [eexists; reflexivity |].
  cbn [orb] in Hbad. rewrite Hbad. eexists; reflexivity.
Qed.

Lemma handle_message_name_accepted uid text clock draw w c :
  candidates w !! uid = Some c ->
  has_completed_interview c = 0 ->
  question_index c = -1 ->
  (String.length (strip text) <? 2)%nat
  || (20 <? String.length (strip text))%nat
  || (contains "." (strip text) || contains nl (strip text)) = false ->
  Questions.valid_draw draw = true ->
  exists first_question,
    head (Questions.get_random_questions draw) = Some first_question
    /\ handle_message ADMIN_IDS uid text clock draw w
       = mk_world
           (<[uid := move_to_first (clock 1%nat)
                       (store_name (strip text) (clock 0%nat)
                          (Questions.get_random_questions draw) c)]> (candidates w))
           (responses w)
           (outbox w ++ [(uid, Msg.welcome_message (strip text)); (uid, first_question)])
           (error_log w).
Proof.
  intros Hc Hunl Hidx Hgood Hdraw.
  apply orb_false_iff in Hgood as [Hgood Hchars].
  apply orb_false_iff in Hgood as [Hshort Hlong].
  pose proof (get_random_questions_length draw Hdraw) as Hlen.
  unfold handle_message. rewrite Hc, Hunl, Hidx.
  cbn [Z.eqb andb]. unfold _handle_name_input. cbv zeta.
  rewrite Hshort, Hlong, Hchars, Hc. cbn [is_locked]. rewrite Hunl.
  cbn [Z.eqb andb].
  destruct (Questions.get_random_questions draw) as [| q qs] eqn:Hsel;
    [discriminate Hlen |].
  exists q. split; [reflexivity |].
  rewrite (update_where_count _ _ _ _ _ Hc).
  rewrite (update_where_set uid _ _ w c Hc (guard_unlocked ADMIN_IDS uid c Hunl)).
  rewrite (guard_unlocked ADMIN_IDS uid c Hunl). cbn [Nat.eqb].
  set (c1 := store_name _ _ _ c).
  set (w1 := reply uid q _).
  assert (Hc1 : candidates w1 !! uid = Some c1) by apply lookup_insert_eq.
  rewrite (update_where_set uid _ _ w1 c1 Hc1 (guard_unlocked ADMIN_IDS uid c1 eq_refl)).
  subst w1. wunfold. rewrite insert_insert_eq, <- app_assoc. reflexivity.
Qed.

Lemma handle_message_answer uid text clock draw w c questions :
  candidates w !! uid = Some c ->
  has_completed_interview c = 0 ->
  selected_questions c = Some questions ->
  1 <= question_index c < Z.of_nat (length questions) ->
  responses_for uid (question_index c - 1) w = [] ->
  score c <= 50 ->
  handle_message ADMIN_IDS uid text clock draw w
  = reply uid (nth (Z.to_nat (question_index c)) questions EmptyString)
      (Steps.answered uid c questions text (last_time c) clock w).
Proof.
  intros Hc Hunl Hqs Hidx Hfresh Hscore.
  assert (Hne : questions <> []) by (intros ->; cbn in Hidx; lia).
  unfold handle_message. rewrite Hc, Hunl. cbn [Z.eqb andb].
  replace (question_index c =? -1) with false by (symmetry; apply Z.eqb_neq; lia).
  replace (question_index c =? 0) with false by (symmetry; apply Z.eqb_neq; lia).
  replace (1 <=? question_index c) with true by (symmetry; apply Z.leb_le; lia).
  rewrite (_handle_answer_fresh ADMIN_IDS uid text (last_time c) clock w c questions)
    by assumption.
  cbv zeta.
  replace (question_index c <? Z.of_nat (length questions)) with true
    by (symmetry; apply Z.ltb_lt; lia).
  reflexivity.
Qed.

(** The last answer, and every answer of an administrator after it: the
    row is unlocked when it was locked, the answer is stored and scored,
    and the interview is completed. *)
Lemma handle_message_final uid text clock draw w c questions :
  candidates w !! uid = Some c ->
  has_completed_interview c = 0
  \/ has_completed_interview c = 1 /\ is_admin uid = true ->
  selected_questions c = Some questions ->
  questions <> [] ->
  Z.of_nat (length questions) <= question_index c ->
  responses_for uid (question_index c - 1) w = [] ->
  score c <= 50 ->
  let c1 := if has_completed_interview c =? 1 then unlock c else c in
  let scored := Steps.scored_row c1 text (last_time c) clock in
  handle_message ADMIN_IDS uid text clock draw w
  = mk_world (<[uid := Steps.completed_row scored (clock 3%nat)]> (candidates w))
      (responses w ++ [Steps.answer_row uid c1 questions text (last_time c) clock])
      (outbox w ++ [(uid, Steps.completion_reply (is_admin uid) scored)])
      (Steps.completion_log uid scored (error_log w)).
Proof.
  intros Hc Hlock Hqs Hne Hidx Hfresh Hscore. cbv zeta.
  assert (Hpos : 1 <= question_index c).
  { destruct questions; [congruence | cbn [length] in Hidx; lia]. }
  unfold handle_message. rewrite Hc.
  replace (question_index c =? -1) with false by (symmetry; apply Z.eqb_neq; lia).
  replace (question_index c =? 0) with false by (symmetry; apply Z.eqb_neq; lia).
  replace (1 <=? question_index c) with true by (symmetry; apply Z.leb_le; lia).
  set (c1 := if has_completed_interview c =? 1 then unlock c else c).
  set (w1 := with_candidates (<[uid := c1]> (candidates w)) w).
  assert (Hfinal :
    _handle_answer ADMIN_IDS text (question_index c) uid (last_time c) clock w1
    = mk_world
        (<[uid := Steps.completed_row (Steps.scored_row c1 text (last_time c) clock)
                    (clock 3%nat)]> (candidates w))
        (responses w ++ [Steps.answer_row uid c1 questions text (last_time c) clock])
        (outbox w
         ++ [(uid, Steps.completion_reply (is_admin uid)
                     (Steps.scored_row c1 text (last_time c) clock))])
        (Steps.completion_log uid (Steps.scored_row c1 text (last_time c) clock)
           (error_log w))).
  { assert (Hc1 : candidates w1 !! uid = Some c1) by apply lookup_insert_eq.
    assert (Hidx1 : question_index c1 = question_index c)
      by (subst c1; destruct (_ =? 1); reflexivity).
    assert (Hunl1 : has_completed_interview c1 = 0).
    { subst c1. destruct Hlock as [H | [H _]]; rewrite H; [exact H | reflexivity]. }
    assert (Hqs1 : selected_questions c1 = Some questions)
      by (subst c1; destruct (_ =? 1); exact Hqs).
    assert (Hscore1 : score c1 <= 50) by (subst c1; destruct (_ =? 1); exact Hscore).
    rewrite <- Hidx1.
    rewrite (_handle_answer_fresh ADMIN_IDS uid text (last_time c) clock w1 c1 questions
               Hc1 Hunl1 Hqs1 Hne);
      [| rewrite Hidx1; exact Hfresh | exact Hscore1].
    cbv zeta.
    replace (question_index c1 <? Z.of_nat (length questions)) with false
      by (symmetry; apply Z.ltb_ge; lia).
    set (w2 := Steps.answered uid c1 questions text (last_time c) clock w1).
    assert (Hc2 : candidates w2 !! uid
                  = Some (Steps.scored_row c1 text (last_time c) clock))
      by apply lookup_insert_eq.
    rewrite (_complete_interview_unlocked ADMIN_IDS uid (clock 3%nat) w2 _ Hc2 Hunl1).
    subst w2 w1. unfold Steps.answered. wunfold.
    rewrite !insert_insert_eq. reflexivity. }
  destruct Hlock as [Hunl | [Hlocked Hadm]].
  - rewrite Hunl. cbn [Z.eqb andb].
    assert (Hw1 : w1 = w).
    { subst w1 c1. rewrite Hunl. cbn [Z.eqb]. unfold with_candidates.
      rewrite insert_id by exact Hc. destruct w; reflexivity. }
    rewrite Hw1 in Hfinal. exact Hfinal.
  - subst w1 c1. rewrite ?Hlocked in Hfinal |- *.
    cbn [Z.eqb andb negb Pos.eqb] in Hfinal |- *.
    rewrite ?Hadm in Hfinal |- *. cbn [andb negb].
    rewrite (update_where_set uid any_row unlock w c Hc eq_refl).
    exact Hfinal.
Qed.

(** ** One delivery keeps the session of its sender in order *)

Lemma responses_of_snoc uid m rs r out log :
  user_id r = uid ->
  responses_of uid (mk_world m (rs ++ [r]) out log)
  = (filter (fun r => user_id r = uid) rs ++ [r])%list.
Proof.
  intros Hu. unfold responses_of. wsimpl. rewrite filter_app, filter_cons.
  destruct (decide (user_id r = uid)); [reflexivity | contradiction].
Qed.

Lemma admin_cap_completion_log uid c log :
  (is_admin uid = false -> score c <= 50) ->
  exists l, Steps.completion_log uid c log = (log ++ l)%list
            /\ Forall (Sessions.admin_cap ADMIN_IDS) l.
Proof.
  intros Hcap. unfold Steps.completion_log.
  change (Z.of_nat Questions.QUESTIONS_PER_INTERVIEW * 10) with 50.
  destruct (Z.ltb_spec 50 (score c)) as [Hover | _].
  - exists [FinalScoreExceedsMaximum uid (score c)]. split; [reflexivity |].
    repeat constructor. cbn [Sessions.admin_cap].
    destruct (is_admin uid); [reflexivity | specialize (Hcap eq_refl); lia].
  - exists []. split; [symmetry; apply app_nil_r | constructor].
Qed.

Lemma final_step_ok uid text clock draw w c :
  candidates w !! uid = Some c ->
  Invariant.row_ok ADMIN_IDS uid c ->
  Sessions.session_ok c (responses_of uid w) ->
  has_completed_interview c = 0 /\ question_index c = 5
  \/ has_completed_interview c = 1 /\ is_admin uid = true ->
  step_ok uid w (handle_message ADMIN_IDS uid text clock draw w).
Proof.
  intros Hc (Hs & Hb & Hqlen & _ & Hcur) [Hflags Hprog] Hcase.
  pose proof Hprog as (Hlow & Hzero & Hnew & Hname & Hai & Hnum & Htext).
  destruct Hflags as (Hcomp & Hflag & Hunlk & Hlk).
  assert (Hidx : 5 <= question_index c).
  { destruct Hcase as [[_ H] | [H _]]; [lia | destruct (Hlk H); lia]. }
  destruct Hname as (n & qs & Hn & Hnlen & Hdot & Hnl & Hqs & Hlen); [lia |].
  assert (Hne : qs <> []) by (intros ->; discriminate Hlen).
  rewrite (handle_message_final uid text clock draw w c qs Hc);
    [| destruct Hcase as [[H _] | H]; [left; exact H | right; exact H]
     | exact Hqs | exact Hne | rewrite Hlen; change (Z.of_nat Questions.QUESTIONS_PER_INTERVIEW) with 5; lia
     | apply (responses_for_fresh uid _ _ w Hnum); lia | lia].
  set (c1 := if has_completed_interview c =? 1 then unlock c else c).
  assert (Hprog1 : Sessions.progress_ok c1 (responses_of uid w))
    by (subst c1; destruct (_ =? 1); exact Hprog).
  assert (Hidx1 : question_index c1 = question_index c)
    by (subst c1; destruct (_ =? 1); reflexivity).
  assert (Hqs1 : selected_questions c1 = Some qs)
    by (subst c1; destruct (_ =? 1); exact Hqs).
  assert (Hscore1 : score c1 = score c) by (subst c1; destruct (_ =? 1); reflexivity).
  set (scored := Steps.scored_row c1 text (last_time c) clock).
  assert (Hscored : question_index scored = question_index c + 1
                    /\ score scored
                       = score c + (Scoring.analyze_response text
                                      (PrimFloat.sub (clock 0%nat) (last_time c))).1).
  { subst scored. unfold Steps.scored_row. cbv zeta. rsimpl. rewrite Hidx1, Hscore1.
    split; reflexivity. }
  destruct Hscored as [Hsidx Hsscore].
  split; [| split].
  - unfold Sessions.user_ok. wsimpl. rewrite lookup_insert_eq.
    rewrite responses_of_snoc by reflexivity. split.
    + apply flags_ok_completed; lia.
    + apply progress_ok_completed.
      apply (progress_ok_scored uid c1 qs text (last_time c) clock); [exact Hprog1 | lia | exact Hqs1].
  - wsimpl. apply admin_cap_completion_log. intros Hadm. rewrite Hsscore.
    pose proof (analyze_response_score_range text
                  (PrimFloat.sub (clock 0%nat) (last_time c))) as Hrange.
    destruct Hcase as [[Hunl H5] | [_ Hadm']]; [| congruence].
    rewrite H5 in Hb. lia.
  - wsimpl. eexists. split; [reflexivity |]. split; [cbn; lia | repeat constructor].
Qed.

Lemma handle_message_step uid text clock draw w :
  inv w -> Sessions.user_ok uid w -> Questions.valid_draw draw = true ->
  step_ok uid w (handle_message ADMIN_IDS uid text clock draw w).
Proof.
  intros (Hrows & _) Hok Hdraw. pose proof Hok as Hok'.
  unfold Sessions.user_ok in Hok'.
  destruct (candidates w !! uid) as [c |] eqn:Hc.
  2:{ unfold handle_message. rewrite Hc. apply step_ok_reply, Hok. }
  pose proof (Hrows uid c Hc) as Hrow.
  pose proof Hrow as (Hs & Hb & Hqlen & _ & Hcur).
  pose proof Hok' as [(Hcomp & Hflag & Hunlk & Hlk) Hprog].
  pose proof Hprog as (Hlow & Hzero & Hnew & Hname & Hai & Hnum & Htext).
  destruct Hflag as [Hunl | Hlocked].
  2:{ destruct (is_admin uid) eqn:Hadm.
      - apply (final_step_ok uid text clock draw w c Hc Hrow Hok'). right. auto.
      - unfold handle_message. rewrite Hc, Hlocked, Hadm. cbn [Z.eqb Pos.eqb andb negb].
        apply step_ok_reply, Hok. }
  destruct (Hunlk Hunl) as (Hmax & Hdec & Hfb).
  assert (Hcases : question_index c = -1 \/ 1 <= question_index c < 5
                   \/ question_index c = 5) by lia.
  destruct Hcases as [Hidx | [Hidx | Hidx]].
  - destruct ((String.length (strip text) <? 2)%nat
              || (20 <? String.length (strip text))%nat
              || (contains "." (strip text) || contains nl (strip text))) eqn:Hvalid.
    + destruct (handle_message_name_rejected uid text clock draw w c Hc Hunl Hidx Hvalid)
        as [notice ->].
      apply step_ok_reply, Hok.
    + destruct (handle_message_name_accepted uid text clock draw w c Hc Hunl Hidx Hvalid
                  Hdraw) as (q & Hq & ->).
      apply orb_false_iff in Hvalid as [Hvalid Hchars].
      apply orb_false_iff in Hvalid as [Hshort Hlong].
      apply orb_false_iff in Hchars as [Hdot Hnl].
      apply Nat.ltb_ge in Hshort, Hlong.
      rewrite Hidx in Hnum. change (seqZ 0 (Z.max 0 (-1 - 1))) with (@nil Z) in Hnum.
      apply fmap_nil_inv in Hnum.
      split; [| split].
      * unfold Sessions.user_ok. wsimpl. rewrite lookup_insert_eq.
        change (responses_of uid (mk_world ?m (responses w) ?o ?l))
          with (responses_of uid w).
        unfold responses_of at 1. wsimpl. fold (responses_of uid w). rewrite Hnum.
        split.
        -- unfold Sessions.flags_ok. rsimpl.
           split; [reflexivity |]. split; [left; reflexivity |].
           split; [intros _; split; [lia | split; reflexivity] | intros H; discriminate H].
        -- unfold Sessions.progress_ok. rsimpl.
           split; [lia |]. split; [lia |]. split; [intros H; discriminate H |].
           split.
           { intros _. exists (strip text), (Questions.get_random_questions draw).
             split; [reflexivity |]. split; [lia |]. split; [exact Hdot |].
             split; [exact Hnl |]. split; [reflexivity |].
             apply get_random_questions_length, Hdraw. }
           split; [cbn; lia |]. split; [reflexivity |].
           intros r qs Hin. inversion Hin.
      * wsimpl. exists []. split; [symmetry; apply app_nil_r | constructor].
      * wsimpl. eexists. split; [reflexivity |]. split; [cbn; lia | repeat constructor].
  - destruct Hname as (n & qs & Hn & Hnlen & Hdot & Hnl & Hqs & Hlen); [lia |].
    rewrite (handle_message_answer uid text clock draw w c qs Hc Hunl Hqs);
      [| rewrite Hlen; change (Z.of_nat Questions.QUESTIONS_PER_INTERVIEW) with 5; lia
       | apply (responses_for_fresh uid _ _ w Hnum); lia | lia].
    split; [| split].
    + unfold Sessions.user_ok, Steps.answered. wsimpl. rewrite lookup_insert_eq.
      change (responses_of uid (reply ?k ?t ?w0)) with (responses_of uid w0).
      change (responses_of uid (with_candidates ?m ?w0)) with (responses_of uid w0).
      rewrite responses_of_insert by reflexivity.
      split.
      * unfold Sessions.flags_ok, Steps.scored_row. cbv zeta. rsimpl.
        split; [exact Hcomp |]. split; [left; exact Hunl |].
        split; [intros _; split; [lia | split; assumption] | intros H; congruence].
      * apply progress_ok_scored; [exact Hprog | lia | exact Hqs].
    + unfold Steps.answered. wsimpl. exists [].
      split; [symmetry; apply app_nil_r | constructor].
    + unfold Steps.answered. wsimpl. eexists. split; [reflexivity |].
      split; [cbn; lia | repeat constructor].
  - apply (final_step_ok uid text clock draw w c Hc Hrow Hok'). left. auto.
Qed.

Lemma responses_of_deleted uid m rs out log :
  responses_of uid (mk_world m (filter (fun r => user_id r <> uid) rs) out log) = [].
Proof.
  unfold responses_of. wsimpl. apply elem_of_nil_inv. intros r Hin.
  apply list_elem_of_filter in Hin as [Hu Hin].
  apply list_elem_of_filter in Hin as [Hne _]. contradiction.
Qed.

Lemma session_ok_restarted row :
  question_index row = -1 -> name row = None -> ai_score row = 0 ->
  completed row = 0 -> has_completed_interview row = 0 ->
  decision row = None -> feedback row = None ->
  Sessions.session_ok row [].
Proof.
  intros Hidx Hname Hai Hcomp Hunl Hdec Hfb. split.
  - unfold Sessions.flags_ok. rewrite Hcomp, Hunl, Hidx, Hdec, Hfb.
    split; [reflexivity |]. split; [left; reflexivity |].
    split; [intros _; split; [lia | split; reflexivity] | intros H; discriminate H].
  - unfold Sessions.progress_ok. rewrite Hidx, Hai.
    split; [lia |]. split; [lia |]. split; [intros _; exact Hname |].
    split; [intros H; lia |]. split; [cbn; lia |]. split; [reflexivity |].
    intros r qs Hin. inversion Hin.
Qed.

Lemma start_handler_step uid uname clock w :
  Sessions.user_ok uid w -> step_ok uid w (start_handler ADMIN_IDS uid uname clock w).
Proof.
  intros Hok.
  destruct (start_handler_cases uid uname clock w)
    as [(text & -> & _) | (notes & row & greeting & -> & Hlen & Hto & Hrow)].
  - apply step_ok_reply, Hok.
  - split; [| split].
    + unfold Sessions.user_ok. wsimpl. rewrite lookup_insert_eq, responses_of_deleted.
      destruct (candidates w !! uid) as [c |]; subst row;
        apply session_ok_restarted; reflexivity.
    + wsimpl. exists []. split; [symmetry; apply app_nil_r | constructor].
    + wsimpl. eexists. split; [reflexivity |]. split.
      * rewrite length_app. cbn [length]. lia.
      * apply Forall_app. split; [exact Hto | repeat constructor].
Qed.

Lemma dispatch_step w u :
  valid_update u = true -> inv w -> Sessions.user_ok (sender u) w ->
  step_ok (sender u) w (dispatch ADMIN_IDS w u).
Proof.
  destruct u as [uid uname clock | uid text clock draw];
    cbn [valid_update dispatch sender]; intros Hvalid Hinv Hok.
  - apply start_handler_step, Hok.
  - apply handle_message_step; assumption.
Qed.

Lemma dispatch_sessions w u :
  valid_update u = true -> inv w -> (forall uid, Sessions.user_ok uid w) ->
  forall uid, Sessions.user_ok uid (dispatch ADMIN_IDS w u).
Proof.
  intros Hvalid Hinv Hok uid. destruct (decide (sender u = uid)) as [<- | Hne].
  - apply (dispatch_step w u Hvalid Hinv (Hok _)).
  - apply (user_ok_same uid w); [apply dispatch_frame, Hne | apply Hok].
Qed.

Lemma user_ok_empty uid : Sessions.user_ok uid empty_world.
Proof.
  unfold Sessions.user_ok. change (candidates empty_world) with (∅ : gmap Z candidate).
  rewrite lookup_empty. reflexivity.
Qed.

Lemma run_sessions us w :
  forallb valid_update us = true -> inv w ->
  (forall uid, Sessions.user_ok uid w) ->
  Forall (Sessions.admin_cap ADMIN_IDS) (error_log w) ->
  (forall uid, Sessions.user_ok uid (run ADMIN_IDS us w))
  /\ Forall (Sessions.admin_cap ADMIN_IDS) (error_log (run ADMIN_IDS us w)).
Proof.
  revert w. induction us as [| u us IH]; intros w Hvalid Hinv Hok Hlog; [split; assumption |].
  cbn [forallb] in Hvalid. apply andb_true_iff in Hvalid as [Hu Hus].
  unfold run. cbn [fold_left]. apply IH.
  - exact Hus.
  - apply dispatch_inv; assumption.
  - apply dispatch_sessions; assumption.
  - destruct (dispatch_step w u Hu Hinv (Hok _)) as (_ & (l & -> & Hl) & _).
    apply Forall_app. split; assumption.
Qed.

(** The two invariants of the states reached from the empty database. *)
Lemma reachable_ok us :
  forallb valid_update us = true ->
  inv (run ADMIN_IDS us empty_world)
  /\ (forall uid, Sessions.user_ok uid (run ADMIN_IDS us empty_world))
  /\ Forall (Sessions.admin_cap ADMIN_IDS) (error_log (run ADMIN_IDS us empty_world)).
Proof.
  intros Hvalid. split; [apply run_inv; [exact Hvalid | apply inv_empty] |].
  apply run_sessions; [exact Hvalid | apply inv_empty | apply user_ok_empty | constructor].
Qed.

Lemma reachable_row us uid c :
  forallb valid_update us = true ->
  candidates (run ADMIN_IDS us empty_world) !! uid = Some c ->
  Invariant.row_ok ADMIN_IDS uid c
  /\ Sessions.session_ok c (responses_of uid (run ADMIN_IDS us empty_world)).
Proof.
  intros Hvalid Hc. destruct (reachable_ok us Hvalid) as ((Hrows & _) & Hok & _).
  split; [exact (Hrows uid c Hc) |].
  specialize (Hok uid). unfold Sessions.user_ok in Hok. rewrite Hc in Hok. exact Hok.
Qed.

End SessionProofs.

(** ** The states reached from the empty database *)

Lemma generate_feedback_nonempty score ai_score decision :
  Utils.generate_feedback score ai_score decision <> EmptyString.
Proof.
  unfold Utils.generate_feedback.
  destruct (decide (decision = Scoring.APPROVED));
    [| destruct (decide (decision = Scoring.BORDERLINE))];
    intros H; vm_compute in H; discriminate H.
Qed.

Section Reachable.
Variable ADMIN_IDS : list Z.
Local Abbreviation is_admin := (Handlers.is_admin ADMIN_IDS).

(** A user who is no administrator never gets past the cursor [Q + 1]. *)
Lemma reachable_cursor_max us uid c :
  forallb valid_update us = true ->
  candidates (run ADMIN_IDS us empty_world) !! uid = Some c ->
  is_admin uid = false ->
  question_index c <= 6.
Proof.
  intros Hvalid Hc Hadm.
  destruct (reachable_ok ADMIN_IDS us Hvalid) as ((_ & _ & Hrange & _) & _ & _).
  destruct (reachable_row ADMIN_IDS us uid c Hvalid Hc)
    as (_ & _ & (_ & _ & _ & _ & _ & Hnum & _)).
  destruct (Z.le_gt_cases (question_index c) 6) as [Hle | Hgt]; [exact Hle |].
  assert (Hmem : question_index c - 2
                 ∈ question_number <$> responses_of uid (run ADMIN_IDS us empty_world)).
  { rewrite Hnum. apply elem_of_seqZ. lia. }
  apply list_elem_of_fmap in Hmem as (r & Hr & Hin).
  unfold responses_of in Hin. apply list_elem_of_filter in Hin as [Hu Hin].
  assert (0 <= question_number r <= 4) by (apply Hrange; [exact Hin | congruence]).
  lia.
Qed.

(** X12. In every state reached from the empty database by well-formed
    deliveries the two completion flags of a row are equal, and a row is
    either open, with a cursor of at most [Q] and neither decision nor
    feedback, or locked, with a cursor of at least [Q + 1], the decision
    that [determine_decision] gives for the stored scores and the feedback
    that [generate_feedback] gives for them. *)
Theorem completion_record_consistent us uid c :
  forallb valid_update us = true ->
  candidates (run ADMIN_IDS us empty_world) !! uid = Some c ->
  completed c = has_completed_interview c
  /\ (has_completed_interview c = 0
      /\ question_index c <= 5 /\ decision c = None /\ feedback c = None
      \/ has_completed_interview c = 1
         /\ 6 <= question_index c
         /\ decision c = Some (Scoring.determine_decision (score c) (ai_score c))
         /\ feedback c
            = Some (Utils.generate_feedback (score c) (ai_score c)
                      (Scoring.determine_decision (score c) (ai_score c)))).
Proof.
  intros Hvalid Hc.
  destruct (reachable_row ADMIN_IDS us uid c Hvalid Hc)
    as (_ & (Hcomp & Hflag & Hunlk & Hlk) & _).
  split; [exact Hcomp |].
  destruct Hflag as [H | H]; [left | right]; (split; [exact H | auto]).
Qed.

(** X13. In every state reached from the empty database by well-formed
    deliveries the responses of a user are, in the order stored, the
    answers to the questions 0 to cursor - 2, each with the text that
    [_handle_answer] takes from the selected questions; so no response is
    stored for the question the cursor is on, and the branch of
    [_handle_answer] for a duplicate is not taken.  A user without a row
    has no responses. *)
Theorem transcript_in_order us uid :
  forallb valid_update us = true ->
  let w := run ADMIN_IDS us empty_world in
  match candidates w !! uid with
  | Some c =>
      question_number <$> responses_of uid w = seqZ 0 (Z.max 0 (question_index c - 1))
      /\ (forall r questions,
            r ∈ responses_of uid w -> selected_questions c = Some questions ->
            question_text r
            = Steps.previous_question_text questions (question_number r))
      /\ responses_for uid (question_index c - 1) w = []
  | None => responses_of uid w = []
  end.
Proof.
  intros Hvalid. cbv zeta.
  destruct (reachable_ok ADMIN_IDS us Hvalid) as (_ & Hok & _).
  specialize (Hok uid). unfold Sessions.user_ok in Hok.
  destruct (candidates (run ADMIN_IDS us empty_world) !! uid) as [c |]; [| exact Hok].
  destruct Hok as (_ & _ & _ & _ & _ & _ & Hnum & Htext).
  split; [exact Hnum |]. split; [exact Htext |].
  apply (responses_for_fresh uid _ _ _ Hnum). lia.
Qed.

(** X14. In every state reached from the empty database by well-formed
    deliveries a locked candidate who is no administrator is on cursor
    [Q + 1] and has exactly [Q] responses, numbered 0 to [Q - 1] in the
    order stored, whose question texts are the selected questions in
    their order. *)
Theorem completed_interview_has_every_answer us uid c :
  forallb valid_update us = true ->
  candidates (run ADMIN_IDS us empty_world) !! uid = Some c ->
  has_completed_interview c = 1 ->
  is_admin uid = false ->
  let rs := responses_of uid (run ADMIN_IDS us empty_world) in
  question_index c = 6
  /\ question_number <$> rs = [0; 1; 2; 3; 4]
  /\ selected_questions c = Some (question_text <$> rs).
Proof.
  intros Hvalid Hc Hlocked Hadm. cbv zeta.
  pose proof (reachable_cursor_max us uid c Hvalid Hc Hadm) as Hmax.
  destruct (reachable_row ADMIN_IDS us uid c Hvalid Hc)
    as (_ & (_ & _ & _ & Hlk) & (_ & _ & _ & Hname & _ & Hnum & Htext)).
  destruct (Hlk Hlocked) as (Hmin & _).
  assert (Hidx : question_index c = 6) by lia.
  split; [exact Hidx |].
  rewrite Hidx in Hnum. change (seqZ 0 (Z.max 0 (6 - 1))) with [0; 1; 2; 3; 4] in Hnum.
  split; [exact Hnum |].
  destruct Hname as (n & qs & _ & _ & _ & _ & Hqs & Hlen); [lia |].
  rewrite Hqs. f_equal. clear Hc.
  set (rs := responses_of uid (run ADMIN_IDS us empty_world)) in *. clearbody rs.
  destruct rs as [| r0 [| r1 [| r2 [| r3 [| r4 [| r5 rs]]]]]]; try discriminate Hnum.
  destruct qs as [| q0 [| q1 [| q2 [| q3 [| q4 [| q5 qs]]]]]]; try discriminate Hlen.
  cbn [fmap list_fmap] in Hnum. injection Hnum as H0 H1 H2 H3 H4.
  pose proof (Htext r0 _ ltac:(repeat constructor) Hqs) as T0.
  pose proof (Htext r1 _ ltac:(repeat constructor) Hqs) as T1.
  pose proof (Htext r2 _ ltac:(repeat constructor) Hqs) as T2.
  pose proof (Htext r3 _ ltac:(repeat constructor) Hqs) as T3.
  pose proof (Htext r4 _ ltac:(repeat constructor) Hqs) as T4.
  rewrite H0 in T0. rewrite H1 in T1. rewrite H2 in T2. rewrite H3 in T3.
  rewrite H4 in T4.
  cbn [fmap list_fmap]. rewrite T0, T1, T2, T3, T4. reflexivity.
Qed.


(** X16. In every state reached from the empty database by well-formed
    deliveries a user has cursor - 1 responses (none before cursor 1), and
    neither the score nor the AI score of the row exceeds ten points per
    response; a user who is no administrator has an AI score of at most
    [10 * Q]. *)
Theorem scores_per_response us uid c :
  forallb valid_update us = true ->
  candidates (run ADMIN_IDS us empty_world) !! uid = Some c ->
  let answers := Z.of_nat (length (responses_of uid (run ADMIN_IDS us empty_world))) in
  answers = Z.max 0 (question_index c - 1)
  /\ 0 <= score c <= 10 * answers
  /\ 0 <= ai_score c <= 10 * answers
  /\ (is_admin uid = false -> ai_score c <= 50).
Proof.
  intros Hvalid Hc. cbv zeta.
  destruct (reachable_row ADMIN_IDS us uid c Hvalid Hc)
    as ((Hs & Hb & _) & _ & (Hlow & _ & _ & _ & Hai & Hnum & _)).
  assert (Hlen : Z.of_nat (length (responses_of uid (run ADMIN_IDS us empty_world)))
                 = Z.max 0 (question_index c - 1)).
  { rewrite <- (length_fmap question_number), Hnum, length_seqZ. lia. }
  rewrite Hlen. split; [reflexivity |]. split; [lia |]. split; [lia |].
  intros Hadm. pose proof (reachable_cursor_max us uid c Hvalid Hc Hadm). lia.
Qed.

(** X17. From the empty database, well-formed deliveries log no error but
    the cap of the final score of an administrator: the other error
    branches of the handlers (no questions found, failed lock
    verification, fresh start after completion, score above the maximum
    before an answer, exception in [handle_message]) are never taken. *)
Theorem only_administrator_caps_are_logged us e :
  forallb valid_update us = true ->
  e ∈ error_log (run ADMIN_IDS us empty_world) ->
  exists uid final_score,
    e = FinalScoreExceedsMaximum uid final_score /\ is_admin uid = true.
Proof.
  intros Hvalid Hin.
  destruct (reachable_ok ADMIN_IDS us Hvalid) as (_ & _ & Hlog).
  rewrite Forall_forall in Hlog. specialize (Hlog e Hin).
  destruct e; cbn [Sessions.admin_cap] in Hlog; try contradiction.
  eexists _, _. split; [reflexivity | exact Hlog].
Qed.

(** X18. In a state reached from the empty database by well-formed
    deliveries, every well-formed delivery is answered with one or two
    [reply_text] messages, all of them in the chat of the sender. *)
Theorem every_delivery_is_answered us u :
  forallb valid_update us = true ->
  valid_update u = true ->
  let w := run ADMIN_IDS us empty_world in
  exists replies,
    outbox (dispatch ADMIN_IDS w u) = (outbox w ++ replies)%list
    /\ (1 <= length replies <= 2)%nat
    /\ Forall (fun m => m.1 = sender u) replies.
Proof.
  intros Hvalid Hu. cbv zeta.
  destruct (reachable_ok ADMIN_IDS us Hvalid) as (Hinv & Hok & _).
  destruct (dispatch_step ADMIN_IDS _ u Hu Hinv (Hok _))
    as (_ & _ & (l & Hl & Hlen & Hto)).
  exists l. auto.
Qed.


(** X20. The deliveries of other users leave the row and the responses
    of a user as they are. *)
Theorem sessions_are_isolated uid us w :
  Forall (fun u => sender u <> uid) us ->
  candidates (run ADMIN_IDS us w) !! uid = candidates w !! uid
  /\ responses_of uid (run ADMIN_IDS us w) = responses_of uid w.
Proof.
  revert w. induction us as [| u us IH]; intros w Hus; [split; reflexivity |].
  apply List.Forall_cons_iff in Hus as [Hu Hus].
  unfold run. cbn [fold_left].
  destruct (IH (dispatch ADMIN_IDS w u) Hus) as [Hc Hr]. unfold run in Hc, Hr.
  destruct (dispatch_frame ADMIN_IDS uid w u Hu) as [Hc' Hr'].
  split; congruence.
Qed.

(** X21. In a state reached from the empty database by well-formed
    deliveries, a text message of a user with a row takes nothing back:
    the row stays, its cursor, score and AI score do not decrease, and the
    stored responses are kept, with at most one added at the end. *)
Theorem text_message_takes_nothing_back us uid text clock draw c :
  forallb valid_update us = true ->
  Questions.valid_draw draw = true ->
  candidates (run ADMIN_IDS us empty_world) !! uid = Some c ->
  let w := run ADMIN_IDS us empty_world in
  let w' := handle_message ADMIN_IDS uid text clock draw w in
  (exists c',
     candidates w' !! uid = Some c'
     /\ question_index c <= question_index c'
     /\ score c <= score c'
     /\ ai_score c <= ai_score c')
  /\ (responses w' = responses w \/ exists r, responses w' = (responses w ++ [r])%list).
Proof.
  intros Hvalid Hdraw Hc. cbv zeta.
  destruct (reachable_row ADMIN_IDS us uid c Hvalid Hc)
    as ((Hs & Hb & _) & (_ & Hflag & Hunlk & Hlk) & Hprog).
  pose proof Hprog as (Hlow & Hzero & _ & Hname & Hai & Hnum & _).
  set (w := run ADMIN_IDS us empty_world) in *. clearbody w.
  pose proof (analyze_response_score_range text
                (PrimFloat.sub (clock 0%nat) (last_time c))) as Hsr.
  pose proof (analyze_response_ai_range text
                (PrimFloat.sub (clock 0%nat) (last_time c))) as Har.
  assert (Hreply : forall notice,
            (exists c', candidates (reply uid notice w) !! uid = Some c'
                        /\ question_index c <= question_index c'
                        /\ score c <= score c' /\ ai_score c <= ai_score c')
            /\ (responses (reply uid notice w) = responses w
                \/ exists r, responses (reply uid notice w) = (responses w ++ [r])%list)).
  { intros notice. split; [| left; reflexivity].
    exists c. split; [exact Hc | lia]. }
  assert (Hfinal :
    has_completed_interview c = 0 /\ question_index c = 5
    \/ has_completed_interview c = 1 /\ is_admin uid = true ->
    (exists c', candidates (handle_message ADMIN_IDS uid text clock draw w) !! uid = Some c'
                /\ question_index c <= question_index c'
                /\ score c <= score c' /\ ai_score c <= ai_score c')
    /\ (responses (handle_message ADMIN_IDS uid text clock draw w) = responses w
        \/ exists r, responses (handle_message ADMIN_IDS uid text clock draw w)
                     = (responses w ++ [r])%list)).
  { intros Hcase.
    assert (Hidx : 5 <= question_index c).
    { destruct Hcase as [[_ H] | [H _]]; [lia | destruct (Hlk H); lia]. }
    destruct Hname as (n & qs & _ & _ & _ & _ & Hqs & Hlen); [lia |].
    assert (Hne : qs <> []) by (intros ->; discriminate Hlen).
    rewrite (handle_message_final ADMIN_IDS uid text clock draw w c qs Hc);
      [| destruct Hcase as [[H _] | H]; [left; exact H | right; exact H]
       | exact Hqs | exact Hne
       | rewrite Hlen; change (Z.of_nat Questions.QUESTIONS_PER_INTERVIEW) with 5; lia
       | apply (responses_for_fresh uid _ _ w Hnum); lia | lia].
    wsimpl. split; [| right; eexists; reflexivity].
    eexists. split; [apply lookup_insert_eq |].
    unfold Steps.completed_row. rsimpl. rewrite final_score_min.
    unfold Steps.scored_row. cbv zeta.
    destruct (has_completed_interview c =? 1); rsimpl; lia. }
  destruct Hflag as [Hunl | Hlocked].
  2:{ destruct (is_admin uid) eqn:Hadm; [apply Hfinal; right; auto |].
      unfold handle_message. rewrite Hc, Hlocked, Hadm. cbn [Z.eqb Pos.eqb andb negb].
      apply Hreply. }
  destruct (Hunlk Hunl) as (Hmax & _).
  assert (Hcases : question_index c = -1 \/ 1 <= question_index c < 5
                   \/ question_index c = 5) by lia.
  destruct Hcases as [Hidx | [Hidx | Hidx]]; [| | apply Hfinal; left; auto].
  - destruct ((String.length (strip text) <? 2)%nat
              || (20 <? String.length (strip text))%nat
              || (contains "." (strip text) || contains nl (strip text))) eqn:Hname_ok.
    + destruct (handle_message_name_rejected ADMIN_IDS uid text clock draw w c Hc Hunl
                  Hidx Hname_ok) as [notice ->].
      apply Hreply.
    + destruct (handle_message_name_accepted ADMIN_IDS uid text clock draw w c Hc Hunl
                  Hidx Hname_ok Hdraw) as (q & _ & ->).
      wsimpl. split; [| left; reflexivity].
      eexists. split; [apply lookup_insert_eq |]. rsimpl. lia.
  - destruct Hname as (n & qs & _ & _ & _ & _ & Hqs & Hlen); [lia |].
    rewrite (handle_message_answer ADMIN_IDS uid text clock draw w c qs Hc Hunl Hqs);
      [| rewrite Hlen; change (Z.of_nat Questions.QUESTIONS_PER_INTERVIEW) with 5; lia
       | apply (responses_for_fresh uid _ _ w Hnum); lia | lia].
    unfold Steps.answered. wsimpl. split; [| right; eexists; reflexivity].
    eexists. split; [apply lookup_insert_eq |].
    unfold Steps.scored_row. cbv zeta. rsimpl. lia.
Qed.

(** X22. In a state reached from the empty database by well-formed
    deliveries, [/start] of a locked candidate who is no administrator is
    answered from the stored scores: with the notice of acceptance when
    the score is at least 17 and the AI score at most 8, else with the
    borderline feedback when the score is at least 13 and the AI score at
    most 10, else with the rejection feedback; the notice for a row
    without feedback is never sent. *)
Theorem locked_start_reply us uid c uname clock :
  forallb valid_update us = true ->
  candidates (run ADMIN_IDS us empty_world) !! uid = Some c ->
  has_completed_interview c = 1 ->
  is_admin uid = false ->
  let w := run ADMIN_IDS us empty_world in
  start_handler ADMIN_IDS uid uname clock w
  = reply uid
      (if (17 <=? score c) && (ai_score c <=? 8) then Msg.already_accepted
       else if (13 <=? score c) && (ai_score c <=? 10) then Utils.feedback_borderline
       else Utils.feedback_other) w.
Proof.
  intros Hvalid Hc Hlocked Hadm. cbv zeta.
  destruct (reachable_row ADMIN_IDS us uid c Hvalid Hc)
    as (_ & (_ & _ & _ & Hlk) & _).
  destruct (Hlk Hlocked) as (_ & Hdec & Hfb).
  set (w := run ADMIN_IDS us empty_world) in *. clearbody w.
  unfold start_handler. cbv zeta. rewrite Hc. cbn [is_locked].
  rewrite Hlocked, Hadm. cbn [Z.eqb Pos.eqb andb negb]. rewrite Hdec, Hfb.
  pose proof (generate_feedback_nonempty (score c) (ai_score c)
                (Scoring.determine_decision (score c) (ai_score c))) as Hne.
  destruct (decide (Utils.generate_feedback (score c) (ai_score c)
                      (Scoring.determine_decision (score c) (ai_score c))
                    = EmptyString)) as [Hempty | _]; [contradiction |].
  unfold Utils.generate_feedback, Scoring.determine_decision.
  destruct ((17 <=? score c) && (ai_score c <=? 8)).
  - destruct (decide (Some Scoring.APPROVED = Some Scoring.APPROVED));
      [reflexivity | congruence].
  - destruct ((13 <=? score c) && (ai_score c <=? 10)).
    + destruct (decide (Some Scoring.BORDERLINE = Some Scoring.APPROVED)) as [H | _];
        [discriminate H |].
      destruct (decide (Scoring.BORDERLINE = Scoring.APPROVED)) as [H | _];
        [discriminate H |].
      destruct (decide (Scoring.BORDERLINE = Scoring.BORDERLINE)); [reflexivity | congruence].
    + destruct (decide (Some Scoring.NOT_ELIGIBLE = Some Scoring.APPROVED)) as [H | _];
        [discriminate H |].
      destruct (decide (Scoring.NOT_ELIGIBLE = Scoring.APPROVED)) as [H | _];
        [discriminate H |].
      destruct (decide (Scoring.NOT_ELIGIBLE = Scoring.BORDERLINE)) as [H | _];
        [discriminate H | reflexivity].
Qed.

End Reachable.

(** ** The database at the start of the bot *)

Lemma migrate_row_idem c :
  Database.migrate_row (Database.migrate_row c) = Database.migrate_row c.
Proof.
  unfold Database.migrate_row. destruct (completed c =? 1) eqn:H; rsimpl; rewrite H;
    reflexivity.
Qed.

Lemma init_database_idem w :
  Database.init_database (Database.init_database w) = Database.init_database w.
Proof.
  unfold Database.init_database, with_candidates. wsimpl. f_equal.
  rewrite <- map_fmap_compose. apply map_fmap_ext. intros uid c _.
  apply migrate_row_idem.
Qed.

Lemma init_database_id w :
  (forall uid c, candidates w !! uid = Some c ->
                 completed c = has_completed_interview c) ->
  Database.init_database w = w.
Proof.
  intros Hrows. unfold Database.init_database, with_candidates.
  replace (Database.migrate_row <$> candidates w) with (candidates w);
    [destruct w; reflexivity |].
  rewrite <- (map_fmap_id (candidates w)) at 1. apply map_fmap_ext. intros uid c Hc.
  unfold Database.migrate_row. destruct (Z.eqb_spec (completed c) 1) as [H | _];
    [| reflexivity].
  pose proof (Hrows uid c Hc) as Heq. rewrite H in Heq.
  destruct c; cbn in *; subst; reflexivity.
Qed.

Lemma init_database_empty w :
  candidates w = ∅ -> Database.init_database w = w.
Proof.
  intros Hempty. apply init_database_id. intros uid c Hc.
  rewrite Hempty, lookup_empty in Hc. discriminate Hc.
Qed.

Section Startup.
Variable ADMIN_IDS : list Z.

(** X23. A state reached from the empty database by well-formed
    deliveries, with the flag file of the day written, is left as it is by
    the database calls of a restart on the same day: the migration of
    [init_database] finds both completion flags equal in every row, and
    [clear_database] finds the date of the day. *)
Theorem restart_on_the_same_day_keeps_sessions us today content :
  forallb valid_update us = true ->
  strip content = today ->
  let s := Database.mk_storage (run ADMIN_IDS us empty_world) (Some content) in
  Database.init_database (run ADMIN_IDS us empty_world) = run ADMIN_IDS us empty_world
  /\ Database.main_database_setup today s = s.
Proof.
  intros Hvalid Hday. cbv zeta.
  assert (Hinit : Database.init_database (run ADMIN_IDS us empty_world)
                  = run ADMIN_IDS us empty_world).
  { apply init_database_id. intros uid c Hc.
    destruct (reachable_row ADMIN_IDS us uid c Hvalid Hc) as (_ & (Hcomp & _) & _).
    exact Hcomp. }
  split; [exact Hinit |].
  unfold Database.main_database_setup. cbn [Database.database Database.flag_file].
  rewrite Hinit. unfold Database.clear_database. cbn [Database.flag_file].
  destruct (decide (strip content = today)); [reflexivity | contradiction].
Qed.

End Startup.

(** X24. The database calls at the start of the bot, on a day [today]
    written without surrounding white space: when the flag file is missing
    or holds another day, every row of both tables is deleted, locked rows
    included, and the day is written to the flag file; and the calls of a
    second start on the same day change nothing. *)
Theorem main_database_setup_once_a_day today s :
  strip today = today ->
  let s1 := Database.main_database_setup today s in
  (match Database.flag_file s with
   | Some content => strip content <> today
   | None => True
   end ->
   candidates (Database.database s1) = ∅
   /\ responses (Database.database s1) = []
   /\ Database.flag_file s1 = Some today)
  /\ Database.main_database_setup today s1 = s1.
Proof.
  intros Hday. cbv zeta.
  assert (Hcleared :
    forall w, Database.main_database_setup today
                (Database.mk_storage (Database.delete_everything w) (Some today))
              = Database.mk_storage (Database.delete_everything w) (Some today)).
  { intros w. unfold Database.main_database_setup, Database.clear_database.
    cbn [Database.database Database.flag_file].
    rewrite init_database_empty by reflexivity.
    destruct (decide (strip today = today)); [reflexivity | contradiction]. }
  assert (Hkept :
    forall w content, strip content = today ->
      Database.main_database_setup today
        (Database.mk_storage (Database.init_database w) (Some content))
      = Database.mk_storage (Database.init_database w) (Some content)).
  { intros w content Hsame.
    unfold Database.main_database_setup, Database.clear_database.
    cbn [Database.database Database.flag_file]. rewrite init_database_idem.
    destruct (decide (strip content = today)); [reflexivity | contradiction]. }
  assert (Hs1 :
    Database.main_database_setup today s
    = match Database.flag_file s with
      | Some content =>
          if decide (strip content = today)
          then Database.mk_storage (Database.init_database (Database.database s))
                 (Some content)
          else Database.mk_storage
                 (Database.delete_everything
                    (Database.init_database (Database.database s))) (Some today)
      | None =>
          Database.mk_storage
            (Database.delete_everything (Database.init_database (Database.database s)))
            (Some today)
      end).
  { unfold Database.main_database_setup, Database.clear_database.
    cbn [Database.database Database.flag_file].
    destruct (Database.flag_file s) as [content |]; [| reflexivity].
    destruct (decide (strip content = today)); reflexivity. }
  rewrite Hs1. clear Hs1.
  destruct (Database.flag_file s) as [content |].
  - destruct (decide (strip content = today)) as [Hsame | Hother].
    + split; [intros Hne; contradiction | apply Hkept, Hsame].
    + split; [intros _; repeat split | apply Hcleared].
  - split; [intros _; repeat split | apply Hcleared].
Qed.

(** ** The further properties on concrete inputs *)

(** A borderline pair of scores against an approved one. *)
Lemma determine_decision_monotone_witness :
  13 <= 20 /\ 9 <= 10
  /\ Rubric.decision_rank (Scoring.determine_decision 13 10)
     <= Rubric.decision_rank (Scoring.determine_decision 20 9).
Proof.
  split; [lia |]. split; [lia |].
  apply (determine_decision_monotone 13 20 10 9); lia.
Defined.

(** Four sales words in one message. *)
Lemma overpushing_caps_score_witness :
  (4 <= Rubric.sales_word_count (lower "Buy it, pay now, tip me or order more"))%nat
  /\ Scoring._score_monetization (lower "Buy it, pay now, tip me or order more") = 0
  /\ Scoring._score_pacing (lower "Buy it, pay now, tip me or order more")
       (length (split "Buy it, pay now, tip me or order more")) = 0
  /\ Scoring._score_emotional_investment (lower "Buy it, pay now, tip me or order more")
     <= 1
  /\ (Scoring.analyze_response "Buy it, pay now, tip me or order more" 10).1 <= 5.
Proof.
  split; [vm_compute; lia |].
  apply (overpushing_caps_score "Buy it, pay now, tip me or order more" 10).
  vm_compute. lia.
Defined.

(** The first five questions of the pool, drawn in order. *)
Lemma get_random_questions_sample_witness :
  Questions.valid_draw draw5 = true
  /\ length (Questions.get_random_questions draw5) = Questions.QUESTIONS_PER_INTERVIEW
  /\ NoDup (Questions.get_random_questions draw5)
  /\ (forall q, q ∈ Questions.get_random_questions draw5 -> q ∈ Questions.QUESTION_POOL)
  /\ forall k i, draw5 !! k = Some i ->
       Questions.get_random_questions draw5 !! k = Questions.QUESTION_POOL !! i.
Proof.
  split; [vm_compute; reflexivity |].
  apply (get_random_questions_sample draw5). vm_compute. reflexivity.
Defined.

(** The completion of user 7 after four neutral answers. *)
Lemma _complete_interview_effect_witness :
  let w := run admins (interview 7 neutral_answer 4) empty_world in
  let c := row_of 7 w in
  let w' := _complete_interview admins 7 99 w in
  let c' := Steps.completed_row c 99 in
  candidates w' = <[7 := c']> (candidates w)
  /\ responses w' = responses w
  /\ error_log w' = Steps.completion_log 7 c (error_log w)
  /\ outbox w' = (outbox w ++ [(7, Steps.completion_reply (is_admin admins 7) c)])%list
  /\ has_completed_interview c' = 1
  /\ completed c' = 1
  /\ score c' = Z.min (score c) 50
  /\ ai_score c' = ai_score c
  /\ decision c' = Some (Scoring.determine_decision (Z.min (score c) 50) (ai_score c))
  /\ feedback c'
     = Some (Utils.generate_feedback (score c') (ai_score c')
               (Scoring.determine_decision (score c') (ai_score c'))).
Proof.
  apply (_complete_interview_effect admins 7 99
           (run admins (interview 7 neutral_answer 4) empty_world)
           (row_of 7 (run admins (interview 7 neutral_answer 4) empty_world)));
    vm_compute; reflexivity.
Defined.



(** The row of the rejected candidate of the scenarios. *)
Lemma completion_record_consistent_witness :
  let c := row_of 7 rejected_world in
  forallb valid_update (interview 7 neutral_answer 5) = true
  /\ completed c = has_completed_interview c
  /\ (has_completed_interview c = 0
      /\ question_index c <= 5 /\ decision c = None /\ feedback c = None
      \/ has_completed_interview c = 1
         /\ 6 <= question_index c
         /\ decision c = Some (Scoring.determine_decision (score c) (ai_score c))
         /\ feedback c
            = Some (Utils.generate_feedback (score c) (ai_score c)
                      (Scoring.determine_decision (score c) (ai_score c)))).
Proof.
  split; [vm_compute; reflexivity |].
  apply (completion_record_consistent admins (interview 7 neutral_answer 5) 7
           (row_of 7 rejected_world));
    vm_compute; reflexivity.
Defined.

(** The transcript of user 7 after three answers. *)
Lemma transcript_in_order_witness :
  let w := run admins (interview 7 neutral_answer 3) empty_world in
  forallb valid_update (interview 7 neutral_answer 3) = true
  /\ match candidates w !! 7 with
     | Some c =>
         question_number <$> responses_of 7 w = seqZ 0 (Z.max 0 (question_index c - 1))
         /\ (forall r questions,
               r ∈ responses_of 7 w -> selected_questions c = Some questions ->
               question_text r
               = Steps.previous_question_text questions (question_number r))
         /\ responses_for 7 (question_index c - 1) w = []
     | None => responses_of 7 w = []
     end.
Proof.
  split; [vm_compute; reflexivity |].
  apply (transcript_in_order admins (interview 7 neutral_answer 3) 7).
  vm_compute. reflexivity.
Defined.

(** The five answers of the rejected candidate of the scenarios. *)
Lemma completed_interview_has_every_answer_witness :
  let c := row_of 7 rejected_world in
  let rs := responses_of 7 rejected_world in
  question_index c = 6
  /\ question_number <$> rs = [0; 1; 2; 3; 4]
  /\ selected_questions c = Some (question_text <$> rs).
Proof.
  apply (completed_interview_has_every_answer admins (interview 7 neutral_answer 5) 7
           (row_of 7 rejected_world));
    vm_compute; reflexivity.
Defined.


(** The scores of the administrator of the scenarios after six answers. *)
Lemma scores_per_response_witness :
  let c := row_of 1 admin_world in
  let answers := Z.of_nat (length (responses_of 1 admin_world)) in
  answers = Z.max 0 (question_index c - 1)
  /\ 0 <= score c <= 10 * answers
  /\ 0 <= ai_score c <= 10 * answers
  /\ (is_admin admins 1 = false -> ai_score c <= 50).
Proof.
  apply (scores_per_response admins (paced_interview 0 1 strong_answer 6) 1
           (row_of 1 admin_world));
    vm_compute; reflexivity.
Defined.

(** The one error of the administrator's six answers. *)
Lemma only_administrator_caps_are_logged_witness :
  error_log admin_world = [FinalScoreExceedsMaximum 1 60]
  /\ exists uid final_score,
       FinalScoreExceedsMaximum 1 60 = FinalScoreExceedsMaximum uid final_score
       /\ is_admin admins uid = true.
Proof.
  split; [vm_compute; reflexivity |].
  apply (only_administrator_caps_are_logged admins (paced_interview 0 1 strong_answer 6)
           (FinalScoreExceedsMaximum 1 60)).
  - vm_compute. reflexivity.
  - vm_compute. constructor.
Defined.

(** A message of the rejected candidate of the scenarios. *)
Lemma every_delivery_is_answered_witness :
  let u := TextMessage 7 neutral_answer (clock_at 99) draw5 in
  exists replies,
    outbox (dispatch admins rejected_world u) = (outbox rejected_world ++ replies)%list
    /\ (1 <= length replies <= 2)%nat
    /\ Forall (fun m => m.1 = sender u) replies.
Proof.
  apply (every_delivery_is_answered admins (interview 7 neutral_answer 5)
           (TextMessage 7 neutral_answer (clock_at 99) draw5));
    vm_compute; reflexivity.
Defined.

(** The interview of user 7 beside the session of user 8. *)
Lemma sessions_are_isolated_witness :
  let w := run admins (interview 8 neutral_answer 1) empty_world in
  let us := interview 7 neutral_answer 5 in
  candidates (run admins us w) !! 8 = candidates w !! 8
  /\ responses_of 8 (run admins us w) = responses_of 8 w.
Proof.
  apply (sessions_are_isolated admins 8 (interview 7 neutral_answer 5)
           (run admins (interview 8 neutral_answer 1) empty_world)).
  repeat constructor; vm_compute; discriminate.
Defined.

(** The third answer of user 7 takes nothing back. *)
Lemma text_message_takes_nothing_back_witness :
  let w := run admins (interview 7 neutral_answer 2) empty_world in
  let c := row_of 7 w in
  let w' := handle_message admins 7 strong_answer (clock_at 40) draw5 w in
  (exists c',
     candidates w' !! 7 = Some c'
     /\ question_index c <= question_index c'
     /\ score c <= score c'
     /\ ai_score c <= ai_score c')
  /\ (responses w' = responses w \/ exists r, responses w' = (responses w ++ [r])%list).
Proof.
  apply (text_message_takes_nothing_back admins (interview 7 neutral_answer 2) 7
           strong_answer (clock_at 40) draw5
           (row_of 7 (run admins (interview 7 neutral_answer 2) empty_world)));
    vm_compute; reflexivity.
Defined.

(** [/start] of the rejected and of the approved candidate of the scenarios. *)
Lemma locked_start_reply_witness :
  start_handler admins 7 (Some "al") (clock_at 99) rejected_world
  = reply 7 Utils.feedback_other rejected_world
  /\ start_handler admins 7 (Some "al") (clock_at 99) approved_world
     = reply 7 Msg.already_accepted approved_world.
Proof.
  split.
  - apply (locked_start_reply admins (interview 7 neutral_answer 5) 7
             (row_of 7 rejected_world) (Some "al") (clock_at 99));
      vm_compute; reflexivity.
  - apply (locked_start_reply admins (interview 7 strong_answer 5) 7
             (row_of 7 approved_world) (Some "al") (clock_at 99));
      vm_compute; reflexivity.
Defined.

(** A restart on the day of the flag file, which ends with a newline. *)
Lemma restart_on_the_same_day_keeps_sessions_witness :
  let s := Database.mk_storage rejected_world (Some ("2026-01-15" ++ nl)) in
  strip ("2026-01-15" ++ nl) = "2026-01-15"
  /\ Database.init_database rejected_world = rejected_world
  /\ Database.main_database_setup "2026-01-15" s = s.
Proof.
  split; [vm_compute; reflexivity |].
  apply (restart_on_the_same_day_keeps_sessions admins (interview 7 neutral_answer 5)
           "2026-01-15" ("2026-01-15" ++ nl));
    vm_compute; reflexivity.
Defined.

(** The first start of the day after the interview of the rejected
    candidate: the lock is gone with the row. *)
Lemma main_database_setup_once_a_day_witness :
  let s := Database.mk_storage rejected_world (Some "2026-01-14") in
  let s1 := Database.main_database_setup "2026-01-15" s in
  candidates (Database.database s1) !! 7 = None
  /\ responses (Database.database s1) = []
  /\ Database.flag_file s1 = Some "2026-01-15"
  /\ Database.main_database_setup "2026-01-15" s1 = s1.
Proof.
  destruct (main_database_setup_once_a_day "2026-01-15"
              (Database.mk_storage rejected_world (Some "2026-01-14")))
    as [Hclear Hagain]; [vm_compute; reflexivity |].
  destruct Hclear as (Hc & Hr & Hf); [vm_compute; discriminate |].
  split; [rewrite Hc; reflexivity |]. split; [exact Hr |]. split; [exact Hf | exact Hagain].
Defined.
